(** * Games-Sorter: the serverless game samplers, embedded and verified

    The repository holds six revisions of two Vercel serverless functions
    ([api/rawg.js] and [api/giantbomb.js]).  Each revision is embedded below
    in a module of its own:

    - [Rawg]              src/api/rawg.js: RAWG, one shot
    - [GiantBomb]         src/api/giantbomb.js: Giant Bomb, one shot, genres
                          and platforms
    - [RawgRetry]         src/unnamed/part_000: RAWG, five attempts
    - [GiantBombRandom]   src/unnamed/part_001: Giant Bomb, random offset,
                          five attempts
    - [GiantBombCurated]  src/unnamed/part_002 (first document): Giant Bomb
                          with the live platform listing
    - [GiantBombConcepts] src/unnamed/part_002 (second document): Giant Bomb
                          with genres and concepts

    The JavaScript is modelled as it runs: JSON values are a dynamic type
    [JsVal] with JavaScript truthiness and property reads (a read on
    [undefined] or [null] throws a TypeError); [async] functions are
    computations in a state-and-exception monad [Js] whose state records
    every outbound request and the number of [Math.random()] draws; the
    remote service and the random source are an arbitrary [World].

    Conventions of the model:
    - JSON numbers are integers ([Z]).  The counts the code does arithmetic
      on ([count], [number_of_total_results]) are read through the typed view
      [Listing] of a response body, so they are integers by type.
    - [Math.random()] returns an exact rational of [[0,1)]; the rounding of
      the floating-point product [Math.random() * n] is not modelled.
    - [fetch] always resolves and every body parses as JSON: the only
      transport failure is a response whose [ok] is false.
    - [console.log] and friends are not observable by a caller and are left
      out, except where evaluating their argument can throw.
    - The fields of a [JObj] are its own properties; their order carries no
      meaning. *)

From Stdlib Require Import ZArith List String Ascii Bool Lia DecimalString.
Import ListNotations.
Local Open Scope string_scope.
Local Open Scope Z_scope.

(** ** JavaScript values *)

#[warnings="-register-all"]
Inductive JsVal : Type :=
| JUndefined
| JNull
| JBool (b : bool)
| JNum (n : Z)
| JStr (s : string)
| JArr (items : list JsVal)
| JObj (fields : list (string * JsVal)).

(** The errors the code can see: [new Error(message)], the TypeError of a
    property read on [undefined]/[null], the TypeError of calling a property
    that is not a function, and the TypeError of converting an object to a
    primitive. *)
Inductive JsError : Type :=
| Error (message : string)
| TypeErrorRead (base : JsVal) (prop : string)
| TypeErrorCall (prop : string)
| TypeErrorPrimitive.

(** Completion of a computation: a value or a thrown error. *)
Inductive Completion (A : Type) : Type :=
| Normal (a : A)
| Throw (e : JsError).
Arguments Normal {A} a.
Arguments Throw {A} e.

(** ToBoolean. *)
Definition truthy (v : JsVal) : bool :=
  match v with
  | JUndefined | JNull => false
  | JBool b => b
  | JNum n => negb (n =? 0)
  | JStr s => negb (String.eqb s "")
  | JArr _ | JObj _ => true
  end.

Fixpoint lookup (k : string) (fields : list (string * JsVal)) : option JsVal :=
  match fields with
  | [] => None
  | (k', v) :: rest => if String.eqb k k' then Some v else lookup k rest
  end.

(** [v.k] for a data key [k] (none of the keys the code reads is a property
    of a prototype of a JSON value). *)
Definition getProp (v : JsVal) (k : string) : Completion JsVal :=
  match v with
  | JUndefined | JNull => Throw (TypeErrorRead v k)
  | JObj fields =>
      match lookup k fields with
      | Some x => Normal x
      | None => Normal JUndefined
      end
  | _ => Normal JUndefined
  end.

(** [o[k] = v] on an object used as a map. *)
Fixpoint setField (k : string) (v : JsVal) (fields : list (string * JsVal))
  : list (string * JsVal) :=
  match fields with
  | [] => [(k, v)]
  | (k', v') :: rest =>
      if String.eqb k k' then (k, v) :: rest else (k', v') :: setField k v rest
  end.

(** [a[i]] on an array: out of range is [undefined]. *)
Definition index (items : list JsVal) (i : Z) : JsVal :=
  if i <? 0 then JUndefined else nth (Z.to_nat i) items JUndefined.

(** Number.prototype.toString on an integer. *)
Definition decimal (n : Z) : string := NilZero.string_of_int (Z.to_int n).

Definition hasOwn (k : string) (fields : list (string * JsVal)) : bool :=
  match lookup k fields with Some _ => true | None => false end.

(** ToString of a value, as a template literal and [Array.prototype.join]
    apply it.  A JSON object converts to ["[object Object]"] unless it has an
    own [toString] entry, which (never being callable) makes the conversion
    throw.  [None] stands for that TypeError. *)
Fixpoint toStringOpt (v : JsVal) : option string :=
  match v with
  | JUndefined => Some "undefined"
  | JNull => Some "null"
  | JBool true => Some "true"
  | JBool false => Some "false"
  | JNum n => Some (decimal n)
  | JStr s => Some s
  | JArr items =>
      (fix join (l : list JsVal) : option string :=
         match l with
         | [] => Some ""
         | x :: rest =>
             let sx := match x with
                       | JUndefined | JNull => Some ""
                       | _ => toStringOpt x
                       end in
             match sx, rest with
             | None, _ => None
             | Some s, [] => Some s
             | Some s, _ :: _ =>
                 match join rest with
                 | Some r => Some (s ++ "," ++ r)
                 | None => None
                 end
             end
         end) items
  | JObj fields =>
      if hasOwn "toString" fields then None else Some "[object Object]"
  end.

Definition toString (v : JsVal) : Completion string :=
  match toStringOpt v with
  | Some s => Normal s
  | None => Throw TypeErrorPrimitive
  end.

(** The method call [v.toString()]. *)
Definition callToString (v : JsVal) : Completion string :=
  match v with
  | JUndefined | JNull => Throw (TypeErrorRead v "toString")
  | JObj fields =>
      if hasOwn "toString" fields then Throw (TypeErrorCall "toString")
      else Normal "[object Object]"
  | _ => toString v
  end.

(** [error.message], in V8's wording for the engine's own errors. *)
Definition messageOf (e : JsError) : string :=
  match e with
  | Error m => m
  | TypeErrorRead base prop =>
      "Cannot read properties of "
        ++ (match base with JNull => "null" | _ => "undefined" end)
        ++ " (reading '" ++ prop ++ "')"
  | TypeErrorCall prop => prop ++ " is not a function"
  | TypeErrorPrimitive => "Cannot convert object to primitive value"
  end.

(** ** Arithmetic of the samplers *)

(** A value of [Math.random()]: the rational [rnum / (rnum + rgap + 1)],
    which ranges over all rationals of [[0,1)]. *)
Record Unit01 : Type := mkUnit01 { rnum : nat; rgap : nat }.

Definition rden (r : Unit01) : Z := Z.of_nat (rnum r) + Z.of_nat (rgap r) + 1.

(** [Math.floor(r * n)]. *)
Definition floorMul (r : Unit01) (n : Z) : Z := (Z.of_nat (rnum r) * n) / rden r.

(** [Math.ceil(a / b)] for a positive divisor. *)
Definition ceilDiv (a b : Z) : Z := - ((- a) / b).

(** ** Requests, responses and the world *)

Inductive Param : Type :=
| PStr (s : string)
| PNum (n : Z).

(** One outbound [fetch]: the URL up to the [?], the query in the order it is
    built (values before [URLSearchParams] renders them), and the request
    headers. *)
Record Request : Type := mkRequest {
  url : string;
  query : list (string * Param);
  headers : list (string * string)
}.

(** The body of a list response read through the fields the samplers do
    arithmetic on: [total] is [count] (RAWG) or [number_of_total_results]
    (Giant Bomb); [results] is the array, [None] when the field is absent. *)
Record Listing : Type := mkListing {
  total : Z;
  results : option (list JsVal)
}.

(** An HTTP response: [response.ok], [response.status],
    [response.statusText], [await response.text()], and
    [await response.json()], the last both as a value and through the
    [Listing] view. *)
Record Response : Type := mkResponse {
  ok : bool;
  status : Z;
  statusText : string;
  text : string;
  json : JsVal;
  listing : Listing
}.

(** The environment of one invocation: what the [n]-th outbound call
    answers, what the [n]-th call of [Math.random()] returns, and what
    [new Date(v).getFullYear()] evaluates to in the runtime's time zone
    ([None] is [NaN], the year of an invalid date). *)
Record World : Type := mkWorld {
  respond : nat -> Request -> Response;
  random : nat -> Unit01;
  fullYear : JsVal -> option Z
}.

(** What one invocation has done so far. *)
Record Effects : Type := mkEffects {
  calls : list Request;
  draws : nat
}.

Definition noEffects : Effects := mkEffects [] 0%nat.

(** ** The monad of [async] code *)

Definition Js (A : Type) : Type := World -> Effects -> Completion A * Effects.

Definition ret {A} (a : A) : Js A := fun _ s => (Normal a, s).

Definition throw {A} (e : JsError) : Js A := fun _ s => (Throw e, s).

Definition bind {A B} (m : Js A) (f : A -> Js B) : Js B :=
  fun w s =>
    match m w s with
    | (Normal a, s') => f a w s'
    | (Throw e, s') => (Throw e, s')
    end.

Definition lift {A} (c : Completion A) : Js A := fun _ s => (c, s).

(** [try { body } catch (error) { handler }]. *)
Definition tryCatch {A} (body : Js A) (handler : JsError -> Js A) : Js A :=
  fun w s =>
    match body w s with
    | (Normal a, s') => (Normal a, s')
    | (Throw e, s') => handler e w s'
    end.

Declare Scope js_scope.
Delimit Scope js_scope with js.
Notation "x <- m ;; k" := (bind m (fun x => k))
  (at level 61, m at next level, right associativity) : js_scope.
Notation "m ;;; k" := (bind m (fun _ => k))
  (at level 61, right associativity) : js_scope.
Local Open Scope js_scope.

(** [await fetch(url, options)]: the call is recorded and answered by the
    world. *)
Definition fetch (req : Request) : Js Response :=
  fun w s =>
    (Normal (respond w (List.length (calls s)) req),
     mkEffects (calls s ++ [req]) (draws s)).

(** [Math.random()]. *)
Definition mathRandom : Js Unit01 :=
  fun w s => (Normal (random w (draws s)), mkEffects (calls s) (S (draws s))).

(** [new Date(v).getFullYear()]. *)
Definition getFullYear (v : JsVal) : Js (option Z) :=
  fun w s => (Normal (fullYear w v), s).

(** What a loop body tells its [for] loop: go on with the next iteration
    ([continue], or falling off the end of the body) or [return v]. *)
Inductive Ctl (A : Type) : Type :=
| Continue
| Return (v : A).
Arguments Continue {A}.
Arguments Return {A} v.

(** [for (let attempt = from; attempt < from + n; attempt++) body; after]. *)
Fixpoint forAttempts {A} (n : nat) (from : nat) (body : nat -> Js (Ctl A))
  (after : Js A) : Js A :=
  match n with
  | O => after
  | S k =>
      c <- body from ;;
      match c with
      | Return v => ret v
      | Continue => forAttempts k (S from) body after
      end
  end.

Definition run {A} (m : Js A) (w : World) : Completion A * Effects :=
  m w noEffects.

(** [v.k] where the code has already established that [v] is neither
    [undefined] nor [null] (the right operand of [v && v.k]). *)
Definition field (v : JsVal) (k : string) : JsVal :=
  match getProp v k with
  | Normal x => x
  | Throw _ => JUndefined
  end.

(** [a || b] on strings. *)
Definition orElse (a b : string) : string :=
  if String.eqb a "" then b else a.

(** [Math.min(250, Math.ceil(totalGames / 40))], the expression of both RAWG
    revisions. *)
Definition maxPage (totalGames : Z) : Z := Z.min 250 (ceilDiv totalGames 40).

(** [Math.floor(Math.random() * maxPage) + 1]. *)
Definition randomPage (r : Unit01) (maxPage : Z) : Z := floorMul r maxPage + 1.

(** [array.filter(pred)] with a predicate that can throw. *)
Fixpoint filterJs (pred : JsVal -> Completion bool) (items : list JsVal)
  : Completion (list JsVal) :=
  match items with
  | [] => Normal []
  | x :: rest =>
      match pred x with
      | Throw e => Throw e
      | Normal b =>
          match filterJs pred rest with
          | Throw e => Throw e
          | Normal kept => Normal (if b then x :: kept else kept)
          end
      end
  end.

(** ** The handler's side *)

(** [process.env]. *)
Record Env : Type := mkEnv {
  RAPIDAPI_KEY : option string;
  RAPIDAPI_HOST : option string;
  GIANTBOMB_API_KEY : option string
}.

(** The inbound request, as the handlers read it: [searchParams.get(name)]. *)
Record Inbound : Type := mkInbound {
  searchParams : string -> option string
}.

(** What the handler sends: the status code, the [Cache-Control] header if
    one was set, and the JSON body. *)
Record Reply : Type := mkReply {
  code : Z;
  cacheControl : option string;
  body : JsVal
}.

Definition message (m : string) : JsVal := JObj [("message", JStr m)].

(** [!v] on an environment variable or query parameter. *)
Definition missing (v : option string) : bool :=
  match v with
  | None => true
  | Some s => String.eqb s ""
  end.

(** [resource === name], the test of a [switch] case. *)
Definition resourceIs (resource : option string) (name : string) : bool :=
  match resource with
  | Some r => String.eqb r name
  | None => false
  end.

(** [searchParams.get(name) || ''] *)
Definition paramOrEmpty (request : Inbound) (name : string) : string :=
  match searchParams request name with
  | Some s => s
  | None => ""
  end.

Definition category (id : Z) (name : string) : JsVal :=
  JObj [("id", JNum id); ("name", JStr name)].

(** ** src/api/rawg.js: RAWG, one shot *)

Module Rawg.

Definition RAWG_API_URL : string :=
  "https://rawg-video-games-database.p.rapidapi.com".

Definition CURATED_GENRES : JsVal :=
  JArr [ category 14 "Simulation"; category 10 "Strategy";
         category 5 "RPG"; category 1 "Racing"; category 15 "Sports";
         category 7 "Puzzle"; category 11 "Arcade";
         category 3 "Adventure"; category 83 "Platformer";
         category 6 "Fighting" ].

Definition rawgFetch (apiKey apiHost endpoint : string)
  (params : list (string * Param)) : Js Response :=
  response <- fetch (mkRequest (RAWG_API_URL ++ endpoint) params
                       [("x-rapidapi-key", apiKey);
                        ("x-rapidapi-host", apiHost)]) ;;
  if negb (ok response) then
    throw (Error ("Erro ao comunicar com a API de jogos: "
                    ++ statusText response))
  else ret response.

Definition getFilters : Js JsVal :=
  ret (JObj [("genres", CURATED_GENRES)]).

Definition getSortedGame (apiKey apiHost genres : string) : Js JsVal :=
  initialSearch <- rawgFetch apiKey apiHost "/games"
                     [("genres", PStr genres); ("page_size", PNum 1)] ;;
  let totalGames := total (listing initialSearch) in
  if totalGames =? 0 then ret JNull
  else
    r <- mathRandom ;;
    let randomPage := randomPage r (maxPage totalGames) in
    gameListData <- rawgFetch apiKey apiHost "/games"
                      [("genres", PStr genres); ("page", PNum randomPage);
                       ("page_size", PNum 40)] ;;
    match results (listing gameListData) with
    | None | Some [] => ret JNull
    | Some items =>
        r' <- mathRandom ;;
        let randomGameSummary :=
          index items (floorMul r' (Z.of_nat (List.length items))) in
        id <- lift (getProp randomGameSummary "id") ;;
        path <- lift (toString id) ;;
        gameDetails <- rawgFetch apiKey apiHost ("/games/" ++ path) [] ;;
        ret (json gameDetails)
    end.

Definition handler (env : Env) (request : Inbound) : Js Reply :=
  if missing (RAPIDAPI_KEY env) || missing (RAPIDAPI_HOST env) then
    ret (mkReply 500 None
           (message "A chave ou host da API não estão configurados no servidor."))
  else
    let apiKey := match RAPIDAPI_KEY env with Some k => k | None => "" end in
    let apiHost := match RAPIDAPI_HOST env with Some h => h | None => "" end in
    let resource := searchParams request "resource" in
    let finish (header : option string) (data : JsVal) : Js Reply :=
      if negb (truthy data) then
        ret (mkReply 404 header (message "Nenhum resultado encontrado."))
      else ret (mkReply 200 header data) in
    tryCatch
      (if resourceIs resource "filters" then
           data <- getFilters ;;
           finish (Some "s-maxage=86400, stale-while-revalidate") data
       else if resourceIs resource "game" then
           let genres := paramOrEmpty request "genres" in
           data <- getSortedGame apiKey apiHost genres ;;
           finish (Some "no-cache, no-store, must-revalidate") data
       else ret (mkReply 400 None (message "Recurso inválido.")))
      (fun error =>
         ret (mkReply 500 None
                (message (orElse (messageOf error)
                            "Erro interno do servidor.")))).

End Rawg.

(** ** src/api/giantbomb.js: Giant Bomb, one shot *)

Module GiantBomb.

Definition GB_API_URL : string := "https://www.giantbomb.com/api".

(** In the source the failure branch parses the error text inside a [try]
    whose last statement is a [throw]; every way through that block ends in
    its [catch], which throws [new Error(errorText || '...')]. *)
Definition giantBombFetch (apiKey endpoint : string)
  (params : list (string * Param)) : Js Response :=
  response <- fetch (mkRequest (GB_API_URL ++ endpoint)
                       (params ++ [("api_key", PStr apiKey);
                                   ("format", PStr "json")])
                       [("User-Agent", "GameSorterApp/1.0")]) ;;
  if negb (ok response) then
    throw (Error (orElse (text response)
                    "Erro desconhecido da API Giant Bomb"))
  else ret response.

(** [filters.join(',')] after the conditional pushes. *)
Definition filterOf (dimensions : list (string * string)) : string :=
  String.concat ","
    (map (fun d => fst d ++ ":" ++ snd d)
       (filter (fun d => negb (String.eqb (snd d) "")) dimensions)).

(** A list body is an object, so [!searchData] is false. *)
Definition getSortedGame (apiKey genres platforms : string) : Js JsVal :=
  let searchParams :=
    [("filter", PStr (filterOf [("genres", genres);
                                ("platforms", platforms)]));
     ("limit", PStr "100"); ("field_list", PStr "guid,name")] in
  searchData <- giantBombFetch apiKey "/games" searchParams ;;
  if total (listing searchData) =? 0 then ret JNull
  else
    r <- mathRandom ;;
    match results (listing searchData) with
    | None => throw (TypeErrorRead JUndefined "length")
    | Some items =>
        let randomGameSummary :=
          index items (floorMul r (Z.of_nat (List.length items))) in
        gameGuid <- lift (getProp randomGameSummary "guid") ;;
        path <- lift (toString gameGuid) ;;
        gameDetails <- giantBombFetch apiKey ("/game/" ++ path ++ "/") [] ;;
        if truthy (json gameDetails)
        then lift (getProp (json gameDetails) "results")
        else ret JNull
    end.

Definition handler (env : Env) (request : Inbound) : Js Reply :=
  if missing (GIANTBOMB_API_KEY env) then
    ret (mkReply 500 None
           (message "A chave da API Giant Bomb não está configurada no servidor."))
  else
    let apiKey := match GIANTBOMB_API_KEY env with Some k => k | None => "" end in
    let resource := searchParams request "resource" in
    let finish (data : JsVal) : Js Reply :=
      if negb (truthy data) then
        ret (mkReply 404 None (message "Nenhum resultado encontrado."))
      else
        ret (mkReply 200 (Some "s-maxage=3600, stale-while-revalidate") data) in
    tryCatch
      (if resourceIs resource "genres" then
           data <- giantBombFetch apiKey "/genres"
                     [("field_list", PStr "id,name"); ("limit", PStr "100")] ;;
           finish (json data)
       else if resourceIs resource "platforms" then
           data <- giantBombFetch apiKey "/platforms"
                     [("field_list", PStr "id,name"); ("limit", PStr "100")] ;;
           finish (json data)
       else if resourceIs resource "game" then
           let genres := paramOrEmpty request "genres" in
           let platforms := paramOrEmpty request "platforms" in
           data <- getSortedGame apiKey genres platforms ;;
           finish data
       else ret (mkReply 400 None (message "Recurso inválido.")))
      (fun error =>
         ret (mkReply 500 None
                (message (orElse (messageOf error)
                            "Erro interno do servidor.")))).

End GiantBomb.

(** ** src/unnamed/part_000: RAWG, five attempts (Mode A) *)

Module RawgRetry.

Definition RAWG_API_URL : string := Rawg.RAWG_API_URL.
Definition CURATED_GENRES : JsVal := Rawg.CURATED_GENRES.
Definition rawgFetch := Rawg.rawgFetch.
Definition getFilters : Js JsVal := Rawg.getFilters.

Definition MAX_ATTEMPTS : nat := 5.

(** [gameDetails && gameDetails.description_raw] *)
Definition isValid (gameDetails : JsVal) : bool :=
  truthy gameDetails && truthy (field gameDetails "description_raw").

(** One iteration of the [for] loop.  The log line of the valid branch
    interpolates [gameDetails.name], a conversion that can throw. *)
Definition attemptBody (apiKey apiHost genres : string) (attempt : nat)
  : Js (Ctl JsVal) :=
  initialSearch <- rawgFetch apiKey apiHost "/games"
                     [("genres", PStr genres); ("page_size", PNum 1)] ;;
  let totalGames := total (listing initialSearch) in
  if totalGames =? 0 then ret (Return JNull)
  else
    r <- mathRandom ;;
    let randomPage := randomPage r (maxPage totalGames) in
    gameListData <- rawgFetch apiKey apiHost "/games"
                      [("genres", PStr genres); ("page", PNum randomPage);
                       ("page_size", PNum 40)] ;;
    match results (listing gameListData) with
    | None | Some [] => ret Continue
    | Some items =>
        r' <- mathRandom ;;
        let randomGameSummary :=
          index items (floorMul r' (Z.of_nat (List.length items))) in
        id <- lift (getProp randomGameSummary "id") ;;
        path <- lift (toString id) ;;
        gameDetails <- rawgFetch apiKey apiHost ("/games/" ++ path) [] ;;
        if isValid (json gameDetails) then
          lift (toString (field (json gameDetails) "name")) ;;;
          ret (Return (json gameDetails))
        else ret Continue
    end.

Definition getSortedGame (apiKey apiHost genres : string) : Js JsVal :=
  forAttempts MAX_ATTEMPTS 0 (attemptBody apiKey apiHost genres) (ret JNull).

Definition handler (env : Env) (request : Inbound) : Js Reply :=
  if missing (RAPIDAPI_KEY env) || missing (RAPIDAPI_HOST env) then
    ret (mkReply 500 None
           (message "A chave ou host da API não estão configurados no servidor."))
  else
    let apiKey := match RAPIDAPI_KEY env with Some k => k | None => "" end in
    let apiHost := match RAPIDAPI_HOST env with Some h => h | None => "" end in
    let resource := searchParams request "resource" in
    let finish (header : option string) (data : JsVal) : Js Reply :=
      if negb (truthy data) then
        ret (mkReply 404 header (message "Nenhum resultado encontrado."))
      else ret (mkReply 200 header data) in
    tryCatch
      (if resourceIs resource "filters" then
           data <- getFilters ;;
           finish (Some "s-maxage=86400, stale-while-revalidate") data
       else if resourceIs resource "game" then
           let genres := paramOrEmpty request "genres" in
           data <- getSortedGame apiKey apiHost genres ;;
           finish (Some "no-cache, no-store, must-revalidate") data
       else ret (mkReply 400 None (message "Recurso inválido.")))
      (fun error =>
         ret (mkReply 500 None
                (message (orElse (messageOf error)
                            "Erro interno do servidor.")))).

End RawgRetry.

(** ** src/unnamed/part_001: Giant Bomb, random offset, five attempts (Mode B) *)

Module GiantBombRandom.

Definition GB_API_URL : string := "https://www.giantbomb.com/api".
Definition MAX_ATTEMPTS : nat := 5.

Definition giantbombFetch (apiKey endpoint : string)
  (params : list (string * Param)) : Js Response :=
  response <- fetch (mkRequest (GB_API_URL ++ endpoint)
                       (params ++ [("api_key", PStr apiKey);
                                   ("format", PStr "json")])
                       [("User-Agent", "RandomGameSorter/1.0")]) ;;
  if negb (ok response) then
    throw (Error ("Erro " ++ decimal (status response) ++ ": "
                    ++ statusText response
                    ++ ". A API externa negou o acesso."))
  else ret response.

(** [game && game.name && game.image && game.image.super_url] *)
Definition isValid (game : JsVal) : bool :=
  truthy game && truthy (field game "name") && truthy (field game "image")
  && truthy (field (field game "image") "super_url").

Definition noGames : JsError := Error "A API não retornou nenhum jogo.".

Definition exhausted : JsError :=
  Error "Não foi possível encontrar um jogo válido após várias tentativas. A API pode estar instável.".

(** The [try] block of one iteration.  Both log lines interpolate
    [game.name]: a property read that throws when [game] is [null] or
    [undefined], and a conversion that can throw. *)
Definition tryBlock (apiKey : string) (attempt : nat) : Js (Ctl JsVal) :=
  countData <- giantbombFetch apiKey "/games"
                 [("limit", PStr "1"); ("field_list", PStr "id")] ;;
  let totalGames := total (listing countData) in
  if totalGames =? 0 then throw noGames
  else
    r <- mathRandom ;;
    let randomOffset := floorMul r totalGames in
    gameSummaryData <- giantbombFetch apiKey "/games"
                         [("limit", PStr "1"); ("offset", PNum randomOffset);
                          ("field_list", PStr "guid")] ;;
    match results (listing gameSummaryData) with
    | None | Some [] => ret Continue
    | Some items =>
        gameGuid <- lift (getProp (index items 0) "guid") ;;
        path <- lift (toString gameGuid) ;;
        gameDetailsData <- giantbombFetch apiKey ("/game/" ++ path ++ "/") [] ;;
        game <- lift (getProp (json gameDetailsData) "results") ;;
        if isValid game then
          lift (toString (field game "name")) ;;;
          ret (Return game)
        else
          name <- lift (getProp game "name") ;;
          lift (toString name) ;;;
          ret Continue
    end.

(** [try { ... } catch (error) { console.error(...) }]: a caught error
    falls through to the next iteration. *)
Definition attemptBody (apiKey : string) (attempt : nat) : Js (Ctl JsVal) :=
  tryCatch (tryBlock apiKey attempt) (fun error => ret Continue).

Definition getRandomGame (apiKey : string) : Js JsVal :=
  forAttempts MAX_ATTEMPTS 0 (attemptBody apiKey) (throw exhausted).

Definition handler (env : Env) (request : Inbound) : Js Reply :=
  if missing (GIANTBOMB_API_KEY env) then
    ret (mkReply 500 None
           (message "A chave da API não está configurada no servidor."))
  else
    let apiKey := match GIANTBOMB_API_KEY env with Some k => k | None => "" end in
    let resource := searchParams request "resource" in
    tryCatch
      (if resourceIs resource "random-game" then
           data <- getRandomGame apiKey ;;
           if negb (truthy data) then
             ret (mkReply 404 None (message "Nenhum resultado encontrado."))
           else
             ret (mkReply 200 (Some "no-cache, no-store, must-revalidate") data)
       else ret (mkReply 400 None (message "Recurso inválido.")))
      (fun error =>
         ret (mkReply 500 None
                (message (orElse (messageOf error)
                            "Erro interno do servidor.")))).

End GiantBombRandom.

(** ** src/unnamed/part_002, first document: Giant Bomb with the platform listing *)

Module GiantBombCurated.

Definition GB_API_URL : string := "https://www.giantbomb.com/api".

Definition CURATED_FILTERS_genres : JsVal :=
  JArr [ category 27 "Survival horror"; category 42 "Beat 'em up";
         category 17 "Adventure"; category 10 "Puzzle";
         category 13 "Sports"; category 12 "Strategy";
         category 4 "Racing"; category 11 "Role-Playing";
         category 31 "Simulation"; category 20 "Platform";
         category 9 "Fighting" ].

Definition CURATED_FILTERS_concepts : JsVal :=
  JArr [ category 1401 "Stealth"; category 2501 "Eroge";
         category 869 "Open World"; category 2843 "Roguelike";
         category 3045 "Metroidvania" ].

Definition MAIN_PLATFORM_IDS : list string :=
  [ "22"; "19"; "35"; "146"; "179";
    "32"; "20"; "145"; "180";
    "157";
    "94" ].

Definition giantBombFetch := GiantBomb.giantBombFetch.

(** [array.includes(s)] on an array of strings. *)
Definition includes (ids : list string) (s : string) : bool :=
  existsb (String.eqb s) ids.

(** The [forEach] that fills [mainPlatforms] and [otherPlatforms]. *)
Fixpoint classify (platforms mainPlatforms otherPlatforms : list JsVal)
  : Completion (list JsVal * list JsVal) :=
  match platforms with
  | [] => Normal (mainPlatforms, otherPlatforms)
  | p :: rest =>
      match getProp p "id" with
      | Throw e => Throw e
      | Normal id =>
          match callToString id with
          | Throw e => Throw e
          | Normal s =>
              if includes MAIN_PLATFORM_IDS s then
                classify rest (mainPlatforms ++ [p]) otherPlatforms
              else if truthy (field p "release_date") then
                classify rest mainPlatforms (otherPlatforms ++ [p])
              else classify rest mainPlatforms otherPlatforms
          end
      end
  end.

(** The property key a year is stored under. *)
Definition yearKey (year : option Z) : string :=
  match year with
  | Some y => decimal y
  | None => "NaN"
  end.

(** [if (!acc[year]) { acc[year] = []; } acc[year].push(platform);] on the
    fields of [acc]. *)
Definition pushYear (acc : list (string * JsVal)) (year : option Z)
  (platform : JsVal) : Completion (list (string * JsVal)) :=
  let key := yearKey year in
  let bucket := match lookup key acc with
                | Some v => if truthy v then v else JArr []
                | None => JArr []
                end in
  match bucket with
  | JArr items => Normal (setField key (JArr (items ++ [platform])) acc)
  | _ => Throw (TypeErrorCall "push")
  end.

(** The [reduce] that builds [otherPlatformsByYear]. *)
Fixpoint groupByYear (otherPlatforms : list JsVal)
  (acc : list (string * JsVal)) : Js (list (string * JsVal)) :=
  match otherPlatforms with
  | [] => ret acc
  | platform :: rest =>
      year <- getFullYear (field platform "release_date") ;;
      acc' <- lift (pushYear acc year platform) ;;
      groupByYear rest acc'
  end.

Definition getCuratedFilters (apiKey : string) : Js JsVal :=
  platformData <- giantBombFetch apiKey "/platforms"
                    [("field_list", PStr "id,name,release_date");
                     ("limit", PStr "200")] ;;
  match results (listing platformData) with
  | None => throw (TypeErrorRead JUndefined "forEach")
  | Some platforms =>
      sorted <- lift (classify platforms [] []) ;;
      let mainPlatforms := fst sorted in
      let otherPlatforms := snd sorted in
      otherPlatformsByYear <- groupByYear otherPlatforms [] ;;
      ret (JObj [("genres", CURATED_FILTERS_genres);
                 ("concepts", CURATED_FILTERS_concepts);
                 ("mainPlatforms", JArr mainPlatforms);
                 ("otherPlatformsByYear", JObj otherPlatformsByYear)])
  end.

Definition hasDate (game : JsVal) : Completion bool :=
  match getProp game "original_release_date" with
  | Normal v => Normal (truthy v)
  | Throw e => Throw e
  end.

(** The sampler shared by both documents of part_002, over the filter
    dimensions each of them passes. *)
Definition sample (apiKey : string) (dimensions : list (string * string))
  : Js JsVal :=
  let searchParams :=
    [("filter", PStr (GiantBomb.filterOf dimensions));
     ("limit", PStr "100");
     ("field_list", PStr "guid,name,original_release_date")] in
  searchData <- giantBombFetch apiKey "/games" searchParams ;;
  if total (listing searchData) =? 0 then ret JNull
  else
    match results (listing searchData) with
    | None => throw (TypeErrorRead JUndefined "filter")
    | Some items =>
        gamesWithDate <- lift (filterJs hasDate items) ;;
        match gamesWithDate with
        | [] => ret JNull
        | _ :: _ =>
            r <- mathRandom ;;
            let randomGameSummary :=
              index gamesWithDate
                (floorMul r (Z.of_nat (List.length gamesWithDate))) in
            gameGuid <- lift (getProp randomGameSummary "guid") ;;
            path <- lift (toString gameGuid) ;;
            gameDetails <-
              giantBombFetch apiKey ("/game/" ++ path ++ "/") [] ;;
            if truthy (json gameDetails)
            then lift (getProp (json gameDetails) "results")
            else ret JNull
        end
    end.

Definition getSortedGame (apiKey genres concepts platforms : string)
  : Js JsVal :=
  sample apiKey [("genres", genres); ("concepts", concepts);
                 ("platforms", platforms)].

Definition handler (env : Env) (request : Inbound) : Js Reply :=
  if missing (GIANTBOMB_API_KEY env) then
    ret (mkReply 500 None
           (message "A chave da API Giant Bomb não está configurada no servidor."))
  else
    let apiKey := match GIANTBOMB_API_KEY env with Some k => k | None => "" end in
    let resource := searchParams request "resource" in
    let finish (data : JsVal) : Js Reply :=
      if negb (truthy data) then
        ret (mkReply 404 None (message "Nenhum resultado encontrado."))
      else
        ret (mkReply 200 (Some "s-maxage=86400, stale-while-revalidate") data) in
    tryCatch
      (if resourceIs resource "filters" then
           data <- getCuratedFilters apiKey ;;
           finish data
       else if resourceIs resource "game" then
           let genres := paramOrEmpty request "genres" in
           let concepts := paramOrEmpty request "concepts" in
           let platforms := paramOrEmpty request "platforms" in
           data <- getSortedGame apiKey genres concepts platforms ;;
           finish data
       else ret (mkReply 400 None (message "Recurso inválido.")))
      (fun error =>
         ret (mkReply 500 None
                (message (orElse (messageOf error)
                            "Erro interno do servidor.")))).

End GiantBombCurated.

(** ** src/unnamed/part_002, second document: Giant Bomb, genres and concepts *)

Module GiantBombConcepts.

Definition CURATED_FILTERS_genres : JsVal :=
  GiantBombCurated.CURATED_FILTERS_genres.

Definition CURATED_FILTERS_concepts : JsVal :=
  JArr [ category 1401 "Stealth"; category 2501 "Erotic";
         category 869 "Open World"; category 2843 "Rogelike";
         category 3045 "Metroidvania" ].

Definition getCuratedFilters : Js JsVal :=
  ret (JObj [("genres", CURATED_FILTERS_genres);
             ("concepts", CURATED_FILTERS_concepts)]).

Definition getSortedGame (apiKey genres concepts : string) : Js JsVal :=
  GiantBombCurated.sample apiKey [("genres", genres); ("concepts", concepts)].

Definition handler (env : Env) (request : Inbound) : Js Reply :=
  if missing (GIANTBOMB_API_KEY env) then
    ret (mkReply 500 None
           (message "A chave da API Giant Bomb não está configurada no servidor."))
  else
    let apiKey := match GIANTBOMB_API_KEY env with Some k => k | None => "" end in
    let resource := searchParams request "resource" in
    let finish (header : option string) (data : JsVal) : Js Reply :=
      if negb (truthy data) then
        ret (mkReply 404 header (message "Nenhum resultado encontrado."))
      else ret (mkReply 200 header data) in
    tryCatch
      (if resourceIs resource "filters" then
           data <- getCuratedFilters ;;
           finish (Some "s-maxage=86400, stale-while-revalidate") data
       else if resourceIs resource "game" then
           let genres := paramOrEmpty request "genres" in
           let concepts := paramOrEmpty request "concepts" in
           data <- getSortedGame apiKey genres concepts ;;
           finish (Some "no-cache, no-store, must-revalidate") data
       else ret (mkReply 400 None (message "Recurso inválido.")))
      (fun error =>
         ret (mkReply 500 None
                (message (orElse (messageOf error)
                            "Erro interno do servidor.")))).

End GiantBombConcepts.

(** * Vocabulary of the properties *)

(** ** The program logic *)

(** [triple w P m Q]: from any effects satisfying [P], running [m] in world
    [w] ends (by value or by throw) in a completion and effects satisfying
    [Q].  Every [Js] computation is total, so this is total correctness. *)
Definition triple {A} (w : World) (P : Effects -> Prop) (m : Js A)
  (Q : Completion A -> Effects -> Prop) : Prop :=
  forall s, P s -> Q (fst (m w s)) (snd (m w s)).

(** What the loop expects of one iteration, given the loop's goal [Q] and the
    invariant [I] to re-establish when the iteration falls through. *)
Definition iteration {A} (I : Effects -> Prop)
  (Q : Completion A -> Effects -> Prop) (c : Completion (Ctl A)) (s : Effects)
  : Prop :=
  match c with
  | Normal Continue => I s
  | Normal (Return v) => Q (Normal v) s
  | Throw e => Q (Throw e) s
  end.

(** ** The requests of the samplers *)

(** The request [rawgFetch] sends. *)
Definition rawgRequest (apiKey apiHost endpoint : string)
  (params : list (string * Param)) : Request :=
  mkRequest (Rawg.RAWG_API_URL ++ endpoint) params
    [("x-rapidapi-key", apiKey); ("x-rapidapi-host", apiHost)].

(** The count probe of the RAWG samplers. *)
Definition rawgProbe (apiKey apiHost genres : string) : Request :=
  rawgRequest apiKey apiHost "/games"
    [("genres", PStr genres); ("page_size", PNum 1)].

(** The page fetch of both RAWG samplers. *)
Definition pageRequest (apiKey apiHost genres : string) (page : Z) : Request :=
  rawgRequest apiKey apiHost "/games"
    [("genres", PStr genres); ("page", PNum page); ("page_size", PNum 40)].

(** The page parameter of a request, if it has one. *)
Definition pageOf (req : Request) : option Z :=
  match find (fun p => String.eqb (fst p) "page") (query req) with
  | Some (_, PNum n) => Some n
  | _ => None
  end.

(** The count probe of the random-offset sampler. *)
Definition gbProbe (apiKey : string) : Request :=
  mkRequest (GiantBombRandom.GB_API_URL ++ "/games")
    [("limit", PStr "1"); ("field_list", PStr "id");
     ("api_key", PStr apiKey); ("format", PStr "json")]
    [("User-Agent", "RandomGameSorter/1.0")].

(** The search of the one-shot Giant Bomb sampler. *)
Definition gbSearch (apiKey genres platforms : string) : Request :=
  mkRequest (GiantBomb.GB_API_URL ++ "/games")
    [("filter", PStr (GiantBomb.filterOf [("genres", genres);
                                          ("platforms", platforms)]));
     ("limit", PStr "100"); ("field_list", PStr "guid,name");
     ("api_key", PStr apiKey); ("format", PStr "json")]
    [("User-Agent", "GameSorterApp/1.0")].

(** The listing request of [getCuratedFilters]. *)
Definition platformsRequest (apiKey : string) : Request :=
  mkRequest (GiantBomb.GB_API_URL ++ "/platforms")
    [("field_list", PStr "id,name,release_date"); ("limit", PStr "200");
     ("api_key", PStr apiKey); ("format", PStr "json")]
    [("User-Agent", "GameSorterApp/1.0")].

(** ** Outcomes and call traces *)

(** What a sampler may end in when it must not hand out an invalid item. *)
Definition validOrNull (isValid : JsVal -> bool) (c : Completion JsVal)
  : Prop :=
  match c with
  | Normal v => v = JNull \/ isValid v = true
  | Throw _ => True
  end.

(** The calls of one sampling attempt that starts as call number [n]:
    the count probe alone, or the probe, the fetch of a page drawn from
    [maxPage] of the count the probe reported, and at most one more call,
    which asks for no page. *)
Inductive attemptCalls (w : World) (apiKey apiHost genres : string) (n : nat)
  : list Request -> Prop :=
| probe_only :
    attemptCalls w apiKey apiHost genres n [rawgProbe apiKey apiHost genres]
| probe_page (r : Unit01) (rest : list Request) :
    total (listing (respond w n (rawgProbe apiKey apiHost genres))) <> 0 ->
    (List.length rest <= 1)%nat ->
    (forall req, In req rest -> pageOf req = None) ->
    attemptCalls w apiKey apiHost genres n
      (rawgProbe apiKey apiHost genres
         :: pageRequest apiKey apiHost genres
              (randomPage r
                 (maxPage
                    (total (listing (respond w n
                                       (rawgProbe apiKey apiHost genres))))))
         :: rest).

(** The calls of a whole invocation: attempt after attempt. *)
Inductive samplerCalls (w : World) (apiKey apiHost genres : string)
  : list Request -> Prop :=
| no_calls : samplerCalls w apiKey apiHost genres []
| more_calls (trace ext : list Request) :
    samplerCalls w apiKey apiHost genres trace ->
    attemptCalls w apiKey apiHost genres (List.length trace) ext ->
    samplerCalls w apiKey apiHost genres (trace ++ ext).

(** Every one of the [n] iterations starting at effects [s] falls through to
    the next: none returns and none throws. *)
Fixpoint exhausts {A} (n from : nat) (body : nat -> Js (Ctl A)) (w : World)
  (s : Effects) : Prop :=
  match n with
  | O => True
  | S k =>
      match body from w s with
      | (Normal Continue, s') => exhausts k (S from) body w s'
      | _ => False
      end
  end.

(** The error [rawgFetch] throws for a failed response. *)
Definition rawgFailure (response : Response) : JsError :=
  Error ("Erro ao comunicar com a API de jogos: " ++ statusText response).

(** The error [giantbombFetch] of the random-offset revision throws. *)
Definition gbFailure (response : Response) : JsError :=
  Error ("Erro " ++ decimal (status response) ++ ": " ++ statusText response
           ++ ". A API externa negou o acesso.").

(** Every call issued so far was answered with success. *)
Definition allOk (w : World) (s : Effects) : Prop :=
  forall i req,
    nth_error (calls s) i = Some req -> ok (respond w i req) = true.

(** A failed call is the last one, and its error is the call's outcome. *)
Definition aborted (w : World) (c : Completion JsVal) (s : Effects) : Prop :=
  forall i req,
    nth_error (calls s) i = Some req ->
    ok (respond w i req) = false ->
    c = Throw (rawgFailure (respond w i req))
    /\ List.length (calls s) = S i.

(** An attempt of the random-offset sampler never throws, issues at least
    one call, and a call that fails in it is its last and leaves the
    attempt falling through to the next. *)
Definition swallowed (w : World) (s : Effects)
  (r : Completion (Ctl JsVal) * Effects) : Prop :=
  (exists c, fst r = Normal c)
  /\ (List.length (calls s) < List.length (calls (snd r)))%nat
  /\ forall i req,
      nth_error (calls (snd r)) i = Some req ->
      (List.length (calls s) <= i)%nat ->
      ok (respond w i req) = false ->
      fst r = Normal Continue /\ List.length (calls (snd r)) = S i.

(** ** Cache directives *)

(** The directive that forbids caching, and the two shared-cache ones. *)
Definition noCache : string := "no-cache, no-store, must-revalidate".

Definition sharedDay : string := "s-maxage=86400, stale-while-revalidate".

Definition sharedHour : string := "s-maxage=3600, stale-while-revalidate".

(** What the claim asks of a successful reply. *)
Definition cachedAsClaimed (resource : option string) (reply : Reply) : Prop :=
  code reply = 200 ->
  (resourceIs resource "game" = true -> cacheControl reply = Some noCache)
  /\ (resourceIs resource "filters" = true ->
      cacheControl reply = Some sharedDay).

(** A property of the reply, when the handler sends one. *)
Definition onReply (P : Reply -> Prop) (c : Completion Reply) : Prop :=
  match c with
  | Normal reply => P reply
  | Throw _ => True
  end.

(** ** The platform catalogue *)

(** The string [p.id.toString()] evaluates to, when it does. *)
Definition platformId (p : JsVal) : option string :=
  match getProp p "id" with
  | Normal id =>
      match callToString id with
      | Normal s => Some s
      | Throw _ => None
      end
  | Throw _ => None
  end.

(** The platform's id is in the allow-list. *)
Definition isMain (p : JsVal) : bool :=
  match platformId p with
  | Some s => GiantBombCurated.includes GiantBombCurated.MAIN_PLATFORM_IDS s
  | None => false
  end.

(** The platform is not a main one and has a release date. *)
Definition isOther (p : JsVal) : bool :=
  negb (isMain p) && truthy (field p "release_date").

(** The key of the platform's year bucket. *)
Definition keyOf (w : World) (p : JsVal) : string :=
  GiantBombCurated.yearKey (fullYear w (field p "release_date")).

(** The array stored under a key, empty when there is none. *)
Definition bucket (k : string) (acc : list (string * JsVal)) : list JsVal :=
  match lookup k acc with
  | Some (JArr items) => items
  | _ => []
  end.

(** Every value of the object is an array. *)
Definition arraysOnly (acc : list (string * JsVal)) : Prop :=
  forall k v, lookup k acc = Some v -> exists items, v = JArr items.

(** ** Sample data and worlds *)

(** The value of a decimal digit. *)
Definition digit (c : ascii) : option Z :=
  let n := Z.of_nat (nat_of_ascii c) in
  if (48 <=? n) && (n <=? 57) then Some (n - 48) else None.

(** The year of an ISO date string [YYYY-...], as a runtime in UTC reads
    it; the sample worlds know no other dates. *)
Definition sampleYear (v : JsVal) : option Z :=
  match v with
  | JStr (String a (String b (String c (String d (String "-" _))))) =>
      match digit a, digit b, digit c, digit d with
      | Some x, Some y, Some z, Some t => Some (1000 * x + 100 * y + 10 * z + t)
      | _, _, _, _ => None
      end
  | _ => None
  end.

(** One draw of [Math.random()]: 1/2. *)
Definition half : Unit01 := mkUnit01 1 0.

(** A successful answer with the given body, and a failed one. *)
Definition okResponse (value : JsVal) (count : Z) (items : option (list JsVal))
  : Response :=
  mkResponse true 200 "OK" "" value (mkListing count items).

Definition unavailable : Response :=
  mkResponse false 503 "Service Unavailable" "upstream down" JNull
    (mkListing 0 None).

(** List items: a RAWG summary, and a Giant Bomb summary with a release
    date. *)
Definition summary : JsVal :=
  JObj [("id", JNum 3498); ("guid", JStr "3030-4725")].

Definition datedSummary : JsVal :=
  JObj [("guid", JStr "3030-4725"); ("name", JStr "Doom");
        ("original_release_date", JStr "1993-12-10 00:00:00")].

(** A RAWG detail with a description, and one without. *)
Definition portal : JsVal :=
  JObj [("id", JNum 3498); ("name", JStr "Portal");
        ("description_raw", JStr "A puzzle game.")].

Definition blank : JsVal :=
  JObj [("id", JNum 3498); ("name", JStr "Portal");
        ("description_raw", JStr "")].

(** A Giant Bomb detail body with every display field, and one whose game
    lacks the image. *)
Definition doom : JsVal :=
  JObj [("name", JStr "Doom");
        ("image", JObj [("super_url", JStr "https://img/doom.png")])].

Definition gbDetail (game : JsVal) : JsVal := JObj [("results", game)].

Definition imageless : JsVal := JObj [("name", JStr "Doom")].

(** A world whose every list answer reports one game, the given item, and
    whose every detail is the given value. *)
Definition worldWith (item detail : JsVal) : World :=
  mkWorld (fun _ _ => okResponse detail 1 (Some [item]))
          (fun _ => half) sampleYear.

Definition worldOf (detail : JsVal) : World := worldWith summary detail.

(** The same world with the answer to the [n]-th call replaced. *)
Definition answering (n : nat) (response : Response) (w : World) : World :=
  mkWorld (fun i req => if Nat.eqb i n then response else respond w i req)
          (random w) (fullYear w).

(** A world with no game for any filter. *)
Definition emptyWorld : World :=
  mkWorld (fun _ _ => okResponse JNull 0 (Some [])) (fun _ => half) sampleYear.

(** A service that is down for the first call only, and one that is down
    throughout. *)
Definition flaky (w : World) : World := answering 0 unavailable w.

Definition down : World :=
  mkWorld (fun _ _ => unavailable) (fun _ => half) sampleYear.

(** A catalogue that is empty when first probed and has one game after. *)
Definition lateGame : World :=
  answering 0 (okResponse JNull 0 (Some [])) (worldOf (gbDetail doom)).

(** A search answer that counts games but lists none. *)
Definition hollow : World :=
  mkWorld (fun _ _ => okResponse JNull 7 (Some [])) (fun _ => half) sampleYear.

(** A configured Giant Bomb deployment and a request for a game. *)
Definition gbEnv : Env := mkEnv None None (Some "key").

Definition gameRequest : Inbound :=
  mkInbound (fun name => if String.eqb name "resource" then Some "game"
                         else if String.eqb name "genres" then Some "4"
                         else None).

(** A listing with one main platform, one other platform released on
    2006-11-17, and one platform without a release date. *)
Definition playstation4 : JsVal :=
  JObj [("id", JNum 146); ("name", JStr "PlayStation 4");
        ("release_date", JStr "2013-11-15 00:00:00")].

Definition wii : JsVal :=
  JObj [("id", JNum 36); ("name", JStr "Wii");
        ("release_date", JStr "2006-11-17")].

Definition undated : JsVal :=
  JObj [("id", JNum 5); ("name", JStr "Arcade"); ("release_date", JNull)].

Definition catalogue : World :=
  mkWorld (fun _ _ => okResponse JNull 3 (Some [playstation4; wii; undated]))
          (fun _ => half) sampleYear.

(** ** Handlers *)

(** The RAWG handlers find both environment variables set. *)
Definition rawgConfigured (env : Env) (apiKey apiHost : string) : Prop :=
  RAPIDAPI_KEY env = Some apiKey /\ RAPIDAPI_HOST env = Some apiHost
  /\ apiKey <> "" /\ apiHost <> "".

(** The Giant Bomb handlers find their key set. *)
Definition gbConfigured (env : Env) (apiKey : string) : Prop :=
  GIANTBOMB_API_KEY env = Some apiKey /\ apiKey <> "".


(** The status code and body a handler makes of its sampler's completion. *)
Definition outcomeFor (c : Completion JsVal) : Z * JsVal :=
  match c with
  | Normal data =>
      if truthy data then (200, data)
      else (404, message "Nenhum resultado encontrado.")
  | Throw e =>
      (500, message (orElse (messageOf e) "Erro interno do servidor."))
  end.

(** The listing requests the one-shot Giant Bomb handler proxies. *)
Definition gbListRequest (apiKey endpoint : string) : Request :=
  mkRequest (GiantBomb.GB_API_URL ++ endpoint)
    [("field_list", PStr "id,name"); ("limit", PStr "100");
     ("api_key", PStr apiKey); ("format", PStr "json")]
    [("User-Agent", "GameSorterApp/1.0")].

(** An environment with nothing set, a configured RAWG deployment, and
    requests for an unknown resource, for the filters and for a random
    game. *)
Definition bareEnv : Env := mkEnv None None None.

Definition rawgEnv : Env := mkEnv (Some "key") (Some "host") None.

Definition resourceRequest (name : string) : Inbound :=
  mkInbound (fun key => if String.eqb key "resource" then Some name else None).

(** ** Requests of every sampler *)

(** A request as [rawgFetch] sends it: to the RAWG gateway, with the key and
    host in the headers, and a query made of filter and paging parameters
    only. *)
Definition rawgSigned (apiKey apiHost : string) (req : Request) : Prop :=
  headers req = [("x-rapidapi-key", apiKey); ("x-rapidapi-host", apiHost)]
  /\ (exists endpoint, url req = Rawg.RAWG_API_URL ++ endpoint)
  /\ forall p, In p (query req) -> In (fst p) ["genres"; "page"; "page_size"].

(** A request as the Giant Bomb fetch helpers send it: to the Giant Bomb API,
    with the given user agent, and a query that ends with the key and the
    JSON format. *)
Definition gbSigned (apiKey agent : string) (req : Request) : Prop :=
  headers req = [("User-Agent", agent)]
  /\ (exists endpoint, url req = GiantBomb.GB_API_URL ++ endpoint)
  /\ exists params,
      query req = (params ++ [("api_key", PStr apiKey);
                              ("format", PStr "json")])%list.

(** The search of the samplers of part_002, over their filter dimensions. *)
Definition dimensionSearch (apiKey : string)
  (dimensions : list (string * string)) : Request :=
  mkRequest (GiantBomb.GB_API_URL ++ "/games")
    [("filter", PStr (GiantBomb.filterOf dimensions));
     ("limit", PStr "100");
     ("field_list", PStr "guid,name,original_release_date");
     ("api_key", PStr apiKey); ("format", PStr "json")]
    [("User-Agent", "GameSorterApp/1.0")].

(** The detail request of the one-shot Giant Bomb samplers. *)
Definition gbGameRequest (apiKey path : string) : Request :=
  mkRequest (GiantBomb.GB_API_URL ++ "/game/" ++ path ++ "/")
    [("api_key", PStr apiKey); ("format", PStr "json")]
    [("User-Agent", "GameSorterApp/1.0")].

(** The window fetch and the detail request of the random-offset sampler. *)
Definition offsetRequest (apiKey : string) (offset : Z) : Request :=
  mkRequest (GiantBombRandom.GB_API_URL ++ "/games")
    [("limit", PStr "1"); ("offset", PNum offset);
     ("field_list", PStr "guid");
     ("api_key", PStr apiKey); ("format", PStr "json")]
    [("User-Agent", "RandomGameSorter/1.0")].

Definition randomGameRequest (apiKey path : string) : Request :=
  mkRequest (GiantBombRandom.GB_API_URL ++ "/game/" ++ path ++ "/")
    [("api_key", PStr apiKey); ("format", PStr "json")]
    [("User-Agent", "RandomGameSorter/1.0")].

(** A search answer whose games all lack a release date. *)
Definition undatedSummary : JsVal :=
  JObj [("guid", JStr "3030-1"); ("name", JStr "Prototype");
        ("original_release_date", JNull)].

Definition undatedWorld : World :=
  mkWorld (fun _ _ => okResponse JNull 2 (Some [undatedSummary; undatedSummary]))
          (fun _ => half) sampleYear.

(** A search answer with an undated and a dated game. *)
Definition mixedWorld : World :=
  mkWorld (fun _ _ => okResponse (gbDetail doom) 2
                        (Some [undatedSummary; datedSummary]))
          (fun _ => half) sampleYear.

(** The detail request of the RAWG samplers. *)
Definition rawgGameRequest (apiKey apiHost path : string) : Request :=
  rawgRequest apiKey apiHost ("/games/" ++ path) [].

(** A page whose only item is [null]. *)
Definition brokenPage : World :=
  mkWorld (fun _ _ => okResponse portal 1 (Some [JNull]))
          (fun _ => half) sampleYear.

(** ** Calls of the random-offset sampler *)

(** What follows the window fetch answered as call number [n]: nothing, or
    the detail request for the [guid] of the first item of the window. *)
Definition firstOfWindow (w : World) (apiKey : string) (n : nat)
  (window : Request) (rest : list Request) : Prop :=
  rest = []
  \/ exists item others guid path,
      results (listing (respond w n window)) = Some (item :: others)
      /\ getProp item "guid" = Normal guid
      /\ toString guid = Normal path
      /\ rest = [randomGameRequest apiKey path].

(** The calls of one attempt of the random-offset sampler that starts as call
    number [n]: the count probe alone, or the probe, the fetch of a one-item
    window at an offset drawn from the count the probe reported, and what
    [firstOfWindow] allows. *)
Inductive offsetAttemptCalls (w : World) (apiKey : string) (n : nat)
  : list Request -> Prop :=
| window_not_fetched : offsetAttemptCalls w apiKey n [gbProbe apiKey]
| window_fetched (r : Unit01) (rest : list Request) :
    ok (respond w n (gbProbe apiKey)) = true ->
    total (listing (respond w n (gbProbe apiKey))) <> 0 ->
    firstOfWindow w apiKey (S n)
      (offsetRequest apiKey
         (floorMul r (total (listing (respond w n (gbProbe apiKey))))))
      rest ->
    offsetAttemptCalls w apiKey n
      (gbProbe apiKey
         :: offsetRequest apiKey
              (floorMul r (total (listing (respond w n (gbProbe apiKey)))))
         :: rest).

Inductive offsetSamplerCalls (w : World) (apiKey : string)
  : list Request -> Prop :=
| offset_no_calls : offsetSamplerCalls w apiKey []
| offset_more_calls (trace ext : list Request) :
    offsetSamplerCalls w apiKey trace ->
    offsetAttemptCalls w apiKey (List.length trace) ext ->
    offsetSamplerCalls w apiKey (trace ++ ext).

(** ** The platform listing *)

(** The platform listing is answered with success and every listed platform
    has an id that converts to a string. *)
Definition listed (w : World) (apiKey : string) (platforms : list JsVal)
  : Prop :=
  ok (respond w 0 (platformsRequest apiKey)) = true
  /\ results (listing (respond w 0 (platformsRequest apiKey))) = Some platforms
  /\ forall q, In q platforms -> platformId q <> None.

(** The catalogue [getCuratedFilters] builds from its two platform tables. *)
Definition catalogueOf (mainPlatforms : list JsVal)
  (byYear : list (string * JsVal)) : JsVal :=
  JObj [("genres", GiantBombCurated.CURATED_FILTERS_genres);
        ("concepts", GiantBombCurated.CURATED_FILTERS_concepts);
        ("mainPlatforms", JArr mainPlatforms);
        ("otherPlatformsByYear", JObj byYear)].

(** A platform whose release date is not a date, and one without an id. *)
Definition misdated : JsVal :=
  JObj [("id", JNum 77); ("name", JStr "Console X");
        ("release_date", JStr "to be announced")].

Definition nameless : JsVal :=
  JObj [("name", JStr "Unknown"); ("release_date", JStr "1990-01-01")].

Definition listingOf (platforms : list JsVal) : World :=
  mkWorld (fun _ _ => okResponse JNull (Z.of_nat (List.length platforms))
                        (Some platforms))
          (fun _ => half) sampleYear.

(** ** Failures of the one-shot samplers *)

(** The error [giantBombFetch] of the one-shot revisions throws for a failed
    response: its text, or a default when the text is empty. *)
Definition gbTextFailure (response : Response) : JsError :=
  Error (orElse (text response) "Erro desconhecido da API Giant Bomb").

(** A failed call is the last one, and the given error of its response is
    what the sampler throws. *)
Definition abortedWith (failure : Response -> JsError) (w : World)
  (r : Completion JsVal * Effects) : Prop :=
  forall i req,
    nth_error (calls (snd r)) i = Some req ->
    ok (respond w i req) = false ->
    fst r = Throw (failure (respond w i req))
    /\ List.length (calls (snd r)) = S i.

(** * Properties *)

(** ** Arithmetic *)

Lemma rden_pos (r : Unit01) : 0 < rden r.
Proof. unfold rden. lia. Qed.

Lemma rnum_lt_rden (r : Unit01) : Z.of_nat (rnum r) < rden r.
Proof. unfold rden. lia. Qed.

Lemma floorMul_zero (r : Unit01) : floorMul r 0 = 0.
Proof.
  unfold floorMul. rewrite Z.mul_0_r. apply Z.div_0_l.
  pose proof (rden_pos r). lia.
Qed.

Lemma floorMul_nonneg (r : Unit01) (n : Z) : 0 <= n -> 0 <= floorMul r n.
Proof.
  intros Hn. unfold floorMul.
  apply Z.div_pos; [ | apply rden_pos ].
  apply Z.mul_nonneg_nonneg; lia.
Qed.

Lemma floorMul_lt (r : Unit01) (n : Z) : 0 < n -> floorMul r n < n.
Proof.
  intros Hn. unfold floorMul.
  apply Z.div_lt_upper_bound; [ apply rden_pos | ].
  pose proof (rnum_lt_rden r). nia.
Qed.

Lemma ceilDiv_bounds (a b : Z) :
  0 < b -> b * (ceilDiv a b - 1) < a <= b * ceilDiv a b.
Proof.
  intros Hb. unfold ceilDiv.
  pose proof (Z.div_mod (- a) b ltac:(lia)) as Hdm.
  pose proof (Z.mod_pos_bound (- a) b Hb) as Hm.
  nia.
Qed.

Lemma ceilDiv_unique (a b k : Z) :
  0 < b -> b * (k - 1) < a <= b * k -> ceilDiv a b = k.
Proof.
  intros Hb Hk. pose proof (ceilDiv_bounds a b Hb). nia.
Qed.

Lemma maxPage_range (count : Z) : 0 < count -> 1 <= maxPage count <= 250.
Proof.
  intros Hc. unfold maxPage.
  pose proof (ceilDiv_bounds count 40 ltac:(lia)). lia.
Qed.

Lemma randomPage_range (r : Unit01) (m : Z) :
  1 <= m -> 1 <= randomPage r m <= m.
Proof.
  intros Hm. unfold randomPage.
  pose proof (floorMul_nonneg r m ltac:(lia)).
  pose proof (floorMul_lt r m ltac:(lia)). lia.
Qed.

Lemma index_in_range (items : list JsVal) (r : Unit01) :
  items <> [] ->
  In (index items (floorMul r (Z.of_nat (List.length items)))) items.
Proof.
  intros Hne. unfold index.
  assert (0 < Z.of_nat (List.length items)) as Hlen
    by (destruct items; [ congruence | simpl; lia ]).
  pose proof (floorMul_nonneg r (Z.of_nat (List.length items)) ltac:(lia)) as H0.
  pose proof (floorMul_lt r (Z.of_nat (List.length items)) Hlen) as H1.
  destruct (Z.ltb_spec (floorMul r (Z.of_nat (List.length items))) 0); [ lia | ].
  apply nth_In. lia.
Qed.

(** ** Truthiness *)

Lemma truthy_nonempty (v : JsVal) :
  truthy v = true ->
  v <> JUndefined /\ v <> JNull /\ v <> JStr "" /\ v <> JNum 0 /\ v <> JBool false.
Proof.
  destruct v; simpl; intros H; repeat split; try congruence;
    intros E; inversion E; subst; simpl in H; discriminate.
Qed.

Lemma truthy_getProp (v : JsVal) (k : string) :
  truthy v = true -> getProp v k = Normal (field v k).
Proof.
  unfold field. destruct v; simpl; try discriminate; try reflexivity.
  intros _. destruct (lookup k fields); reflexivity.
Qed.

Lemma truthy_field_object (v : JsVal) (k : string) :
  truthy (field v k) = true ->
  exists fields, v = JObj fields /\ lookup k fields = Some (field v k).
Proof.
  unfold field. destruct v; simpl; try discriminate.
  intros H. exists fields. split; [ reflexivity | ].
  destruct (lookup k fields); [ reflexivity | discriminate ].
Qed.

(** ** A small program logic for [Js] *)

Lemma forAttempts_rule {A} (w : World) (I : nat -> Effects -> Prop)
  (Q : Completion A -> Effects -> Prop) (body : nat -> Js (Ctl A))
  (after : Js A) (n from : nat) :
  (forall k, (k < n)%nat ->
             triple w (I k) (body (from + k)%nat) (iteration (I (S k)) Q)) ->
  triple w (I n) after Q ->
  triple w (I 0%nat) (forAttempts n from body after) Q.
Proof.
  revert from I. induction n as [ | n IH ]; intros from I Hbody Hafter.
  - exact Hafter.
  - intros s Hs. simpl. unfold bind, ret.
    pose proof (Hbody 0%nat ltac:(lia) s Hs) as H0.
    rewrite Nat.add_0_r in H0.
    destruct (body from w s) as [ [ [ | v ] | e ] s' ]; simpl in H0 |- *.
    + refine (IH (S from) (fun k => I (S k)) _ Hafter s' H0).
      intros k Hk. replace (S from + k)%nat with (from + S k)%nat by lia.
      apply Hbody. lia.
    + exact H0.
    + exact H0.
Qed.

(** One turn of the loop. *)
Lemma forAttempts_step {A} (w : World) (body : nat -> Js (Ctl A))
  (after : Js A) (n from : nat) (s : Effects) :
  forAttempts (S n) from body after w s
  = match body from w s with
    | (Normal Continue, s') => forAttempts n (S from) body after w s'
    | (Normal (Return v), s') => (Normal v, s')
    | (Throw e, s') => (Throw e, s')
    end.
Proof.
  cbn [forAttempts]. unfold bind.
  destruct (body from w s) as [ [ [ | v ] | e ] s' ]; reflexivity.
Qed.

(** The same rule with one invariant for every iteration. *)
Lemma forAttempts_invariant {A} (w : World) (I : Effects -> Prop)
  (Q : Completion A -> Effects -> Prop) (body : nat -> Js (Ctl A))
  (after : Js A) (n from : nat) :
  (forall k, triple w I (body k) (iteration I Q)) ->
  triple w I after Q ->
  triple w I (forAttempts n from body after) Q.
Proof.
  intros Hbody Hafter.
  apply (forAttempts_rule w (fun _ => I)); auto.
Qed.

(** Unfolding the monad, and splitting on every test the code makes. *)
Ltac js_unfold :=
  cbv beta iota delta [bind ret throw lift fetch mathRandom tryCatch
                         getFullYear] in *.

Ltac js_case :=
  match goal with
  | |- context [match ?x with _ => _ end] =>
      lazymatch x with
      | context [match _ with _ => _ end] => fail
      | _ => destruct x eqn:?
      end
  end; js_unfold; cbn [fst snd calls draws] in *.

Ltac js_cases := js_unfold; cbn [fst snd calls draws] in *; repeat js_case.

(** Closes a goal [exists ext, calls s ++ ... = calls s ++ ext /\ ...]. *)
Ltac extension :=
  eexists; split;
  [ repeat rewrite <- app_assoc; try rewrite app_nil_r; reflexivity
  | cbn [List.length app]; try lia ].

(** ** Call counts *)

Section CallCounts.

Variable w : World.

Lemma forAttempts_calls_bound {A} (body : nat -> Js (Ctl A)) (after : Js A)
  (bound : nat) :
  (forall k s, (List.length (calls (snd (body k w s)))
                <= List.length (calls s) + bound)%nat) ->
  (forall s, calls (snd (after w s)) = calls s) ->
  forall n from s,
    (List.length (calls (snd (forAttempts n from body after w s)))
     <= List.length (calls s) + n * bound)%nat.
Proof.
  intros Hbody Hafter n from s.
  apply (forAttempts_rule w
           (fun k s' => (List.length (calls s')
                         <= List.length (calls s) + k * bound)%nat)
           (fun _ s' => (List.length (calls s')
                         <= List.length (calls s) + n * bound)%nat)).
  - intros k Hk s' Hs'. pose proof (Hbody (from + k)%nat s') as Hb.
    assert (List.length (calls (snd (body (from + k)%nat w s')))
            <= List.length (calls s) + S k * bound)%nat as Hstep by lia.
    unfold iteration.
    destruct (body (from + k)%nat w s') as [ [ [ | v ] | e ] s'' ];
      cbn [fst snd] in *; nia.
  - intros s' Hs'. rewrite Hafter. exact Hs'.
  - lia.
Qed.

Lemma forAttempts_calls_extend {A} (body : nat -> Js (Ctl A))
  (after : Js A) :
  (forall k s, exists ext, calls (snd (body k w s)) = (calls s ++ ext)%list) ->
  (forall s, calls (snd (after w s)) = calls s) ->
  forall n from s,
  exists ext,
    calls (snd (forAttempts n from body after w s)) = (calls s ++ ext)%list.
Proof.
  intros Hbody Hafter n from s.
  apply (forAttempts_invariant w
           (fun s' => exists ext, calls s' = (calls s ++ ext)%list)
           (fun _ s' => exists ext, calls s' = (calls s ++ ext)%list)).
  - intros k s' (ext & Hs'). destruct (Hbody k s') as (ext' & Hext').
    assert (exists ext0,
               calls (snd (body k w s')) = (calls s ++ ext0)%list) as Hnext
        by (exists (ext ++ ext')%list;
            rewrite Hext', Hs', app_assoc; reflexivity).
    unfold iteration.
    destruct (body k w s') as [ [ [ | v ] | e ] s'' ]; exact Hnext.
  - intros s' Hs'. rewrite Hafter. exact Hs'.
  - exists []. rewrite app_nil_r. reflexivity.
Qed.

Lemma RawgRetry_attempt_calls (apiKey apiHost genres : string) (k : nat)
  (s : Effects) :
  exists ext,
    calls (snd (RawgRetry.attemptBody apiKey apiHost genres k w s))
    = (calls s ++ rawgProbe apiKey apiHost genres :: ext)%list
    /\ (List.length ext <= 2)%nat.
Proof.
  unfold RawgRetry.attemptBody, RawgRetry.rawgFetch, Rawg.rawgFetch.
  js_cases; extension.
Qed.

Lemma GiantBombRandom_attempt_calls (apiKey : string) (k : nat) (s : Effects) :
  exists ext,
    calls (snd (GiantBombRandom.attemptBody apiKey k w s))
    = (calls s ++ gbProbe apiKey :: ext)%list
    /\ (List.length ext <= 2)%nat.
Proof.
  unfold GiantBombRandom.attemptBody, GiantBombRandom.tryBlock,
    GiantBombRandom.giantbombFetch.
  js_cases; extension.
Qed.

End CallCounts.

(** C2, as amended.  Each attempt of a retry-based sampler issues its own
    count probe, so an invocation with a budget of five attempts issues at
    most three calls per attempt, fifteen in all. *)
Theorem retry_samplers_call_bound (w : World) (apiKey apiHost genres : string) :
  (List.length
     (calls (snd (run (RawgRetry.getSortedGame apiKey apiHost genres) w)))
   <= 3 * RawgRetry.MAX_ATTEMPTS)%nat
  /\ (List.length (calls (snd (run (GiantBombRandom.getRandomGame apiKey) w)))
      <= 3 * GiantBombRandom.MAX_ATTEMPTS)%nat.
Proof.
  split.
  - unfold run, RawgRetry.getSortedGame.
    pose proof (forAttempts_calls_bound w
                  (RawgRetry.attemptBody apiKey apiHost genres) (ret JNull) 3)
      as H.
    specialize (H ltac:(intros k s;
                        destruct (RawgRetry_attempt_calls w apiKey apiHost genres k s)
                          as (ext & -> & Hext);
                        rewrite length_app; cbn [List.length]; lia)
                  ltac:(reflexivity)
                  RawgRetry.MAX_ATTEMPTS 0%nat noEffects).
    cbn [noEffects calls List.length] in H. lia.
  - unfold run, GiantBombRandom.getRandomGame.
    pose proof (forAttempts_calls_bound w
                  (GiantBombRandom.attemptBody apiKey)
                  (throw GiantBombRandom.exhausted) 3) as H.
    specialize (H ltac:(intros k s;
                        destruct (GiantBombRandom_attempt_calls w apiKey k s)
                          as (ext & -> & Hext);
                        rewrite length_app; cbn [List.length]; lia)
                  ltac:(reflexivity)
                  GiantBombRandom.MAX_ATTEMPTS 0%nat noEffects).
    cbn [noEffects calls List.length] in H. lia.
Qed.

(** C2, as stated, fails: when every sampled detail is invalid, each sampler
    issues fifteen calls, more than 2 x 5 + 1. *)
Lemma retry_samplers_exceed_eleven_calls :
  (List.length
     (calls (snd (run (RawgRetry.getSortedGame "key" "host" "4")
                    (worldOf blank))))
   = 15%nat
   /\ ~ (List.length
           (calls (snd (run (RawgRetry.getSortedGame "key" "host" "4")
                          (worldOf blank))))
         <= 2 * 5 + 1)%nat)
  /\ (List.length
        (calls (snd (run (GiantBombRandom.getRandomGame "key")
                       (worldOf (gbDetail imageless)))))
      = 15%nat
      /\ ~ (List.length
              (calls (snd (run (GiantBombRandom.getRandomGame "key")
                             (worldOf (gbDetail imageless)))))
            <= 2 * 5 + 1)%nat).
Proof.
  assert (List.length
            (calls (snd (run (RawgRetry.getSortedGame "key" "host" "4")
                           (worldOf blank)))) = 15%nat) as HA
      by (vm_compute; reflexivity).
  assert (List.length
            (calls (snd (run (GiantBombRandom.getRandomGame "key")
                           (worldOf (gbDetail imageless))))) = 15%nat) as HB
      by (vm_compute; reflexivity).
  rewrite HA, HB. repeat split; lia.
Qed.

(** ** Validity of what the retry samplers return *)

Lemma RawgRetry_isValid_fields (v : JsVal) :
  RawgRetry.isValid v = true ->
  exists fields description,
    v = JObj fields
    /\ lookup "description_raw" fields = Some description
    /\ truthy description = true.
Proof.
  unfold RawgRetry.isValid. intros H.
  apply andb_prop in H as [ _ Hd ].
  destruct (truthy_field_object _ _ Hd) as (fields & -> & Hl).
  exists fields, (field (JObj fields) "description_raw"). auto.
Qed.

Lemma GiantBombRandom_isValid_fields (v : JsVal) :
  GiantBombRandom.isValid v = true ->
  exists fields name imageFields superUrl,
    v = JObj fields
    /\ lookup "name" fields = Some name /\ truthy name = true
    /\ lookup "image" fields = Some (JObj imageFields)
    /\ lookup "super_url" imageFields = Some superUrl
    /\ truthy superUrl = true.
Proof.
  unfold GiantBombRandom.isValid. intros H.
  apply andb_prop in H as [ H Hurl ].
  apply andb_prop in H as [ H Himage ].
  apply andb_prop in H as [ _ Hname ].
  destruct (truthy_field_object _ _ Hname) as (fields & -> & Hl).
  destruct (truthy_field_object _ _ Hurl) as (imageFields & Hi & Hu).
  destruct (truthy_field_object _ _ Himage) as (fields' & Hv & Hli).
  inversion Hv; subst fields'.
  exists fields, (field (JObj fields) "name"), imageFields,
    (field (field (JObj fields) "image") "super_url").
  rewrite Hi in Hli. auto 10.
Qed.

Section Validity.

Variable w : World.

Lemma RawgRetry_attempt_valid (apiKey apiHost genres : string) (k : nat) :
  triple w (fun _ => True) (RawgRetry.attemptBody apiKey apiHost genres k)
    (iteration (fun _ => True)
       (fun c _ => validOrNull RawgRetry.isValid c)).
Proof.
  intros s _.
  unfold RawgRetry.attemptBody, RawgRetry.rawgFetch, Rawg.rawgFetch.
  js_cases; cbn; auto.
Qed.

Lemma RawgRetry_getSortedGame_valid (apiKey apiHost genres : string) :
  validOrNull RawgRetry.isValid
    (fst (run (RawgRetry.getSortedGame apiKey apiHost genres) w)).
Proof.
  unfold run, RawgRetry.getSortedGame.
  apply (forAttempts_invariant w (fun _ => True)
           (fun c _ => validOrNull RawgRetry.isValid c)); [ | | exact I ].
  - intros k. apply RawgRetry_attempt_valid.
  - intros s _. cbn. auto.
Qed.

Lemma GiantBombRandom_attempt_valid (apiKey : string) (k : nat) :
  triple w (fun _ => True) (GiantBombRandom.attemptBody apiKey k)
    (iteration (fun _ => True)
       (fun c _ => match c with
                   | Normal v => GiantBombRandom.isValid v = true
                   | Throw e => e = GiantBombRandom.exhausted
                   end)).
Proof.
  intros s _.
  unfold GiantBombRandom.attemptBody, GiantBombRandom.tryBlock,
    GiantBombRandom.giantbombFetch.
  js_cases; cbn; auto.
Qed.

(** The random-offset sampler ends in a valid game or in the exhaustion
    error, nothing else. *)
Lemma GiantBombRandom_getRandomGame_outcome (apiKey : string) :
  match fst (run (GiantBombRandom.getRandomGame apiKey) w) with
  | Normal v => GiantBombRandom.isValid v = true
  | Throw e => e = GiantBombRandom.exhausted
  end.
Proof.
  unfold run, GiantBombRandom.getRandomGame.
  apply (forAttempts_invariant w (fun _ => True)
           (fun c _ => match c with
                       | Normal v => GiantBombRandom.isValid v = true
                       | Throw e => e = GiantBombRandom.exhausted
                       end)); [ | | exact I ].
  - intros k. apply GiantBombRandom_attempt_valid.
  - intros s _. reflexivity.
Qed.

End Validity.

(** C1.  Whatever game object a retry sampler returns satisfies the
    sampler's validity predicate: the RAWG sampler (Mode A) returns an
    object whose [description_raw] is non-empty, the Giant Bomb random-offset
    sampler (Mode B) an object whose [name], [image] and [image.super_url]
    are non-empty. *)
Theorem found_outcomes_are_valid (w : World) (apiKey apiHost genres : string)
  (v : JsVal) :
  (fst (run (RawgRetry.getSortedGame apiKey apiHost genres) w) = Normal v ->
   v <> JNull ->
   RawgRetry.isValid v = true
   /\ exists fields description,
       v = JObj fields
       /\ lookup "description_raw" fields = Some description
       /\ truthy description = true
       /\ description <> JStr "" /\ description <> JNull)
  /\ (fst (run (GiantBombRandom.getRandomGame apiKey) w) = Normal v ->
      GiantBombRandom.isValid v = true
      /\ exists fields name imageFields superUrl,
          v = JObj fields
          /\ lookup "name" fields = Some name
          /\ lookup "image" fields = Some (JObj imageFields)
          /\ lookup "super_url" imageFields = Some superUrl
          /\ truthy name = true /\ truthy superUrl = true
          /\ name <> JStr "" /\ superUrl <> JStr "").
Proof.
  split.
  - intros Hrun Hnull.
    pose proof (RawgRetry_getSortedGame_valid w apiKey apiHost genres) as H.
    rewrite Hrun in H. destruct H as [ H | H ]; [ contradiction | ].
    split; [ exact H | ].
    destruct (RawgRetry_isValid_fields v H) as (fields & d & -> & Hl & Hd).
    exists fields, d. pose proof (truthy_nonempty d Hd). intuition.
  - intros Hrun.
    pose proof (GiantBombRandom_getRandomGame_outcome w apiKey) as H.
    rewrite Hrun in H.
    split; [ exact H | ].
    destruct (GiantBombRandom_isValid_fields v H)
      as (fields & name & imageFields & superUrl & -> & Hn & Htn & Hi & Hu & Htu).
    exists fields, name, imageFields, superUrl.
    pose proof (truthy_nonempty name Htn).
    pose proof (truthy_nonempty superUrl Htu). intuition.
Qed.

Lemma found_outcomes_are_valid_witness :
  RawgRetry.isValid portal = true /\ GiantBombRandom.isValid doom = true.
Proof.
  split.
  - apply (proj1 (found_outcomes_are_valid (worldOf portal) "key" "host" "4"
                    portal)).
    + reflexivity.
    + discriminate.
  - apply (proj2 (found_outcomes_are_valid (worldOf (gbDetail doom)) "key"
                    "host" "4" doom)).
    reflexivity.
Defined.

(** The one-shot RAWG sampler applies no validity predicate: it hands out the
    detail as fetched, here one with an empty [description_raw]. *)
Example Rawg_getSortedGame_unvalidated :
  fst (run (Rawg.getSortedGame "key" "host" "4") (worldOf blank)) = Normal blank
  /\ RawgRetry.isValid blank = false.
Proof. split; vm_compute; reflexivity. Qed.

(** ** The zero-count exit of the RAWG samplers *)

Lemma RawgRetry_attempt_zero_count (w : World) (apiKey apiHost genres : string)
  (k : nat) (s : Effects) :
  ok (respond w (List.length (calls s)) (rawgProbe apiKey apiHost genres))
  = true ->
  total (listing (respond w (List.length (calls s))
                    (rawgProbe apiKey apiHost genres))) = 0 ->
  RawgRetry.attemptBody apiKey apiHost genres k w s
  = (Normal (Return JNull),
     mkEffects (calls s ++ [rawgProbe apiKey apiHost genres]) (draws s)).
Proof.
  intros Hok Hzero.
  unfold RawgRetry.attemptBody, RawgRetry.rawgFetch, Rawg.rawgFetch.
  js_unfold. fold (rawgRequest apiKey apiHost "/games"
                     [("genres", PStr genres); ("page_size", PNum 1)]).
  fold (rawgProbe apiKey apiHost genres).
  rewrite Hok. cbn [negb]. rewrite Hzero. reflexivity.
Qed.

(** C5.  When the count probe reports zero matching games, the RAWG sampler
    (with or without retries) returns [null] at once: the probe is the only
    call issued, no page or detail is fetched and nothing is drawn. *)
Theorem zero_count_returns_not_found (w : World)
  (apiKey apiHost genres : string) :
  ok (respond w 0 (rawgProbe apiKey apiHost genres)) = true ->
  total (listing (respond w 0 (rawgProbe apiKey apiHost genres))) = 0 ->
  run (RawgRetry.getSortedGame apiKey apiHost genres) w
  = (Normal JNull, mkEffects [rawgProbe apiKey apiHost genres] 0)
  /\ run (Rawg.getSortedGame apiKey apiHost genres) w
     = (Normal JNull, mkEffects [rawgProbe apiKey apiHost genres] 0).
Proof.
  intros Hok Hzero. split.
  - unfold run, RawgRetry.getSortedGame, RawgRetry.MAX_ATTEMPTS.
    cbn [forAttempts]. unfold bind at 1.
    rewrite (RawgRetry_attempt_zero_count w apiKey apiHost genres 0 noEffects
               Hok Hzero).
    reflexivity.
  - unfold run, Rawg.getSortedGame, Rawg.rawgFetch.
    js_unfold. fold (rawgRequest apiKey apiHost "/games"
                       [("genres", PStr genres); ("page_size", PNum 1)]).
    fold (rawgProbe apiKey apiHost genres).
    cbn [noEffects calls List.length].
    rewrite Hok. cbn [negb]. rewrite Hzero. reflexivity.
Qed.

Lemma zero_count_returns_not_found_witness :
  run (RawgRetry.getSortedGame "key" "host" "4") emptyWorld
  = (Normal JNull, mkEffects [rawgProbe "key" "host" "4"] 0)
  /\ run (Rawg.getSortedGame "key" "host" "4") emptyWorld
     = (Normal JNull, mkEffects [rawgProbe "key" "host" "4"] 0).
Proof.
  apply (zero_count_returns_not_found emptyWorld "key" "host" "4");
    reflexivity.
Defined.

(** ** Pages drawn by the RAWG samplers *)

Section Pages.

Variable w : World.
Variables apiKey apiHost genres : string.

Lemma RawgRetry_attempt_pages (k : nat) (s : Effects) :
  exists ext,
    calls (snd (RawgRetry.attemptBody apiKey apiHost genres k w s))
    = (calls s ++ ext)%list
    /\ attemptCalls w apiKey apiHost genres (List.length (calls s)) ext.
Proof.
  unfold RawgRetry.attemptBody, RawgRetry.rawgFetch, Rawg.rawgFetch.
  js_unfold.
  fold (rawgRequest apiKey apiHost "/games"
          [("genres", PStr genres); ("page_size", PNum 1)]).
  fold (rawgProbe apiKey apiHost genres).
  js_cases;
    try (exists [rawgProbe apiKey apiHost genres]; split; [ reflexivity | constructor ]);
    (eexists; split;
     [ repeat rewrite <- app_assoc; cbn [app]; reflexivity
     | apply probe_page;
       [ apply Z.eqb_neq; assumption
       | cbn [List.length]; lia
       | cbn [In]; intros req' Hin;
         repeat (destruct Hin as [ <- | Hin ]; [ reflexivity | ]);
         contradiction ] ]).
Qed.

Lemma Rawg_getSortedGame_pages :
  attemptCalls w apiKey apiHost genres 0
    (calls (snd (run (Rawg.getSortedGame apiKey apiHost genres) w))).
Proof.
  unfold run, Rawg.getSortedGame, Rawg.rawgFetch.
  js_unfold.
  fold (rawgRequest apiKey apiHost "/games"
          [("genres", PStr genres); ("page_size", PNum 1)]).
  fold (rawgProbe apiKey apiHost genres).
  cbn [noEffects calls draws List.length app].
  js_cases;
    try (apply probe_only);
    (apply probe_page;
     [ apply Z.eqb_neq; assumption
     | cbn [List.length]; lia
     | cbn [In]; intros req' Hin;
       repeat (destruct Hin as [ <- | Hin ]; [ reflexivity | ]);
       contradiction ]).
Qed.

Lemma RawgRetry_getSortedGame_pages :
  samplerCalls w apiKey apiHost genres
    (calls (snd (run (RawgRetry.getSortedGame apiKey apiHost genres) w))).
Proof.
  unfold run, RawgRetry.getSortedGame.
  apply (forAttempts_invariant w
           (fun s => samplerCalls w apiKey apiHost genres (calls s))
           (fun _ s => samplerCalls w apiKey apiHost genres (calls s))).
  - intros k s Hs.
    destruct (RawgRetry_attempt_pages k s) as (ext & Hcalls & Hext).
    assert (samplerCalls w apiKey apiHost genres
              (calls (snd (RawgRetry.attemptBody apiKey apiHost genres k w s))))
      as Hnext by (rewrite Hcalls; apply more_calls; assumption).
    unfold iteration.
    destruct (RawgRetry.attemptBody apiKey apiHost genres k w s)
      as [ [ [ | v ] | e ] s' ]; exact Hnext.
  - intros s Hs. exact Hs.
  - apply no_calls.
Qed.

End Pages.

(** C6.  For a positive count, [maxPage] is [min(250, ceil(count / 40))]
    (226 for 9001 games, 250 for 500000), a page drawn from it lies in
    [[1, maxPage]], and every page the RAWG samplers fetch is drawn that way
    from the count reported by the probe just before it. *)
Theorem maxPage_and_drawn_page (count : Z) (r : Unit01) :
  0 < count ->
  (exists k, 40 * (k - 1) < count <= 40 * k /\ maxPage count = Z.min 250 k)
  /\ maxPage 9001 = 226
  /\ maxPage 500000 = 250
  /\ 1 <= randomPage r (maxPage count) <= maxPage count
  /\ (forall w apiKey apiHost genres,
        attemptCalls w apiKey apiHost genres 0
          (calls (snd (run (Rawg.getSortedGame apiKey apiHost genres) w)))
        /\ samplerCalls w apiKey apiHost genres
             (calls (snd (run (RawgRetry.getSortedGame apiKey apiHost genres)
                            w)))).
Proof.
  intros Hcount. repeat split.
  - exists (ceilDiv count 40). split.
    + apply ceilDiv_bounds. lia.
    + reflexivity.
  - apply randomPage_range. apply maxPage_range. exact Hcount.
  - apply randomPage_range. apply maxPage_range. exact Hcount.
  - apply Rawg_getSortedGame_pages.
  - apply RawgRetry_getSortedGame_pages.
Qed.

Lemma maxPage_and_drawn_page_witness :
  1 <= randomPage half (maxPage 9001) <= maxPage 9001.
Proof.
  apply (maxPage_and_drawn_page 9001 half). reflexivity.
Defined.

(** ** Exhausting the retry budget *)

Lemma forAttempts_exhausts {A} (body : nat -> Js (Ctl A)) (w : World)
  (result : Completion A) (n from : nat) (s : Effects) :
  exhausts n from body w s ->
  fst (forAttempts n from body (fun _ s' => (result, s')) w s) = result.
Proof.
  revert from s. induction n as [ | n IH ]; intros from s H.
  - reflexivity.
  - cbn [forAttempts exhausts] in *. unfold bind.
    destruct (body from w s) as [ [ [ | v ] | e ] s' ]; try contradiction.
    apply IH. exact H.
Qed.

(** What the two retry handlers make of their sampler's outcome. *)
Lemma RawgRetry_handler_game (w : World) (env : Env) (request : Inbound)
  (apiKey apiHost : string) :
  RAPIDAPI_KEY env = Some apiKey ->
  RAPIDAPI_HOST env = Some apiHost ->
  apiKey <> "" ->
  apiHost <> "" ->
  searchParams request "resource" = Some "game" ->
  fst (run (RawgRetry.handler env request) w)
  = Normal
      (match fst (run (RawgRetry.getSortedGame apiKey apiHost
                         (paramOrEmpty request "genres")) w) with
       | Normal data =>
           if truthy data then mkReply 200 (Some noCache) data
           else mkReply 404 (Some noCache)
                  (message "Nenhum resultado encontrado.")
       | Throw e =>
           mkReply 500 None
             (message (orElse (messageOf e) "Erro interno do servidor."))
       end).
Proof.
  intros Hkey Hhost Hk Hh Hres.
  unfold run, RawgRetry.handler. rewrite Hkey, Hhost, Hres.
  apply String.eqb_neq in Hk, Hh. cbn [missing]. rewrite Hk, Hh.
  change (resourceIs (Some "game") "filters") with false.
  change (resourceIs (Some "game") "game") with true.
  cbn [orb]. js_unfold.
  destruct (RawgRetry.getSortedGame apiKey apiHost
              (paramOrEmpty request "genres") w noEffects) as [ [ data | e ] s ];
    cbn [fst]; [ destruct (truthy data) | ]; reflexivity.
Qed.

Lemma GiantBombRandom_handler_game (w : World) (env : Env) (request : Inbound)
  (apiKey : string) :
  GIANTBOMB_API_KEY env = Some apiKey ->
  apiKey <> "" ->
  searchParams request "resource" = Some "random-game" ->
  fst (run (GiantBombRandom.handler env request) w)
  = Normal
      (match fst (run (GiantBombRandom.getRandomGame apiKey) w) with
       | Normal data =>
           if truthy data then mkReply 200 (Some noCache) data
           else mkReply 404 None (message "Nenhum resultado encontrado.")
       | Throw e =>
           mkReply 500 None
             (message (orElse (messageOf e) "Erro interno do servidor."))
       end).
Proof.
  intros Hkey Hk Hres.
  unfold run, GiantBombRandom.handler. rewrite Hkey, Hres.
  apply String.eqb_neq in Hk. cbn [missing]. rewrite Hk.
  change (resourceIs (Some "random-game") "random-game") with true.
  js_unfold.
  destruct (GiantBombRandom.getRandomGame apiKey w noEffects)
    as [ [ data | e ] s ];
    cbn [fst]; [ destruct (truthy data) | ]; reflexivity.
Qed.

(** C4.  When all five attempts pass without a valid item, the RAWG retry
    sampler (Mode A) returns [null], the value it also returns for a zero
    count, and its handler answers 404 as for any empty result; the Giant
    Bomb random-offset sampler (Mode B) throws its exhaustion error, which
    its handler answers with a 500 carrying that message. *)
Theorem exhaustion_outcomes (w : World) (apiKey apiHost genres : string) :
  (exhausts RawgRetry.MAX_ATTEMPTS 0
     (RawgRetry.attemptBody apiKey apiHost genres) w noEffects ->
   fst (run (RawgRetry.getSortedGame apiKey apiHost genres) w) = Normal JNull
   /\ forall env request,
       RAPIDAPI_KEY env = Some apiKey ->
       RAPIDAPI_HOST env = Some apiHost ->
       apiKey <> "" ->
       apiHost <> "" ->
       searchParams request "resource" = Some "game" ->
       paramOrEmpty request "genres" = genres ->
       fst (run (RawgRetry.handler env request) w)
       = Normal (mkReply 404 (Some noCache)
                   (message "Nenhum resultado encontrado.")))
  /\ (exhausts GiantBombRandom.MAX_ATTEMPTS 0
        (GiantBombRandom.attemptBody apiKey) w noEffects ->
      fst (run (GiantBombRandom.getRandomGame apiKey) w)
      = Throw GiantBombRandom.exhausted
      /\ forall env request,
          GIANTBOMB_API_KEY env = Some apiKey ->
          apiKey <> "" ->
          searchParams request "resource" = Some "random-game" ->
          fst (run (GiantBombRandom.handler env request) w)
          = Normal (mkReply 500 None
                      (message (messageOf GiantBombRandom.exhausted)))).
Proof.
  split; intros H.
  - assert (fst (run (RawgRetry.getSortedGame apiKey apiHost genres) w)
            = Normal JNull) as Hnull
        by exact (forAttempts_exhausts _ w (Normal JNull) _ _ _ H).
    split; [ exact Hnull | ].
    intros env request Hkey Hhost Hk Hh Hres Hgenres.
    rewrite (RawgRetry_handler_game w env request apiKey apiHost
               Hkey Hhost Hk Hh Hres).
    rewrite Hgenres, Hnull. reflexivity.
  - assert (fst (run (GiantBombRandom.getRandomGame apiKey) w)
            = Throw GiantBombRandom.exhausted) as Hthrow
        by exact (forAttempts_exhausts _ w (Throw GiantBombRandom.exhausted)
                    _ _ _ H).
    split; [ exact Hthrow | ].
    intros env request Hkey Hk Hres.
    rewrite (GiantBombRandom_handler_game w env request apiKey Hkey Hk Hres).
    rewrite Hthrow. reflexivity.
Qed.

Lemma exhaustion_outcomes_witness :
  fst (run (RawgRetry.getSortedGame "key" "host" "4") (worldOf blank))
  = Normal JNull
  /\ fst (run (GiantBombRandom.getRandomGame "key")
            (worldOf (gbDetail imageless)))
     = Throw GiantBombRandom.exhausted.
Proof.
  split.
  - apply (proj1 (exhaustion_outcomes (worldOf blank) "key" "host" "4")).
    vm_compute. exact I.
  - apply (proj2 (exhaustion_outcomes (worldOf (gbDetail imageless)) "key"
                    "host" "4")).
    vm_compute. exact I.
Defined.

(** ** Transport failures *)

Lemma nth_error_snoc_cases {A} (l : list A) (x : A) (i : nat) (y : A) :
  nth_error (l ++ [x]) i = Some y ->
  nth_error l i = Some y \/ (i = List.length l /\ y = x).
Proof.
  intros H. destruct (Nat.lt_ge_cases i (List.length l)) as [ Hlt | Hge ].
  - left. rewrite nth_error_app1 in H by exact Hlt. exact H.
  - right. rewrite nth_error_app2 in H by exact Hge.
    destruct (i - List.length l)%nat as [ | j ] eqn:Hj.
    + cbn in H. inversion H. split; [ lia | reflexivity ].
    + cbn in H. destruct j; discriminate.
Qed.

(** Locating a call in a trace that grew one call at a time. *)
Ltac trace_cases H :=
  first [ apply nth_error_snoc_cases in H as [ H | [ -> -> ] ];
          [ trace_cases H | ]
        | idtac ].

Ltac ok_facts :=
  repeat match goal with
    | H : negb _ = false |- _ => apply negb_false_iff in H
    | H : negb _ = true |- _ => apply negb_true_iff in H
    end.

Section TransportFailures.

Variable w : World.
Variables apiKey apiHost genres : string.

Lemma RawgRetry_attempt_aborts (k : nat) :
  triple w (allOk w) (RawgRetry.attemptBody apiKey apiHost genres k)
    (iteration (allOk w) (aborted w)).
Proof.
  intros s Hs.
  unfold RawgRetry.attemptBody, RawgRetry.rawgFetch, Rawg.rawgFetch.
  js_cases; cbn [iteration]; unfold allOk, aborted, rawgFailure in *;
    cbn [calls];
    intros i req Hn; try intros Hfail; trace_cases Hn; ok_facts;
    try (specialize (Hs _ _ Hn)); try congruence.
  all: split;
    [ reflexivity | repeat rewrite length_app; cbn [List.length]; lia ].
Qed.

Lemma RawgRetry_getSortedGame_aborts :
  aborted w (fst (run (RawgRetry.getSortedGame apiKey apiHost genres) w))
    (snd (run (RawgRetry.getSortedGame apiKey apiHost genres) w)).
Proof.
  unfold run, RawgRetry.getSortedGame.
  apply (forAttempts_invariant w (allOk w) (aborted w)).
  - intros k. apply RawgRetry_attempt_aborts.
  - intros s Hs i req Hn Hfail. cbn [ret fst snd] in *.
    specialize (Hs _ _ Hn). congruence.
  - intros i req Hn. destruct i; discriminate.
Qed.

Lemma GiantBombRandom_attempt_swallows (k : nat) (s : Effects) :
  swallowed w s (GiantBombRandom.attemptBody apiKey k w s).
Proof.
  unfold GiantBombRandom.attemptBody, GiantBombRandom.tryBlock,
    GiantBombRandom.giantbombFetch.
  js_cases; unfold swallowed; cbn [fst snd calls];
    (split; [ eexists; reflexivity | ]);
    (split; [ repeat rewrite length_app; cbn [List.length]; lia | ]);
    intros i req Hn Hge Hfail; trace_cases Hn; ok_facts;
    try congruence;
    try (assert (i < List.length (calls s))%nat
           by (apply nth_error_Some; congruence); lia);
    try (split;
         [ reflexivity
         | repeat rewrite length_app; cbn [List.length]; lia ]).
Qed.

Lemma GiantBombRandom_loop_goes_on (n from : nat) (s : Effects) :
  let r := forAttempts n from (GiantBombRandom.attemptBody apiKey)
             (throw GiantBombRandom.exhausted) w s in
  (List.length (calls s) <= List.length (calls (snd r)))%nat
  /\ forall i req,
      nth_error (calls (snd r)) i = Some req ->
      ok (respond w i req) = false ->
      (S i < List.length (calls (snd r)))%nat
      \/ fst r = Throw GiantBombRandom.exhausted.
Proof.
  revert from s. induction n as [ | n IH ]; intros from s; cbn zeta.
  - cbn. split; [ lia | auto ].
  - cbn [forAttempts]. unfold bind.
    destruct (GiantBombRandom_attempt_swallows from s)
      as ((c & Hc) & Hlen & Hfail).
    destruct (GiantBombRandom.attemptBody apiKey from w s) as [ c' s1 ].
    cbn [fst snd] in *. subst c'.
    destruct c as [ | v ].
    + destruct (IH (S from) s1) as [ Hle Hrest ]. split; [ lia | exact Hrest ].
    + cbn [ret fst snd]. split; [ lia | ].
      intros i req Hn Hf.
      destruct (Nat.lt_ge_cases i (List.length (calls s))) as [ Hlt | Hge ].
      * left. lia.
      * destruct (Hfail i req Hn Hge Hf) as [ Habs _ ]. discriminate.
Qed.

(** When the probe fails, the attempt is over after that one call. *)
Lemma GiantBombRandom_attempt_failed_probe (k : nat) (s : Effects) :
  ok (respond w (List.length (calls s)) (gbProbe apiKey)) = false ->
  GiantBombRandom.attemptBody apiKey k w s
  = (Normal Continue, mkEffects (calls s ++ [gbProbe apiKey]) (draws s)).
Proof.
  intros Hfail.
  unfold GiantBombRandom.attemptBody, GiantBombRandom.tryBlock,
    GiantBombRandom.giantbombFetch.
  js_unfold. cbn [app]. fold (gbProbe apiKey).
  rewrite Hfail. reflexivity.
Qed.

Lemma GiantBombRandom_all_probes_fail (n from : nat) (s : Effects) :
  (forall i req, ok (respond w i req) = false) ->
  forAttempts n from (GiantBombRandom.attemptBody apiKey)
    (throw GiantBombRandom.exhausted) w s
  = (Throw GiantBombRandom.exhausted,
     mkEffects (calls s ++ repeat (gbProbe apiKey) n) (draws s)).
Proof.
  intros Hfail. revert from s. induction n as [ | n IH ]; intros from s.
  - cbn. rewrite app_nil_r. destruct s; reflexivity.
  - cbn [forAttempts]. unfold bind.
    rewrite GiantBombRandom_attempt_failed_probe by apply Hfail.
    rewrite IH. cbn [calls draws repeat].
    rewrite <- app_assoc. reflexivity.
Qed.

End TransportFailures.

(** C3, as amended.  It is the RAWG retry sampler (Mode A) that lets a
    transport failure through: the failed call is the last one issued and its
    error is what the sampler throws.  The Giant Bomb random-offset sampler
    (Mode B) catches the failure inside the attempt: it never throws a
    transport error, a failed call is followed by the next attempt's probe
    unless the budget is spent (then the exhaustion error is thrown), and
    when every call fails exactly five probes are issued. *)
Theorem transport_failure_policy (w : World) (apiKey apiHost genres : string)
  (i : nat) (req : Request) :
  (nth_error
     (calls (snd (run (RawgRetry.getSortedGame apiKey apiHost genres) w))) i
   = Some req ->
   ok (respond w i req) = false ->
   fst (run (RawgRetry.getSortedGame apiKey apiHost genres) w)
   = Throw (rawgFailure (respond w i req))
   /\ List.length
        (calls (snd (run (RawgRetry.getSortedGame apiKey apiHost genres) w)))
      = S i)
  /\ (nth_error (calls (snd (run (GiantBombRandom.getRandomGame apiKey) w))) i
      = Some req ->
      ok (respond w i req) = false ->
      fst (run (GiantBombRandom.getRandomGame apiKey) w)
      <> Throw (gbFailure (respond w i req))
      /\ ((S i < List.length
                   (calls (snd (run (GiantBombRandom.getRandomGame apiKey) w))))%nat
          \/ fst (run (GiantBombRandom.getRandomGame apiKey) w)
             = Throw GiantBombRandom.exhausted))
  /\ ((forall n r, ok (respond w n r) = false) ->
      run (GiantBombRandom.getRandomGame apiKey) w
      = (Throw GiantBombRandom.exhausted,
         mkEffects (repeat (gbProbe apiKey) GiantBombRandom.MAX_ATTEMPTS) 0)).
Proof.
  split; [ | split ].
  - intros Hn Hfail.
    exact (RawgRetry_getSortedGame_aborts w apiKey apiHost genres i req Hn Hfail).
  - intros Hn Hfail. split.
    + pose proof (GiantBombRandom_getRandomGame_outcome w apiKey) as Hout.
      intros Habs. rewrite Habs in Hout.
      unfold gbFailure, GiantBombRandom.exhausted in Hout.
      inversion Hout.
    + exact (proj2 (GiantBombRandom_loop_goes_on w apiKey
                      GiantBombRandom.MAX_ATTEMPTS 0 noEffects) i req Hn Hfail).
  - intros Hfail.
    exact (GiantBombRandom_all_probes_fail w apiKey
             GiantBombRandom.MAX_ATTEMPTS 0 noEffects Hfail).
Qed.

Lemma transport_failure_policy_witness :
  (fst (run (RawgRetry.getSortedGame "key" "host" "4") (flaky (worldOf portal)))
   = Throw (Error "Erro ao comunicar com a API de jogos: Service Unavailable")
   /\ List.length
        (calls (snd (run (RawgRetry.getSortedGame "key" "host" "4")
                       (flaky (worldOf portal)))))
      = 1%nat)
  /\ (1 < List.length
            (calls (snd (run (GiantBombRandom.getRandomGame "key")
                           (flaky (worldOf (gbDetail doom)))))))%nat
  /\ run (GiantBombRandom.getRandomGame "key") down
     = (Throw GiantBombRandom.exhausted,
        mkEffects (repeat (gbProbe "key") 5) 0).
Proof.
  split; [ | split ].
  - apply (proj1 (transport_failure_policy (flaky (worldOf portal)) "key"
                    "host" "4" 0 (rawgProbe "key" "host" "4")));
      reflexivity.
  - destruct (proj1 (proj2 (transport_failure_policy
                              (flaky (worldOf (gbDetail doom))) "key" "host"
                              "4" 0 (gbProbe "key")))
                eq_refl eq_refl) as [ _ [ H | H ] ].
    + exact H.
    + discriminate H.
  - apply (proj2 (proj2 (transport_failure_policy down "key" "host" "4" 0
                           (gbProbe "key")))).
    reflexivity.
Defined.

(** C3, as stated, fails both ways: with the first call failing, the
    random-offset sampler (Mode B) does not abort but goes on to find a game,
    and the RAWG retry sampler (Mode A) does not go on but throws after that
    one call. *)
Lemma transport_failure_roles_are_swapped :
  (fst (run (GiantBombRandom.getRandomGame "key")
          (flaky (worldOf (gbDetail doom))))
   = Normal doom
   /\ List.length
        (calls (snd (run (GiantBombRandom.getRandomGame "key")
                       (flaky (worldOf (gbDetail doom))))))
      = 4%nat)
  /\ (fst (run (RawgRetry.getSortedGame "key" "host" "4")
             (flaky (worldOf portal)))
      = Throw (Error "Erro ao comunicar com a API de jogos: Service Unavailable")
      /\ List.length
           (calls (snd (run (RawgRetry.getSortedGame "key" "host" "4")
                          (flaky (worldOf portal)))))
         = 1%nat).
Proof.
  repeat split; vm_compute; reflexivity.
Qed.

(** ** A zero count in the random-offset sampler *)

Lemma GiantBombRandom_attempt_zero_count (w : World) (apiKey : string)
  (k : nat) (s : Effects) :
  ok (respond w (List.length (calls s)) (gbProbe apiKey)) = true ->
  total (listing (respond w (List.length (calls s)) (gbProbe apiKey))) = 0 ->
  GiantBombRandom.tryBlock apiKey k w s
  = (Throw GiantBombRandom.noGames,
     mkEffects (calls s ++ [gbProbe apiKey]) (draws s))
  /\ GiantBombRandom.attemptBody apiKey k w s
     = (Normal Continue, mkEffects (calls s ++ [gbProbe apiKey]) (draws s)).
Proof.
  intros Hok Hzero.
  unfold GiantBombRandom.attemptBody, GiantBombRandom.tryBlock,
    GiantBombRandom.giantbombFetch.
  js_unfold. cbn [app]. fold (gbProbe apiKey).
  rewrite Hok. cbn [negb]. rewrite Hzero. split; reflexivity.
Qed.

Lemma GiantBombRandom_all_counts_zero (w : World) (apiKey : string)
  (n from : nat) (s : Effects) :
  (forall i req, ok (respond w i req) = true
                 /\ total (listing (respond w i req)) = 0) ->
  forAttempts n from (GiantBombRandom.attemptBody apiKey)
    (throw GiantBombRandom.exhausted) w s
  = (Throw GiantBombRandom.exhausted,
     mkEffects (calls s ++ repeat (gbProbe apiKey) n) (draws s)).
Proof.
  intros Hzero. revert from s. induction n as [ | n IH ]; intros from s.
  - cbn. rewrite app_nil_r. destruct s; reflexivity.
  - cbn [forAttempts]. unfold bind.
    rewrite (proj2 (GiantBombRandom_attempt_zero_count w apiKey from s
                      (proj1 (Hzero _ _)) (proj2 (Hzero _ _)))).
    rewrite IH. cbn [calls draws repeat].
    rewrite <- app_assoc. reflexivity.
Qed.

(** C7, as amended.  When the count probe of the random-offset sampler
    (Mode B) reports zero, the error raised for it is caught by the attempt's
    own [catch]: the attempt is over after the probe, the remaining four
    attempts run (the next call is a new probe), and the zero-count error
    never reaches the caller, who gets a game found later or the exhaustion
    error; when every probe reports zero, five probes are issued before the
    exhaustion error. *)
Theorem zero_count_is_retried (w : World) (apiKey : string) :
  ok (respond w 0 (gbProbe apiKey)) = true ->
  total (listing (respond w 0 (gbProbe apiKey))) = 0 ->
  GiantBombRandom.tryBlock apiKey 0 w noEffects
  = (Throw (Error "A API não retornou nenhum jogo."),
     mkEffects [gbProbe apiKey] 0)
  /\ run (GiantBombRandom.getRandomGame apiKey) w
     = forAttempts 4 1 (GiantBombRandom.attemptBody apiKey)
         (throw GiantBombRandom.exhausted) w (mkEffects [gbProbe apiKey] 0)
  /\ nth_error (calls (snd (run (GiantBombRandom.getRandomGame apiKey) w))) 1
     = Some (gbProbe apiKey)
  /\ fst (run (GiantBombRandom.getRandomGame apiKey) w)
     <> Throw (Error "A API não retornou nenhum jogo.")
  /\ ((forall i req, ok (respond w i req) = true
                     /\ total (listing (respond w i req)) = 0) ->
      run (GiantBombRandom.getRandomGame apiKey) w
      = (Throw GiantBombRandom.exhausted,
         mkEffects (repeat (gbProbe apiKey) GiantBombRandom.MAX_ATTEMPTS) 0)).
Proof.
  intros Hok Hzero.
  destruct (GiantBombRandom_attempt_zero_count w apiKey 0 noEffects Hok Hzero)
    as [ Htry Hbody ].
  assert (run (GiantBombRandom.getRandomGame apiKey) w
          = forAttempts 4 1 (GiantBombRandom.attemptBody apiKey)
              (throw GiantBombRandom.exhausted) w
              (mkEffects [gbProbe apiKey] 0)) as Hrun.
  { unfold run, GiantBombRandom.getRandomGame, GiantBombRandom.MAX_ATTEMPTS.
    rewrite forAttempts_step, Hbody. reflexivity. }
  split; [ exact Htry | ]. split; [ exact Hrun | ]. split; [ | split ].
  - rewrite Hrun, forAttempts_step.
    destruct (GiantBombRandom_attempt_calls w apiKey 1
                (mkEffects [gbProbe apiKey] 0)) as (ext & Hcalls & _).
    cbn [calls] in Hcalls.
    destruct (GiantBombRandom.attemptBody apiKey 1 w
                (mkEffects [gbProbe apiKey] 0)) as [ [ [ | v ] | e ] s1 ];
      cbn [fst snd ret throw] in *; [ | rewrite Hcalls; reflexivity .. ].
    destruct (forAttempts_calls_extend w (GiantBombRandom.attemptBody apiKey)
                (throw GiantBombRandom.exhausted)
                ltac:(intros k s;
                      destruct (GiantBombRandom_attempt_calls w apiKey k s)
                        as (e & -> & _); eexists; reflexivity)
                ltac:(reflexivity) 3%nat 2%nat s1) as (more & ->).
    rewrite Hcalls. reflexivity.
  - pose proof (GiantBombRandom_getRandomGame_outcome w apiKey) as Hout.
    intros Habs. rewrite Habs in Hout. discriminate Hout.
  - intros Hall.
    exact (GiantBombRandom_all_counts_zero w apiKey
             GiantBombRandom.MAX_ATTEMPTS 0 noEffects Hall).
Qed.

Lemma zero_count_is_retried_witness :
  nth_error (calls (snd (run (GiantBombRandom.getRandomGame "key") lateGame))) 1
  = Some (gbProbe "key").
Proof.
  apply (zero_count_is_retried lateGame "key"); reflexivity.
Defined.

(** C7, as stated, fails: after a probe that reports zero games the sampler
    makes a second attempt, which here finds a game, and no error reaches the
    caller. *)
Lemma zero_count_does_not_abort :
  ok (respond lateGame 0 (gbProbe "key")) = true
  /\ total (listing (respond lateGame 0 (gbProbe "key"))) = 0
  /\ fst (run (GiantBombRandom.getRandomGame "key") lateGame) = Normal doom
  /\ List.length
       (calls (snd (run (GiantBombRandom.getRandomGame "key") lateGame)))
     = 4%nat.
Proof.
  repeat split; vm_compute; reflexivity.
Qed.

(** ** The unguarded pick of the one-shot Giant Bomb sampler *)

(** C10.  In the one-shot Giant Bomb sampler, a search answer with a
    non-zero [number_of_total_results] and an empty [results] array makes the
    pick select [undefined]; reading its [guid] throws a TypeError, after one
    call and one draw, and the sampler neither returns [null] nor retries. *)
Theorem empty_results_throw_type_error (w : World)
  (apiKey genres platforms : string) :
  ok (respond w 0 (gbSearch apiKey genres platforms)) = true ->
  total (listing (respond w 0 (gbSearch apiKey genres platforms))) <> 0 ->
  results (listing (respond w 0 (gbSearch apiKey genres platforms)))
  = Some [] ->
  index [] (floorMul (random w 0) (Z.of_nat (List.length (@nil JsVal))))
  = JUndefined
  /\ run (GiantBomb.getSortedGame apiKey genres platforms) w
     = (Throw (TypeErrorRead JUndefined "guid"),
        mkEffects [gbSearch apiKey genres platforms] 1).
Proof.
  intros Hok Htotal Hresults. split.
  - cbn [List.length Z.of_nat]. rewrite floorMul_zero. reflexivity.
  - unfold run, GiantBomb.getSortedGame, GiantBomb.giantBombFetch.
    js_unfold. cbn [app noEffects calls draws List.length].
    fold (gbSearch apiKey genres platforms).
    rewrite Hok. cbn [negb].
    apply Z.eqb_neq in Htotal. rewrite Htotal, Hresults.
    cbn [List.length Z.of_nat]. rewrite floorMul_zero. reflexivity.
Qed.

Lemma empty_results_throw_type_error_witness :
  run (GiantBomb.getSortedGame "key" "4" "94") hollow
  = (Throw (TypeErrorRead JUndefined "guid"),
     mkEffects [gbSearch "key" "4" "94"] 1).
Proof.
  apply (empty_results_throw_type_error hollow "key" "4" "94").
  - reflexivity.
  - discriminate.
  - reflexivity.
Defined.

(** ** Cache directives *)

Section CacheDirectives.

Variable w : World.
Variable env : Env.
Variable request : Inbound.

Let resource : option string := searchParams request "resource".

Lemma resourceIs_exclusive (a b : string) :
  a <> b -> resourceIs resource a = true -> resourceIs resource b = true ->
  False.
Proof.
  unfold resourceIs. destruct resource as [ r | ]; [ | discriminate ].
  intros Hab Ha Hb. apply String.eqb_eq in Ha, Hb. congruence.
Qed.

Ltac cache_cases :=
  js_cases; cbn [onReply]; unfold cachedAsClaimed; cbn [code cacheControl];
  try exact I; try (intros; discriminate);
  intros _; split; intros Hr; try reflexivity; try congruence;
  exfalso; eapply (resourceIs_exclusive "filters" "game"); eauto;
  discriminate.

Lemma Rawg_handler_cache :
  onReply (cachedAsClaimed resource) (fst (run (Rawg.handler env request) w)).
Proof.
  unfold run, Rawg.handler, Rawg.getFilters. fold resource. cache_cases.
Qed.

Lemma RawgRetry_handler_cache :
  onReply (cachedAsClaimed resource) (fst (run (RawgRetry.handler env request) w)).
Proof.
  unfold run, RawgRetry.handler, RawgRetry.getFilters, Rawg.getFilters.
  fold resource. cache_cases.
Qed.

Lemma GiantBombConcepts_handler_cache :
  onReply (cachedAsClaimed resource)
    (fst (run (GiantBombConcepts.handler env request) w)).
Proof.
  unfold run, GiantBombConcepts.handler, GiantBombConcepts.getCuratedFilters.
  fold resource. cache_cases.
Qed.

(** The random-offset handler serves games only, never cached. *)
Lemma GiantBombRandom_handler_cache :
  onReply (fun reply => code reply = 200 ->
                        cacheControl reply = Some noCache)
    (fst (run (GiantBombRandom.handler env request) w)).
Proof.
  unfold run, GiantBombRandom.handler. fold resource.
  js_cases; cbn [onReply code cacheControl]; try exact I;
    intros; try discriminate; reflexivity.
Qed.

(** The two handlers that set one directive after the [switch]: every
    successful reply, a game included, gets the shared-cache directive. *)
Lemma GiantBomb_handler_cache :
  onReply (fun reply => code reply = 200 ->
                        cacheControl reply = Some sharedHour)
    (fst (run (GiantBomb.handler env request) w)).
Proof.
  unfold run, GiantBomb.handler. fold resource.
  js_cases; cbn [onReply code cacheControl]; try exact I;
    intros; try discriminate; reflexivity.
Qed.

Lemma GiantBombCurated_handler_cache :
  onReply (fun reply => code reply = 200 ->
                        cacheControl reply = Some sharedDay)
    (fst (run (GiantBombCurated.handler env request) w)).
Proof.
  unfold run, GiantBombCurated.handler. fold resource.
  js_cases; cbn [onReply code cacheControl]; try exact I;
    intros; try discriminate; reflexivity.
Qed.

End CacheDirectives.

(** C8 fails on two handlers.  The one-shot Giant Bomb handler and the
    handler of the platform-listing revision answer a successful game sample
    with the shared-cache directive ([s-maxage], [stale-while-revalidate])
    that they set for every successful reply. *)
Theorem game_sample_sent_with_shared_cache :
  fst (run (GiantBomb.handler gbEnv gameRequest) (worldOf (gbDetail doom)))
  = Normal (mkReply 200 (Some "s-maxage=3600, stale-while-revalidate") doom)
  /\ fst (run (GiantBombCurated.handler gbEnv gameRequest)
            (worldWith datedSummary (gbDetail doom)))
     = Normal (mkReply 200 (Some "s-maxage=86400, stale-while-revalidate")
                 doom).
Proof.
  split; vm_compute; reflexivity.
Qed.

(** ** The platform catalogue *)

Lemma lookup_setField_same (k : string) (v : JsVal)
  (fields : list (string * JsVal)) :
  lookup k (setField k v fields) = Some v.
Proof.
  induction fields as [ | [ k' v' ] rest IH ]; cbn.
  - rewrite String.eqb_refl. reflexivity.
  - destruct (String.eqb k k') eqn:E; cbn.
    + rewrite String.eqb_refl. reflexivity.
    + rewrite E. exact IH.
Qed.

Lemma lookup_setField_other (k k' : string) (v : JsVal)
  (fields : list (string * JsVal)) :
  k' <> k -> lookup k' (setField k v fields) = lookup k' fields.
Proof.
  intros Hne. induction fields as [ | [ k0 v0 ] rest IH ]; cbn.
  - apply String.eqb_neq in Hne. rewrite Hne. reflexivity.
  - destruct (String.eqb k k0) eqn:E; cbn.
    + apply String.eqb_eq in E. subst k0.
      apply String.eqb_neq in Hne. rewrite Hne. reflexivity.
    + destruct (String.eqb k' k0); [ reflexivity | exact IH ].
Qed.

Section Platforms.

Variable w : World.

Lemma classify_spec (platforms mainPlatforms otherPlatforms : list JsVal) :
  (forall q, In q platforms -> platformId q <> None) ->
  GiantBombCurated.classify platforms mainPlatforms otherPlatforms
  = Normal ((mainPlatforms ++ filter isMain platforms)%list,
            (otherPlatforms ++ filter isOther platforms)%list).
Proof.
  revert mainPlatforms otherPlatforms.
  induction platforms as [ | p rest IH ]; intros mainPlatforms otherPlatforms Hid.
  - cbn. rewrite !app_nil_r. reflexivity.
  - pose proof (Hid p (or_introl eq_refl)) as Hp.
    assert (forall q, In q rest -> platformId q <> None) as Hrest
        by (intros q Hq; apply Hid; right; exact Hq).
    cbn [GiantBombCurated.classify filter].
    unfold isOther, isMain, platformId in *.
    destruct (getProp p "id") as [ id | e ]; [ | congruence ].
    destruct (callToString id) as [ s | e ]; [ | congruence ].
    destruct (GiantBombCurated.includes GiantBombCurated.MAIN_PLATFORM_IDS s);
      cbn [negb andb].
    + rewrite IH by exact Hrest. rewrite <- app_assoc. reflexivity.
    + destruct (truthy (field p "release_date")).
      * rewrite IH by exact Hrest. rewrite <- app_assoc. reflexivity.
      * apply IH. exact Hrest.
Qed.

Lemma pushYear_spec (acc : list (string * JsVal)) (year : option Z)
  (platform : JsVal) :
  arraysOnly acc ->
  GiantBombCurated.pushYear acc year platform
  = Normal (setField (GiantBombCurated.yearKey year)
              (JArr (bucket (GiantBombCurated.yearKey year) acc ++ [platform]))
              acc).
Proof.
  intros Hacc. unfold GiantBombCurated.pushYear, bucket.
  destruct (lookup (GiantBombCurated.yearKey year) acc) as [ v | ] eqn:Hl;
    [ | reflexivity ].
  destruct (Hacc _ _ Hl) as (items & ->). reflexivity.
Qed.

Lemma groupByYear_spec (otherPlatforms : list JsVal) :
  forall acc s,
    arraysOnly acc ->
    exists acc',
      GiantBombCurated.groupByYear otherPlatforms acc w s = (Normal acc', s)
      /\ arraysOnly acc'
      /\ forall k,
          bucket k acc'
          = (bucket k acc
               ++ filter (fun p => String.eqb (keyOf w p) k) otherPlatforms)%list.
Proof.
  induction otherPlatforms as [ | p rest IH ]; intros acc s Hacc.
  - exists acc. cbn. repeat split; auto. intros k. rewrite app_nil_r. reflexivity.
  - cbn [GiantBombCurated.groupByYear]. js_unfold.
    rewrite (pushYear_spec acc _ p Hacc).
    fold (keyOf w p).
    set (acc1 := setField (keyOf w p)
                   (JArr (bucket (keyOf w p) acc ++ [p])) acc).
    assert (arraysOnly acc1) as Hacc1.
    { intros k v Hl. unfold acc1 in Hl.
      destruct (String.eqb_spec k (keyOf w p)) as [ -> | Hne ].
      - rewrite lookup_setField_same in Hl. inversion Hl. eauto.
      - rewrite lookup_setField_other in Hl by exact Hne. eauto. }
    destruct (IH acc1 s Hacc1) as (acc' & Hrun & Hacc' & Hbuckets).
    exists acc'. split; [ exact Hrun | ]. split; [ exact Hacc' | ].
    intros k. rewrite Hbuckets. cbn [filter].
    unfold bucket at 1, acc1.
    destruct (String.eqb_spec (keyOf w p) k) as [ <- | Hne ].
    + rewrite lookup_setField_same. rewrite <- app_assoc. reflexivity.
    + rewrite lookup_setField_other by congruence. reflexivity.
Qed.

End Platforms.

(** What [getCuratedFilters] returns for a listing whose platforms all have
    an id: the main platforms in listing order, and under each year key the
    other dated platforms of that year, in listing order. *)
Lemma getCuratedFilters_spec (w : World) (apiKey : string)
  (platforms : list JsVal) :
  ok (respond w 0 (platformsRequest apiKey)) = true ->
  results (listing (respond w 0 (platformsRequest apiKey))) = Some platforms ->
  (forall q, In q platforms -> platformId q <> None) ->
  exists byYear,
    run (GiantBombCurated.getCuratedFilters apiKey) w
    = (Normal (JObj [("genres", GiantBombCurated.CURATED_FILTERS_genres);
                     ("concepts", GiantBombCurated.CURATED_FILTERS_concepts);
                     ("mainPlatforms", JArr (filter isMain platforms));
                     ("otherPlatformsByYear", JObj byYear)]),
       mkEffects [platformsRequest apiKey] 0)
    /\ arraysOnly byYear
    /\ forall k,
        bucket k byYear
        = filter (fun p => String.eqb (keyOf w p) k) (filter isOther platforms).
Proof.
  intros Hok Hresults Hids.
  destruct (groupByYear_spec w (filter isOther platforms) []
              (mkEffects [platformsRequest apiKey] 0)
              ltac:(intros k v Hl; discriminate Hl))
    as (byYear & Hrun & Harr & Hbuckets).
  exists byYear. split; [ | split; [ exact Harr | exact Hbuckets ] ].
  unfold run, GiantBombCurated.getCuratedFilters,
    GiantBombCurated.giantBombFetch, GiantBomb.giantBombFetch.
  js_unfold. cbn [app noEffects calls draws List.length].
  fold (platformsRequest apiKey).
  rewrite Hok. cbn [negb]. rewrite Hresults.
  rewrite (classify_spec platforms [] [] Hids). cbn [app fst snd].
  rewrite Hrun. reflexivity.
Qed.

Lemma bucket_lookup (k : string) (acc : list (string * JsVal)) (p : JsVal) :
  In p (bucket k acc) ->
  exists items, lookup k acc = Some (JArr items) /\ In p items.
Proof.
  unfold bucket. destruct (lookup k acc) as [ [ | | | | | items | ] | ];
    cbn; try contradiction.
  intros H. exists items. auto.
Qed.

Lemma lookup_bucket (k : string) (acc : list (string * JsVal))
  (items : list JsVal) :
  lookup k acc = Some (JArr items) -> bucket k acc = items.
Proof. unfold bucket. intros ->. reflexivity. Qed.

(** C9.  [getCuratedFilters] puts every listed platform whose id is not in
    [MAIN_PLATFORM_IDS] and whose release date is set into the bucket keyed
    by the year of that date, into no other bucket and not into
    [mainPlatforms] (with a release date of "2006-11-17" the key is "2006");
    a platform whose id is in the list goes into [mainPlatforms] and into no
    bucket. *)
Theorem platforms_are_partitioned (w : World) (apiKey : string)
  (platforms : list JsVal) (p : JsVal) :
  ok (respond w 0 (platformsRequest apiKey)) = true ->
  results (listing (respond w 0 (platformsRequest apiKey))) = Some platforms ->
  (forall q, In q platforms -> platformId q <> None) ->
  In p platforms ->
  exists mainPlatforms byYear,
    fst (run (GiantBombCurated.getCuratedFilters apiKey) w)
    = Normal (JObj [("genres", GiantBombCurated.CURATED_FILTERS_genres);
                    ("concepts", GiantBombCurated.CURATED_FILTERS_concepts);
                    ("mainPlatforms", JArr mainPlatforms);
                    ("otherPlatformsByYear", JObj byYear)])
    /\ (isMain p = false ->
        truthy (field p "release_date") = true ->
        (exists items,
            lookup (GiantBombCurated.yearKey
                      (fullYear w (field p "release_date"))) byYear
            = Some (JArr items)
            /\ In p items)
        /\ ~ In p mainPlatforms
        /\ forall k items,
            lookup k byYear = Some (JArr items) ->
            In p items ->
            k = GiantBombCurated.yearKey (fullYear w (field p "release_date")))
    /\ (isMain p = true ->
        In p mainPlatforms
        /\ forall k items, lookup k byYear = Some (JArr items) -> ~ In p items)
    /\ (isMain p = false ->
        field p "release_date" = JStr "2006-11-17" ->
        fullYear w (JStr "2006-11-17") = Some 2006 ->
        exists items, lookup "2006" byYear = Some (JArr items) /\ In p items).
Proof.
  intros Hok Hresults Hids Hp.
  destruct (getCuratedFilters_spec w apiKey platforms Hok Hresults Hids)
    as (byYear & Hrun & _ & Hbuckets).
  exists (filter isMain platforms), byYear.
  split; [ rewrite Hrun; reflexivity | ].
  assert (forall k, In p (bucket k byYear) <->
                    isOther p = true /\ keyOf w p = k) as Hin.
  { intros k. rewrite Hbuckets, !filter_In, String.eqb_eq. tauto. }
  assert (isMain p = false -> truthy (field p "release_date") = true ->
          exists items,
            lookup (keyOf w p) byYear = Some (JArr items) /\ In p items)
    as Hplaced.
  { intros Hmain Hdate. apply bucket_lookup. apply Hin.
    unfold isOther. rewrite Hmain, Hdate. auto. }
  split; [ | split ].
  - intros Hmain Hdate. split; [ exact (Hplaced Hmain Hdate) | ]. split.
    + rewrite filter_In. intros [ _ H ]. congruence.
    + intros k items Hl Hi. apply lookup_bucket in Hl. subst items.
      apply Hin in Hi as [ _ <- ]. reflexivity.
  - intros Hmain. split.
    + apply filter_In. auto.
    + intros k items Hl Hi. apply lookup_bucket in Hl. subst items.
      apply Hin in Hi as [ Hother _ ].
      unfold isOther in Hother. rewrite Hmain in Hother. discriminate.
  - intros Hmain Hdate Hyear.
    assert (keyOf w p = "2006") as Hkey
        by (unfold keyOf; rewrite Hdate, Hyear; reflexivity).
    rewrite <- Hkey. apply Hplaced; [ exact Hmain | ].
    rewrite Hdate. reflexivity.
Qed.

Lemma platforms_are_partitioned_witness :
  exists mainPlatforms byYear,
    fst (run (GiantBombCurated.getCuratedFilters "key") catalogue)
    = Normal (JObj [("genres", GiantBombCurated.CURATED_FILTERS_genres);
                    ("concepts", GiantBombCurated.CURATED_FILTERS_concepts);
                    ("mainPlatforms", JArr mainPlatforms);
                    ("otherPlatformsByYear", JObj byYear)])
    /\ (exists items, lookup "2006" byYear = Some (JArr items) /\ In wii items)
    /\ ~ In wii mainPlatforms.
Proof.
  destruct (platforms_are_partitioned catalogue "key"
              [playstation4; wii; undated] wii eq_refl eq_refl)
    as (mainPlatforms & byYear & Hrun & Hother & _ & Hexample).
  - intros q [ <- | [ <- | [ <- | [] ] ] ]; discriminate.
  - right. left. reflexivity.
  - exists mainPlatforms, byYear. split; [ exact Hrun | ]. split.
    + apply Hexample; reflexivity.
    + apply Hother; reflexivity.
Defined.

(** The catalogue of the sample listing, computed. *)
Example catalogue_run :
  fst (run (GiantBombCurated.getCuratedFilters "key") catalogue)
  = Normal (JObj [("genres", GiantBombCurated.CURATED_FILTERS_genres);
                  ("concepts", GiantBombCurated.CURATED_FILTERS_concepts);
                  ("mainPlatforms", JArr [playstation4]);
                  ("otherPlatformsByYear", JObj [("2006", JArr [wii])])]).
Proof. vm_compute. reflexivity. Qed.

(** * Further properties *)

(** ** What the handlers always do *)




Ltac rawg_env H :=
  let Hkey := fresh "Hkey" in
  let Hhost := fresh "Hhost" in
  let Hk := fresh "Hk" in
  let Hh := fresh "Hh" in
  destruct H as (Hkey & Hhost & Hk & Hh);
  rewrite Hkey, Hhost; cbn [missing];
  apply String.eqb_neq in Hk, Hh; rewrite Hk, Hh; cbn [orb].

Ltac gb_env H :=
  let Hkey := fresh "Hkey" in
  let Hk := fresh "Hk" in
  destruct H as (Hkey & Hk);
  rewrite Hkey; cbn [missing];
  apply String.eqb_neq in Hk; rewrite Hk.

(** X2.  Without its configuration a handler answers 500 at once: no
    request leaves for the remote service and nothing is drawn. *)
Theorem no_call_without_configuration (w : World) (env : Env)
  (request : Inbound) :
  (missing (RAPIDAPI_KEY env) || missing (RAPIDAPI_HOST env) = true ->
   run (Rawg.handler env request) w
   = (Normal (mkReply 500 None
                (message "A chave ou host da API não estão configurados no servidor.")),
      noEffects)
   /\ run (RawgRetry.handler env request) w
      = (Normal (mkReply 500 None
                   (message "A chave ou host da API não estão configurados no servidor.")),
         noEffects))
  /\ (missing (GIANTBOMB_API_KEY env) = true ->
      run (GiantBomb.handler env request) w
      = (Normal (mkReply 500 None
                   (message "A chave da API Giant Bomb não está configurada no servidor.")),
         noEffects)
      /\ run (GiantBombRandom.handler env request) w
         = (Normal (mkReply 500 None
                      (message "A chave da API não está configurada no servidor.")),
            noEffects)
      /\ run (GiantBombCurated.handler env request) w
         = (Normal (mkReply 500 None
                      (message "A chave da API Giant Bomb não está configurada no servidor.")),
            noEffects)
      /\ run (GiantBombConcepts.handler env request) w
         = (Normal (mkReply 500 None
                      (message "A chave da API Giant Bomb não está configurada no servidor.")),
            noEffects)).
Proof.
  split; intros H.
  - unfold run, Rawg.handler, RawgRetry.handler. rewrite H. split; reflexivity.
  - unfold run, GiantBomb.handler, GiantBombRandom.handler,
      GiantBombCurated.handler, GiantBombConcepts.handler.
    rewrite H. repeat split; reflexivity.
Qed.

Lemma no_call_without_configuration_witness :
  run (Rawg.handler bareEnv gameRequest) (worldOf portal)
  = (Normal (mkReply 500 None
               (message "A chave ou host da API não estão configurados no servidor.")),
     noEffects)
  /\ run (GiantBombRandom.handler bareEnv gameRequest) (worldOf portal)
     = (Normal (mkReply 500 None
                  (message "A chave da API não está configurada no servidor.")),
        noEffects).
Proof.
  split.
  - apply (proj1 (no_call_without_configuration (worldOf portal) bareEnv
                    gameRequest)). reflexivity.
  - apply (proj2 (no_call_without_configuration (worldOf portal) bareEnv
                    gameRequest)). reflexivity.
Defined.

(** X3.  A configured handler answers a resource it does not know with a
    400 and the message "Recurso inválido.", again without any request to the
    remote service. *)
Theorem unknown_resource_is_rejected (w : World) (env : Env)
  (request : Inbound) (apiKey apiHost : string) :
  let resource := searchParams request "resource" in
  let rejected := (Normal (mkReply 400 None (message "Recurso inválido.")),
                   noEffects) in
  (rawgConfigured env apiKey apiHost ->
   resourceIs resource "filters" = false ->
   resourceIs resource "game" = false ->
   run (Rawg.handler env request) w = rejected
   /\ run (RawgRetry.handler env request) w = rejected)
  /\ (gbConfigured env apiKey ->
      resourceIs resource "filters" = false ->
      resourceIs resource "game" = false ->
      run (GiantBombCurated.handler env request) w = rejected
      /\ run (GiantBombConcepts.handler env request) w = rejected)
  /\ (gbConfigured env apiKey ->
      resourceIs resource "genres" = false ->
      resourceIs resource "platforms" = false ->
      resourceIs resource "game" = false ->
      run (GiantBomb.handler env request) w = rejected)
  /\ (gbConfigured env apiKey ->
      resourceIs resource "random-game" = false ->
      run (GiantBombRandom.handler env request) w = rejected).
Proof.
  cbv zeta. split; [ | split; [ | split ] ].
  - intros H H0 H1. split.
    + unfold run, Rawg.handler. rawg_env H. rewrite H0, H1. reflexivity.
    + unfold run, RawgRetry.handler. rawg_env H. rewrite H0, H1. reflexivity.
  - intros H H0 H1. split.
    + unfold run, GiantBombCurated.handler. gb_env H. rewrite H0, H1.
      reflexivity.
    + unfold run, GiantBombConcepts.handler. gb_env H. rewrite H0, H1.
      reflexivity.
  - intros H H0 H1 H2.
    unfold run, GiantBomb.handler. gb_env H. rewrite H0, H1, H2. reflexivity.
  - intros H H0.
    unfold run, GiantBombRandom.handler. gb_env H. rewrite H0. reflexivity.
Qed.

Lemma unknown_resource_is_rejected_witness :
  run (Rawg.handler rawgEnv (resourceRequest "genres")) (worldOf portal)
  = (Normal (mkReply 400 None (message "Recurso inválido.")), noEffects)
  /\ run (GiantBombRandom.handler gbEnv (resourceRequest "game"))
       (worldOf portal)
     = (Normal (mkReply 400 None (message "Recurso inválido.")), noEffects).
Proof.
  split.
  - apply (proj1 (unknown_resource_is_rejected (worldOf portal) rawgEnv
                    (resourceRequest "genres") "key" "host")).
    + repeat split; (reflexivity || discriminate).
    + reflexivity.
    + reflexivity.
  - apply (proj2 (proj2 (proj2 (unknown_resource_is_rejected (worldOf portal)
                                  gbEnv (resourceRequest "game") "key" "host")))).
    + repeat split; (reflexivity || discriminate).
    + reflexivity.
Defined.

Ltac sampler_outcome sampler :=
  js_unfold;
  let data := fresh "data" in
  let e := fresh "e" in
  let s := fresh "s" in
  destruct sampler as [ [ data | e ] s ]; cbn [fst snd outcomeFor];
  [ destruct (truthy data); cbn [negb] | ];
  eexists; split; reflexivity.

(** X4.  For a game request, a configured handler adds nothing to its
    sampler but the status mapping: the requests issued are exactly the
    sampler's, a truthy result is sent as a 200, a falsy one ([null]) as a
    404 and a thrown error as a 500 whose message is the error's (or the
    default when that is empty). *)
Theorem handler_outcome_follows_sampler (w : World) (env : Env)
  (request : Inbound) (apiKey apiHost : string) :
  let genres := paramOrEmpty request "genres" in
  let concepts := paramOrEmpty request "concepts" in
  let platforms := paramOrEmpty request "platforms" in
  let follows (handler : Js Reply) (sampler : Js JsVal) :=
    exists reply,
      run handler w = (Normal reply, snd (run sampler w))
      /\ (code reply, body reply) = outcomeFor (fst (run sampler w)) in
  (rawgConfigured env apiKey apiHost ->
   searchParams request "resource" = Some "game" ->
   follows (Rawg.handler env request)
     (Rawg.getSortedGame apiKey apiHost genres)
   /\ follows (RawgRetry.handler env request)
        (RawgRetry.getSortedGame apiKey apiHost genres))
  /\ (gbConfigured env apiKey ->
      searchParams request "resource" = Some "game" ->
      follows (GiantBomb.handler env request)
        (GiantBomb.getSortedGame apiKey genres platforms)
      /\ follows (GiantBombCurated.handler env request)
           (GiantBombCurated.getSortedGame apiKey genres concepts platforms)
      /\ follows (GiantBombConcepts.handler env request)
           (GiantBombConcepts.getSortedGame apiKey genres concepts))
  /\ (gbConfigured env apiKey ->
      searchParams request "resource" = Some "random-game" ->
      follows (GiantBombRandom.handler env request)
        (GiantBombRandom.getRandomGame apiKey)).
Proof.
  cbv zeta. split; [ | split ].
  - intros H Hres. split.
    + unfold run, Rawg.handler. rawg_env H. rewrite Hres.
      change (resourceIs (Some "game") "filters") with false.
      change (resourceIs (Some "game") "game") with true.
      sampler_outcome (Rawg.getSortedGame apiKey apiHost
                         (paramOrEmpty request "genres") w noEffects).
    + unfold run, RawgRetry.handler. rawg_env H. rewrite Hres.
      change (resourceIs (Some "game") "filters") with false.
      change (resourceIs (Some "game") "game") with true.
      sampler_outcome (RawgRetry.getSortedGame apiKey apiHost
                         (paramOrEmpty request "genres") w noEffects).
  - intros H Hres. split; [ | split ].
    + unfold run, GiantBomb.handler. gb_env H. rewrite Hres.
      change (resourceIs (Some "game") "genres") with false.
      change (resourceIs (Some "game") "platforms") with false.
      change (resourceIs (Some "game") "game") with true.
      sampler_outcome (GiantBomb.getSortedGame apiKey
                         (paramOrEmpty request "genres")
                         (paramOrEmpty request "platforms") w noEffects).
    + unfold run, GiantBombCurated.handler. gb_env H. rewrite Hres.
      change (resourceIs (Some "game") "filters") with false.
      change (resourceIs (Some "game") "game") with true.
      sampler_outcome (GiantBombCurated.getSortedGame apiKey
                         (paramOrEmpty request "genres")
                         (paramOrEmpty request "concepts")
                         (paramOrEmpty request "platforms") w noEffects).
    + unfold run, GiantBombConcepts.handler. gb_env H. rewrite Hres.
      change (resourceIs (Some "game") "filters") with false.
      change (resourceIs (Some "game") "game") with true.
      sampler_outcome (GiantBombConcepts.getSortedGame apiKey
                         (paramOrEmpty request "genres")
                         (paramOrEmpty request "concepts") w noEffects).
  - intros H Hres.
    unfold run, GiantBombRandom.handler. gb_env H. rewrite Hres.
    change (resourceIs (Some "random-game") "random-game") with true.
    sampler_outcome (GiantBombRandom.getRandomGame apiKey w noEffects).
Qed.

Lemma handler_outcome_follows_sampler_witness :
  exists reply,
    run (GiantBombRandom.handler gbEnv (resourceRequest "random-game"))
      (worldOf (gbDetail doom))
    = (Normal reply,
       snd (run (GiantBombRandom.getRandomGame "key")
              (worldOf (gbDetail doom))))
    /\ (code reply, body reply) = (200, doom).
Proof.
  apply (proj2 (proj2 (handler_outcome_follows_sampler
                         (worldOf (gbDetail doom)) gbEnv
                         (resourceRequest "random-game") "key" "host"))).
  - split; [ reflexivity | discriminate ].
  - reflexivity.
Defined.

Ltac uncached_cases :=
  try match goal with
      | H : negb (truthy (JObj _)) = true |- _ => discriminate H
      end;
  cbn [onReply code cacheControl]; try exact I; intros Hcode;
  first [ left; reflexivity | right; reflexivity
        | exfalso; apply Hcode; reflexivity ].

(** X5.  Only a 200 can carry a shared-cache directive: every other reply of
    every handler has no [Cache-Control] header or the no-cache one. *)
Theorem errors_are_never_shared_cached (w : World) (env : Env)
  (request : Inbound) :
  let uncached (reply : Reply) :=
    code reply <> 200 ->
    cacheControl reply = None \/ cacheControl reply = Some noCache in
  onReply uncached (fst (run (Rawg.handler env request) w))
  /\ onReply uncached (fst (run (GiantBomb.handler env request) w))
  /\ onReply uncached (fst (run (RawgRetry.handler env request) w))
  /\ onReply uncached (fst (run (GiantBombRandom.handler env request) w))
  /\ onReply uncached (fst (run (GiantBombCurated.handler env request) w))
  /\ onReply uncached (fst (run (GiantBombConcepts.handler env request) w)).
Proof.
  cbv zeta. repeat split.
  - unfold run, Rawg.handler, Rawg.getFilters.
    js_cases; uncached_cases.
  - unfold run, GiantBomb.handler.
    js_cases; uncached_cases.
  - unfold run, RawgRetry.handler, RawgRetry.getFilters, Rawg.getFilters.
    js_cases; uncached_cases.
  - unfold run, GiantBombRandom.handler.
    js_cases; uncached_cases.
  - unfold run, GiantBombCurated.handler.
    js_cases; uncached_cases.
  - unfold run, GiantBombConcepts.handler, GiantBombConcepts.getCuratedFilters.
    js_cases; uncached_cases.
Qed.

(** X6.  The RAWG handlers and the genres-and-concepts handler serve the
    filter catalogue from their curated tables: a 200 with the day-long
    shared-cache directive, whatever the remote service would answer, and
    without asking it. *)
Theorem curated_filters_need_no_upstream (w : World) (env : Env)
  (request : Inbound) (apiKey apiHost : string) :
  searchParams request "resource" = Some "filters" ->
  (rawgConfigured env apiKey apiHost ->
   run (Rawg.handler env request) w
   = (Normal (mkReply 200 (Some sharedDay)
                (JObj [("genres", Rawg.CURATED_GENRES)])),
      noEffects)
   /\ run (RawgRetry.handler env request) w
      = (Normal (mkReply 200 (Some sharedDay)
                   (JObj [("genres", RawgRetry.CURATED_GENRES)])),
         noEffects))
  /\ (gbConfigured env apiKey ->
      run (GiantBombConcepts.handler env request) w
      = (Normal (mkReply 200 (Some sharedDay)
                   (JObj [("genres", GiantBombConcepts.CURATED_FILTERS_genres);
                          ("concepts",
                           GiantBombConcepts.CURATED_FILTERS_concepts)])),
         noEffects)).
Proof.
  intros Hres. split.
  - intros H. split.
    + unfold run, Rawg.handler. rawg_env H. rewrite Hres. reflexivity.
    + unfold run, RawgRetry.handler. rawg_env H. rewrite Hres. reflexivity.
  - intros H.
    unfold run, GiantBombConcepts.handler. gb_env H. rewrite Hres. reflexivity.
Qed.

Lemma curated_filters_need_no_upstream_witness :
  run (Rawg.handler rawgEnv (resourceRequest "filters")) down
  = (Normal (mkReply 200 (Some sharedDay)
               (JObj [("genres", Rawg.CURATED_GENRES)])),
     noEffects).
Proof.
  apply (proj1 (curated_filters_need_no_upstream down rawgEnv
                  (resourceRequest "filters") "key" "host" eq_refl)).
  repeat split; (reflexivity || discriminate).
Defined.

(** X7.  The one-shot Giant Bomb handler proxies the genre and platform
    listings: one request for [id,name] with a limit of 100, whose body is
    sent on as it came (404 when it is falsy), and whose failure is a 500
    carrying the error text of the remote service. *)
Theorem giantbomb_lists_are_proxied (w : World) (env : Env)
  (request : Inbound) (apiKey name : string) :
  gbConfigured env apiKey ->
  searchParams request "resource" = Some name ->
  name = "genres" \/ name = "platforms" ->
  let req := gbListRequest apiKey ("/" ++ name) in
  let answer := respond w 0 req in
  exists reply,
    run (GiantBomb.handler env request) w
    = (Normal reply, mkEffects [req] 0)
    /\ (code reply, body reply)
       = outcomeFor
           (if ok answer then Normal (json answer)
            else Throw (Error (orElse (text answer)
                                 "Erro desconhecido da API Giant Bomb")))
    /\ (ok answer = true -> truthy (json answer) = true ->
        reply = mkReply 200 (Some sharedHour) (json answer)).
Proof.
  intros H Hres Hname. cbv zeta.
  unfold run, GiantBomb.handler, GiantBomb.giantBombFetch. gb_env H.
  rewrite Hres.
  destruct Hname as [ -> | -> ].
  - change (resourceIs (Some "genres") "genres") with true.
    js_unfold. cbn [app noEffects calls draws List.length].
    change ("/" ++ "genres") with "/genres".
    fold (gbListRequest apiKey "/genres").
    destruct (ok (respond w 0 (gbListRequest apiKey "/genres"))); cbn [negb].
    + destruct (truthy (json (respond w 0 (gbListRequest apiKey "/genres"))))
        eqn:Ht; cbn [negb outcomeFor]; eexists; repeat split;
        try rewrite Ht; try reflexivity; intros;
        first [ reflexivity | discriminate ].
    + eexists; repeat split; try reflexivity; intros; discriminate.
  - change (resourceIs (Some "platforms") "genres") with false.
    change (resourceIs (Some "platforms") "platforms") with true.
    js_unfold. cbn [app noEffects calls draws List.length].
    change ("/" ++ "platforms") with "/platforms".
    fold (gbListRequest apiKey "/platforms").
    destruct (ok (respond w 0 (gbListRequest apiKey "/platforms"))); cbn [negb].
    + destruct (truthy (json (respond w 0 (gbListRequest apiKey "/platforms"))))
        eqn:Ht; cbn [negb outcomeFor]; eexists; repeat split;
        try rewrite Ht; try reflexivity; intros;
        first [ reflexivity | discriminate ].
    + eexists; repeat split; try reflexivity; intros; discriminate.
Qed.

Lemma giantbomb_lists_are_proxied_witness :
  exists reply,
    run (GiantBomb.handler gbEnv (resourceRequest "genres")) (worldOf portal)
    = (Normal reply, mkEffects [gbListRequest "key" "/genres"] 0)
    /\ reply = mkReply 200 (Some sharedHour) portal.
Proof.
  destruct (giantbomb_lists_are_proxied (worldOf portal) gbEnv
              (resourceRequest "genres") "key" "genres")
    as (reply & Hrun & _ & Hok).
  - split; [ reflexivity | discriminate ].
  - reflexivity.
  - left. reflexivity.
  - exists reply. split; [ exact Hrun | ].
    apply Hok; reflexivity.
Defined.

(** ** What every request looks like *)

Lemma forAttempts_calls_all {A} (w : World) (P : Request -> Prop)
  (body : nat -> Js (Ctl A)) (after : Js A) :
  (forall k s, Forall P (calls s) -> Forall P (calls (snd (body k w s)))) ->
  (forall s, calls (snd (after w s)) = calls s) ->
  forall n from s,
    Forall P (calls s) ->
    Forall P (calls (snd (forAttempts n from body after w s))).
Proof.
  intros Hbody Hafter n from s Hs.
  apply (forAttempts_invariant w (fun s' => Forall P (calls s'))
           (fun _ s' => Forall P (calls s'))); [ | | exact Hs ].
  - intros k s' Hs'. specialize (Hbody k s' Hs'). unfold iteration.
    destruct (body k w s') as [ [ [ | v ] | e ] s'' ]; exact Hbody.
  - intros s' Hs'. rewrite Hafter. exact Hs'.
Qed.

(** Grouping the platforms by year calls nobody and draws nothing. *)
Lemma groupByYear_effects (w : World) (otherPlatforms : list JsVal) :
  forall acc s, snd (GiantBombCurated.groupByYear otherPlatforms acc w s) = s.
Proof.
  induction otherPlatforms as [ | p rest IH ]; intros acc s.
  - reflexivity.
  - cbn [GiantBombCurated.groupByYear]. js_unfold.
    destruct (GiantBombCurated.pushYear acc
                (fullYear w (field p "release_date")) p) as [ acc' | e ].
    + apply IH.
    + reflexivity.
Qed.

Ltac signed_request :=
  first
    [ assumption
    | unfold rawgSigned, gbSigned; cbn [headers url query];
      split; [ reflexivity | ];
      split; [ eexists; reflexivity | ];
      first
        [ eexists; reflexivity
        | intros p Hin; cbn [In] in Hin;
          repeat (destruct Hin as [ <- | Hin ]; [ cbn; tauto | ]);
          contradiction ] ].

Ltac all_signed :=
  repeat (apply Forall_app; split);
  repeat (apply Forall_cons); try apply Forall_nil; signed_request.

(** X8.  Every request the RAWG samplers issue goes to the RAWG gateway with
    the key and host in its headers and only filter and paging parameters in
    its query; every request the Giant Bomb samplers and the platform
    catalogue issue goes to the Giant Bomb API with the revision's user agent
    and a query that ends with the key and [format=json]. *)
Theorem requests_are_signed (w : World) (apiKey apiHost : string)
  (genres concepts platforms : string) :
  Forall (rawgSigned apiKey apiHost)
    (calls (snd (run (Rawg.getSortedGame apiKey apiHost genres) w)))
  /\ Forall (rawgSigned apiKey apiHost)
       (calls (snd (run (RawgRetry.getSortedGame apiKey apiHost genres) w)))
  /\ Forall (gbSigned apiKey "GameSorterApp/1.0")
       (calls (snd (run (GiantBomb.getSortedGame apiKey genres platforms) w)))
  /\ Forall (gbSigned apiKey "RandomGameSorter/1.0")
       (calls (snd (run (GiantBombRandom.getRandomGame apiKey) w)))
  /\ Forall (gbSigned apiKey "GameSorterApp/1.0")
       (calls (snd (run (GiantBombCurated.getSortedGame apiKey genres concepts
                           platforms) w)))
  /\ Forall (gbSigned apiKey "GameSorterApp/1.0")
       (calls (snd (run (GiantBombConcepts.getSortedGame apiKey genres
                           concepts) w)))
  /\ Forall (gbSigned apiKey "GameSorterApp/1.0")
       (calls (snd (run (GiantBombCurated.getCuratedFilters apiKey) w))).
Proof.
  repeat split.
  - unfold run, Rawg.getSortedGame, Rawg.rawgFetch.
    js_cases; cbn [noEffects calls]; all_signed.
  - unfold run, RawgRetry.getSortedGame.
    apply forAttempts_calls_all; [ | reflexivity | apply Forall_nil ].
    intros k s Hs.
    unfold RawgRetry.attemptBody, RawgRetry.rawgFetch, Rawg.rawgFetch.
    js_cases; all_signed.
  - unfold run, GiantBomb.getSortedGame, GiantBomb.giantBombFetch.
    js_cases; cbn [noEffects calls]; all_signed.
  - unfold run, GiantBombRandom.getRandomGame.
    apply forAttempts_calls_all; [ | reflexivity | apply Forall_nil ].
    intros k s Hs.
    unfold GiantBombRandom.attemptBody, GiantBombRandom.tryBlock,
      GiantBombRandom.giantbombFetch.
    js_cases; all_signed.
  - unfold run, GiantBombCurated.getSortedGame, GiantBombCurated.sample,
      GiantBombCurated.giantBombFetch, GiantBomb.giantBombFetch.
    js_cases; cbn [noEffects calls]; all_signed.
  - unfold run, GiantBombConcepts.getSortedGame, GiantBombCurated.sample,
      GiantBombCurated.giantBombFetch, GiantBomb.giantBombFetch.
    js_cases; cbn [noEffects calls]; all_signed.
  - unfold run, GiantBombCurated.getCuratedFilters,
      GiantBombCurated.giantBombFetch, GiantBomb.giantBombFetch.
    js_cases; cbn [noEffects calls];
      try match goal with
          | H : GiantBombCurated.groupByYear ?l ?acc ?w' ?s = (_, ?e) |- _ =>
              let E := fresh "E" in
              pose proof (groupByYear_effects w' l acc s) as E;
              rewrite H in E; cbn [snd] in E; subst e; cbn [calls]
          end;
      all_signed.
Qed.

(** ** Budgets *)

Ltac one_shot_budget :=
  cbn [noEffects calls draws app];
  eexists; split;
  [ reflexivity | cbn [List.length]; split; lia ].

(** X9.  A one-shot sampler starts with its search and stays within a fixed
    budget: the RAWG one issues at most three calls and two draws, the Giant
    Bomb ones at most two calls and one draw; the platform catalogue costs
    exactly one call and no draw. *)
Theorem one_shot_budgets (w : World) (apiKey apiHost : string)
  (genres concepts platforms : string) :
  (exists rest,
      calls (snd (run (Rawg.getSortedGame apiKey apiHost genres) w))
      = rawgProbe apiKey apiHost genres :: rest
      /\ (List.length rest <= 2)%nat
      /\ (draws (snd (run (Rawg.getSortedGame apiKey apiHost genres) w))
          <= 2)%nat)
  /\ (exists rest,
        calls (snd (run (GiantBomb.getSortedGame apiKey genres platforms) w))
        = gbSearch apiKey genres platforms :: rest
        /\ (List.length rest <= 1)%nat
        /\ (draws (snd (run (GiantBomb.getSortedGame apiKey genres platforms)
                          w))
            <= 1)%nat)
  /\ (exists rest,
        calls (snd (run (GiantBombCurated.getSortedGame apiKey genres concepts
                           platforms) w))
        = dimensionSearch apiKey [("genres", genres); ("concepts", concepts);
                                  ("platforms", platforms)] :: rest
        /\ (List.length rest <= 1)%nat
        /\ (draws (snd (run (GiantBombCurated.getSortedGame apiKey genres
                               concepts platforms) w))
            <= 1)%nat)
  /\ (exists rest,
        calls (snd (run (GiantBombConcepts.getSortedGame apiKey genres
                           concepts) w))
        = dimensionSearch apiKey [("genres", genres); ("concepts", concepts)]
            :: rest
        /\ (List.length rest <= 1)%nat
        /\ (draws (snd (run (GiantBombConcepts.getSortedGame apiKey genres
                               concepts) w))
            <= 1)%nat)
  /\ snd (run (GiantBombCurated.getCuratedFilters apiKey) w)
     = mkEffects [platformsRequest apiKey] 0.
Proof.
  repeat apply conj.
  - unfold run, Rawg.getSortedGame, Rawg.rawgFetch.
    js_cases; one_shot_budget.
  - unfold run, GiantBomb.getSortedGame, GiantBomb.giantBombFetch.
    js_cases; one_shot_budget.
  - unfold run, GiantBombCurated.getSortedGame, GiantBombCurated.sample,
      GiantBombCurated.giantBombFetch, GiantBomb.giantBombFetch.
    js_cases; one_shot_budget.
  - unfold run, GiantBombConcepts.getSortedGame, GiantBombCurated.sample,
      GiantBombCurated.giantBombFetch, GiantBomb.giantBombFetch.
    js_cases; one_shot_budget.
  - unfold run, GiantBombCurated.getCuratedFilters,
      GiantBombCurated.giantBombFetch, GiantBomb.giantBombFetch.
    js_cases; cbn [noEffects calls draws app];
      try match goal with
          | H : GiantBombCurated.groupByYear ?l ?acc ?w' ?s = (_, ?e) |- _ =>
              let E := fresh "E" in
              pose proof (groupByYear_effects w' l acc s) as E;
              rewrite H in E; cbn [snd] in E; subst e
          end;
      reflexivity.
Qed.

Lemma forAttempts_draws_bound {A} (w : World) (body : nat -> Js (Ctl A))
  (after : Js A) (bound : nat) :
  (forall k s, (draws (snd (body k w s)) <= draws s + bound)%nat) ->
  (forall s, draws (snd (after w s)) = draws s) ->
  forall n from s,
    (draws (snd (forAttempts n from body after w s))
     <= draws s + n * bound)%nat.
Proof.
  intros Hbody Hafter n from s.
  apply (forAttempts_rule w
           (fun k s' => (draws s' <= draws s + k * bound)%nat)
           (fun _ s' => (draws s' <= draws s + n * bound)%nat)).
  - intros k Hk s' Hs'. pose proof (Hbody (from + k)%nat s') as Hb.
    assert (draws (snd (body (from + k)%nat w s'))
            <= draws s + S k * bound)%nat as Hstep by lia.
    unfold iteration.
    destruct (body (from + k)%nat w s') as [ [ [ | v ] | e ] s'' ];
      cbn [fst snd] in *; nia.
  - intros s' Hs'. rewrite Hafter. exact Hs'.
  - lia.
Qed.

(** X10.  A retry sampler always issues at least one call, and it draws at
    most twice per attempt on RAWG (ten draws in all) and once per attempt on
    Giant Bomb (five in all). *)
Theorem retry_samplers_draw_bound (w : World) (apiKey apiHost genres : string) :
  (exists rest,
      calls (snd (run (RawgRetry.getSortedGame apiKey apiHost genres) w))
      = rawgProbe apiKey apiHost genres :: rest)
  /\ (draws (snd (run (RawgRetry.getSortedGame apiKey apiHost genres) w))
      <= 2 * RawgRetry.MAX_ATTEMPTS)%nat
  /\ (exists rest,
        calls (snd (run (GiantBombRandom.getRandomGame apiKey) w))
        = gbProbe apiKey :: rest)
  /\ (draws (snd (run (GiantBombRandom.getRandomGame apiKey) w))
      <= GiantBombRandom.MAX_ATTEMPTS)%nat.
Proof.
  repeat apply conj.
  - unfold run, RawgRetry.getSortedGame, RawgRetry.MAX_ATTEMPTS.
    rewrite forAttempts_step.
    destruct (RawgRetry_attempt_calls w apiKey apiHost genres 0 noEffects)
      as (ext & Hcalls & _).
    cbn [noEffects calls app] in Hcalls.
    destruct (forAttempts_calls_extend w
                (RawgRetry.attemptBody apiKey apiHost genres) (ret JNull)
                ltac:(intros k s;
                      destruct (RawgRetry_attempt_calls w apiKey apiHost
                                  genres k s) as (e & -> & _);
                      eexists; reflexivity)
                ltac:(reflexivity) 4%nat 1%nat
                (snd (RawgRetry.attemptBody apiKey apiHost genres 0 w
                        noEffects))) as (more & Hmore).
    destruct (RawgRetry.attemptBody apiKey apiHost genres 0 w noEffects)
      as [ [ [ | v ] | e ] s1 ]; cbn [fst snd] in *.
    + rewrite Hmore, Hcalls. eexists. reflexivity.
    + rewrite Hcalls. eexists. reflexivity.
    + rewrite Hcalls. eexists. reflexivity.
  - unfold run, RawgRetry.getSortedGame.
    pose proof (forAttempts_draws_bound w
                  (RawgRetry.attemptBody apiKey apiHost genres) (ret JNull) 2)
      as H.
    specialize (H ltac:(intros k s;
                        unfold RawgRetry.attemptBody, RawgRetry.rawgFetch,
                          Rawg.rawgFetch; js_cases; lia)
                  ltac:(reflexivity) RawgRetry.MAX_ATTEMPTS 0%nat noEffects).
    cbn [noEffects draws] in H. lia.
  - unfold run, GiantBombRandom.getRandomGame, GiantBombRandom.MAX_ATTEMPTS.
    rewrite forAttempts_step.
    destruct (GiantBombRandom_attempt_calls w apiKey 0 noEffects)
      as (ext & Hcalls & _).
    cbn [noEffects calls app] in Hcalls.
    destruct (forAttempts_calls_extend w
                (GiantBombRandom.attemptBody apiKey)
                (throw GiantBombRandom.exhausted)
                ltac:(intros k s;
                      destruct (GiantBombRandom_attempt_calls w apiKey k s)
                        as (e & -> & _);
                      eexists; reflexivity)
                ltac:(reflexivity) 4%nat 1%nat
                (snd (GiantBombRandom.attemptBody apiKey 0 w noEffects)))
      as (more & Hmore).
    destruct (GiantBombRandom.attemptBody apiKey 0 w noEffects)
      as [ [ [ | v ] | e ] s1 ]; cbn [fst snd] in *.
    + rewrite Hmore, Hcalls. eexists. reflexivity.
    + rewrite Hcalls. eexists. reflexivity.
    + rewrite Hcalls. eexists. reflexivity.
  - unfold run, GiantBombRandom.getRandomGame.
    pose proof (forAttempts_draws_bound w
                  (GiantBombRandom.attemptBody apiKey)
                  (throw GiantBombRandom.exhausted) 1) as H.
    specialize (H ltac:(intros k s;
                        unfold GiantBombRandom.attemptBody,
                          GiantBombRandom.tryBlock,
                          GiantBombRandom.giantbombFetch; js_cases; lia)
                  ltac:(reflexivity) GiantBombRandom.MAX_ATTEMPTS 0%nat
                  noEffects).
    cbn [noEffects draws] in H. lia.
Qed.

(** ** The one-shot Giant Bomb samplers *)

Ltac first_answer req Hok :=
  js_unfold; cbn [app noEffects calls draws List.length];
  fold req; rewrite Hok; cbn [negb].

(** X11.  When the search reports no result at all, the one-shot Giant Bomb
    samplers return [null] after that one call, without drawing. *)
Theorem giantbomb_zero_total_returns_null (w : World)
  (apiKey genres platforms : string) (dimensions : list (string * string)) :
  (ok (respond w 0 (gbSearch apiKey genres platforms)) = true ->
   total (listing (respond w 0 (gbSearch apiKey genres platforms))) = 0 ->
   run (GiantBomb.getSortedGame apiKey genres platforms) w
   = (Normal JNull, mkEffects [gbSearch apiKey genres platforms] 0))
  /\ (ok (respond w 0 (dimensionSearch apiKey dimensions)) = true ->
      total (listing (respond w 0 (dimensionSearch apiKey dimensions))) = 0 ->
      run (GiantBombCurated.sample apiKey dimensions) w
      = (Normal JNull, mkEffects [dimensionSearch apiKey dimensions] 0)).
Proof.
  split; intros Hok Hzero.
  - unfold run, GiantBomb.getSortedGame, GiantBomb.giantBombFetch.
    first_answer (gbSearch apiKey genres platforms) Hok.
    rewrite Hzero. reflexivity.
  - unfold run, GiantBombCurated.sample, GiantBombCurated.giantBombFetch,
      GiantBomb.giantBombFetch.
    first_answer (dimensionSearch apiKey dimensions) Hok.
    rewrite Hzero. reflexivity.
Qed.

Lemma giantbomb_zero_total_returns_null_witness :
  run (GiantBomb.getSortedGame "key" "4" "94") emptyWorld
  = (Normal JNull, mkEffects [gbSearch "key" "4" "94"] 0)
  /\ run (GiantBombConcepts.getSortedGame "key" "4" "869") emptyWorld
     = (Normal JNull,
        mkEffects [dimensionSearch "key" [("genres", "4");
                                          ("concepts", "869")]] 0).
Proof.
  split.
  - apply (proj1 (giantbomb_zero_total_returns_null emptyWorld "key" "4" "94"
                    [])); reflexivity.
  - apply (proj2 (giantbomb_zero_total_returns_null emptyWorld "key" "4" "94"
                    [("genres", "4"); ("concepts", "869")])); reflexivity.
Defined.

Lemma filterJs_In (pred : JsVal -> Completion bool) (items kept : list JsVal) :
  filterJs pred items = Normal kept ->
  forall x, In x kept <-> In x items /\ pred x = Normal true.
Proof.
  revert kept. induction items as [ | y rest IH ]; intros kept H x.
  - cbn in H. inversion H. cbn. tauto.
  - cbn [filterJs] in H.
    destruct (pred y) as [ b | e ] eqn:Hy; [ | discriminate ].
    destruct (filterJs pred rest) as [ kept' | e ]; [ | discriminate ].
    specialize (IH kept' eq_refl x).
    inversion H; subst kept. destruct b; cbn [In]; split.
    + intros [ <- | Hx ]; [ auto | ]. apply IH in Hx. tauto.
    + intros [ [ <- | Hx ] Hp ]; [ auto | ]. right. apply IH. auto.
    + intros Hx. apply IH in Hx. tauto.
    + intros [ [ <- | Hx ] Hp ]; [ congruence | ]. apply IH. auto.
Qed.

Lemma filterJs_none (pred : JsVal -> Completion bool) (items : list JsVal) :
  (forall x, In x items -> pred x = Normal false) ->
  filterJs pred items = Normal [].
Proof.
  induction items as [ | y rest IH ]; intros H.
  - reflexivity.
  - cbn [filterJs]. rewrite (H y (or_introl eq_refl)).
    rewrite IH by (intros x Hx; apply H; right; exact Hx). reflexivity.
Qed.

(** X12.  When none of the games the search lists has an
    [original_release_date], the samplers of part_002 return [null] after the
    search alone: no game is drawn and no detail is fetched. *)
Theorem undated_games_are_never_picked (w : World) (apiKey : string)
  (dimensions : list (string * string)) (items : list JsVal) :
  ok (respond w 0 (dimensionSearch apiKey dimensions)) = true ->
  total (listing (respond w 0 (dimensionSearch apiKey dimensions))) <> 0 ->
  results (listing (respond w 0 (dimensionSearch apiKey dimensions)))
  = Some items ->
  (forall game, In game items ->
                GiantBombCurated.hasDate game = Normal false) ->
  run (GiantBombCurated.sample apiKey dimensions) w
  = (Normal JNull, mkEffects [dimensionSearch apiKey dimensions] 0).
Proof.
  intros Hok Htotal Hresults Hnone.
  unfold run, GiantBombCurated.sample, GiantBombCurated.giantBombFetch,
    GiantBomb.giantBombFetch.
  first_answer (dimensionSearch apiKey dimensions) Hok.
  apply Z.eqb_neq in Htotal. rewrite Htotal, Hresults.
  rewrite (filterJs_none _ _ Hnone). reflexivity.
Qed.

Lemma undated_games_are_never_picked_witness :
  run (GiantBombCurated.sample "key" [("genres", "4")]) undatedWorld
  = (Normal JNull, mkEffects [dimensionSearch "key" [("genres", "4")]] 0).
Proof.
  apply (undated_games_are_never_picked undatedWorld "key" [("genres", "4")]
           [undatedSummary; undatedSummary]).
  - reflexivity.
  - discriminate.
  - reflexivity.
  - intros game [ <- | [ <- | [] ] ]; reflexivity.
Defined.

(** X13.  Whenever a sampler of part_002 fetches a detail, it is the detail
    of a game the search listed with a truthy [original_release_date]: the
    second call asks for [/game/<guid>/] of such a game. *)
Theorem picked_game_has_a_date (w : World) (apiKey : string)
  (dimensions : list (string * string)) (req : Request) :
  nth_error (calls (snd (run (GiantBombCurated.sample apiKey dimensions) w))) 1
  = Some req ->
  exists items game guid path,
    results (listing (respond w 0 (dimensionSearch apiKey dimensions)))
    = Some items
    /\ In game items
    /\ GiantBombCurated.hasDate game = Normal true
    /\ getProp game "guid" = Normal guid
    /\ toString guid = Normal path
    /\ req = gbGameRequest apiKey path.
Proof.
  unfold run, GiantBombCurated.sample, GiantBombCurated.giantBombFetch,
    GiantBomb.giantBombFetch.
  js_unfold. cbn [app noEffects calls draws List.length].
  fold (dimensionSearch apiKey dimensions).
  js_cases; cbn [nth_error app]; intros Hreq; try discriminate.
  all: inversion Hreq; subst req; clear Hreq.
  all: match goal with
       | H : filterJs _ ?items = Normal ?kept |- _ =>
           pose proof (proj1 (filterJs_In _ _ _ H
                                (index kept
                                   (floorMul (random w 0)
                                      (Z.of_nat (List.length kept)))))
                         (index_in_range kept (random w 0)
                            ltac:(subst; discriminate)))
             as [ Hin Hdate ]
       end.
  all: do 4 eexists; repeat split; eauto.
Qed.

Lemma picked_game_has_a_date_witness :
  exists items game guid path,
    results (listing (respond mixedWorld 0
                        (dimensionSearch "key" [("genres", "4")])))
    = Some items
    /\ In game items
    /\ GiantBombCurated.hasDate game = Normal true
    /\ getProp game "guid" = Normal guid
    /\ toString guid = Normal path
    /\ gbGameRequest "key" "3030-4725" = gbGameRequest "key" path.
Proof.
  apply (picked_game_has_a_date mixedWorld "key" [("genres", "4")]
           (gbGameRequest "key" "3030-4725")).
  reflexivity.
Defined.

(** ** What the RAWG samplers pick and return *)

(** X14.  Whenever the one-shot RAWG sampler fetches a detail, it is the
    detail of an item of the page it has just fetched: the third call asks
    for [/games/<id>] of one of the results of the second. *)
Theorem picked_summary_is_on_the_page (w : World)
  (apiKey apiHost genres : string) (req : Request) :
  nth_error (calls (snd (run (Rawg.getSortedGame apiKey apiHost genres) w))) 2
  = Some req ->
  exists page items item id path,
    nth_error (calls (snd (run (Rawg.getSortedGame apiKey apiHost genres) w)))
      1
    = Some (pageRequest apiKey apiHost genres page)
    /\ results (listing (respond w 1 (pageRequest apiKey apiHost genres page)))
       = Some items
    /\ In item items
    /\ getProp item "id" = Normal id
    /\ toString id = Normal path
    /\ req = rawgGameRequest apiKey apiHost path.
Proof.
  unfold run, Rawg.getSortedGame, Rawg.rawgFetch.
  js_unfold. cbn [app noEffects calls draws List.length].
  fold (rawgRequest apiKey apiHost "/games"
          [("genres", PStr genres); ("page_size", PNum 1)]).
  js_cases; cbn [nth_error app]; intros Hreq; try discriminate.
  all: inversion Hreq; subst req; clear Hreq.
  all: match goal with
       | H : results _ = Some (?x :: ?l) |- _ =>
           pose proof (index_in_range (x :: l) (random w 1)
                         ltac:(discriminate)) as Hin
       end.
  all: do 5 eexists; repeat split; eauto; reflexivity.
Qed.

Lemma picked_summary_is_on_the_page_witness :
  exists page items item id path,
    nth_error (calls (snd (run (Rawg.getSortedGame "key" "host" "4")
                             (worldOf portal)))) 1
    = Some (pageRequest "key" "host" "4" page)
    /\ results (listing (respond (worldOf portal) 1
                           (pageRequest "key" "host" "4" page)))
       = Some items
    /\ In item items
    /\ getProp item "id" = Normal id
    /\ toString id = Normal path
    /\ rawgGameRequest "key" "host" "3498"
       = rawgGameRequest "key" "host" path.
Proof.
  apply (picked_summary_is_on_the_page (worldOf portal) "key" "host" "4"
           (rawgGameRequest "key" "host" "3498")).
  reflexivity.
Defined.

(** X15.  A game a retry sampler returns is what the remote service
    answered to the last call made, unaltered: on RAWG the body of the last
    detail request, on Giant Bomb the [results] of that body. *)
Theorem returned_game_is_the_last_answer (w : World)
  (apiKey apiHost genres : string) (v : JsVal) :
  (fst (run (RawgRetry.getSortedGame apiKey apiHost genres) w) = Normal v ->
   v <> JNull ->
   exists pre path,
     calls (snd (run (RawgRetry.getSortedGame apiKey apiHost genres) w))
     = (pre ++ [rawgGameRequest apiKey apiHost path])%list
     /\ v = json (respond w (List.length pre)
                    (rawgGameRequest apiKey apiHost path)))
  /\ (fst (run (GiantBombRandom.getRandomGame apiKey) w) = Normal v ->
      exists pre path,
        calls (snd (run (GiantBombRandom.getRandomGame apiKey) w))
        = (pre ++ [randomGameRequest apiKey path])%list
        /\ getProp (json (respond w (List.length pre)
                            (randomGameRequest apiKey path))) "results"
           = Normal v).
Proof.
  split.
  - revert v.
    assert (match fst (run (RawgRetry.getSortedGame apiKey apiHost genres) w)
            with
            | Normal v =>
                v <> JNull ->
                exists pre path,
                  calls (snd (run (RawgRetry.getSortedGame apiKey apiHost
                                     genres) w))
                  = (pre ++ [rawgGameRequest apiKey apiHost path])%list
                  /\ v = json (respond w (List.length pre)
                                 (rawgGameRequest apiKey apiHost path))
            | Throw _ => True
            end) as H.
    { unfold run, RawgRetry.getSortedGame.
      apply (forAttempts_invariant w (fun _ => True)
               (fun c s =>
                  match c with
                  | Normal v =>
                      v <> JNull ->
                      exists pre path,
                        calls s
                        = (pre ++ [rawgGameRequest apiKey apiHost path])%list
                        /\ v = json (respond w (List.length pre)
                                       (rawgGameRequest apiKey apiHost path))
                  | Throw _ => True
                  end)); [ | | exact I ].
      - intros k s _.
        unfold RawgRetry.attemptBody, RawgRetry.rawgFetch, Rawg.rawgFetch.
        js_cases; cbn [iteration]; try exact I;
          intros Hv; try congruence;
          do 2 eexists; split; reflexivity.
      - intros s _. cbn. congruence. }
    intros v Hrun Hv. rewrite Hrun in H. exact (H Hv).
  - revert v.
    assert (match fst (run (GiantBombRandom.getRandomGame apiKey) w) with
            | Normal v =>
                exists pre path,
                  calls (snd (run (GiantBombRandom.getRandomGame apiKey) w))
                  = (pre ++ [randomGameRequest apiKey path])%list
                  /\ getProp (json (respond w (List.length pre)
                                      (randomGameRequest apiKey path)))
                       "results"
                     = Normal v
            | Throw _ => True
            end) as H.
    { unfold run, GiantBombRandom.getRandomGame.
      apply (forAttempts_invariant w (fun _ => True)
               (fun c s =>
                  match c with
                  | Normal v =>
                      exists pre path,
                        calls s
                        = (pre ++ [randomGameRequest apiKey path])%list
                        /\ getProp (json (respond w (List.length pre)
                                            (randomGameRequest apiKey path)))
                             "results"
                           = Normal v
                  | Throw _ => True
                  end)); [ | | exact I ].
      - intros k s _.
        unfold GiantBombRandom.attemptBody, GiantBombRandom.tryBlock,
          GiantBombRandom.giantbombFetch.
        js_cases; cbn [iteration]; try exact I.
        all: do 2 eexists; split; [ reflexivity | ]; eassumption.
      - intros s _. exact I. }
    intros v Hrun. rewrite Hrun in H. exact H.
Qed.

Lemma returned_game_is_the_last_answer_witness :
  exists pre path,
    calls (snd (run (RawgRetry.getSortedGame "key" "host" "4")
                  (worldOf portal)))
    = (pre ++ [rawgGameRequest "key" "host" path])%list
    /\ portal = json (respond (worldOf portal) (List.length pre)
                        (rawgGameRequest "key" "host" path)).
Proof.
  apply (proj1 (returned_game_is_the_last_answer (worldOf portal) "key" "host"
                  "4" portal)).
  - reflexivity.
  - discriminate.
Defined.

(** X16.  The RAWG samplers do not guard the item they pick: when the picked
    item of the first page is [null], reading its [id] throws a TypeError
    that leaves the sampler, after two calls and two draws; the retry
    sampler does not go on to a second attempt. *)
Theorem null_summary_throws (w : World) (apiKey apiHost genres : string)
  (items : list JsVal) :
  let probe := rawgProbe apiKey apiHost genres in
  let page :=
    pageRequest apiKey apiHost genres
      (randomPage (random w 0) (maxPage (total (listing (respond w 0 probe)))))
  in
  ok (respond w 0 probe) = true ->
  total (listing (respond w 0 probe)) <> 0 ->
  ok (respond w 1 page) = true ->
  results (listing (respond w 1 page)) = Some items ->
  items <> [] ->
  index items (floorMul (random w 1) (Z.of_nat (List.length items))) = JNull ->
  run (Rawg.getSortedGame apiKey apiHost genres) w
  = (Throw (TypeErrorRead JNull "id"), mkEffects [probe; page] 2)
  /\ run (RawgRetry.getSortedGame apiKey apiHost genres) w
     = (Throw (TypeErrorRead JNull "id"), mkEffects [probe; page] 2).
Proof.
  cbv zeta. intros Hok Htotal Hok' Hresults Hitems Hnull.
  apply Z.eqb_neq in Htotal.
  destruct items as [ | x rest ]; [ congruence | ].
  cbn [List.length] in Hnull.
  unfold pageRequest, rawgProbe, rawgRequest in *.
  split.
  - unfold run, Rawg.getSortedGame, Rawg.rawgFetch.
    js_unfold. cbn [app noEffects calls draws List.length].
    rewrite Hok. cbn [negb]. rewrite Htotal.
    js_unfold. cbn [app calls draws List.length].
    rewrite Hok'. cbn [negb]. rewrite Hresults.
    js_unfold. cbn [app calls draws List.length].
    rewrite Hnull. reflexivity.
  - unfold run, RawgRetry.getSortedGame, RawgRetry.MAX_ATTEMPTS.
    rewrite forAttempts_step.
    unfold RawgRetry.attemptBody, RawgRetry.rawgFetch, Rawg.rawgFetch.
    js_unfold. cbn [app noEffects calls draws List.length].
    rewrite Hok. cbn [negb]. rewrite Htotal.
    js_unfold. cbn [app calls draws List.length].
    rewrite Hok'. cbn [negb]. rewrite Hresults.
    js_unfold. cbn [app calls draws List.length].
    rewrite Hnull. reflexivity.
Qed.

Lemma null_summary_throws_witness :
  run (RawgRetry.getSortedGame "key" "host" "4") brokenPage
  = (Throw (TypeErrorRead JNull "id"),
     mkEffects [rawgProbe "key" "host" "4"; pageRequest "key" "host" "4" 1] 2).
Proof.
  pose proof (null_summary_throws brokenPage "key" "host" "4" [JNull]) as H.
  cbv zeta in H. apply H; (reflexivity || discriminate).
Defined.

(** ** Draws *)




(** X18.  [maxPage] never exceeds the 250 pages the gateway serves and grows
    with the count; up to 10000 games every game lies on a page that can be
    drawn, and from 9961 games on the cap of 250 is reached. *)
Theorem reachability_ceiling (count : Z) :
  maxPage count <= 250
  /\ (forall more, count <= more -> maxPage count <= maxPage more)
  /\ (0 < count <= 10000 ->
      40 * (maxPage count - 1) < count <= 40 * maxPage count)
  /\ (9960 < count -> maxPage count = 250).
Proof.
  unfold maxPage.
  pose proof (ceilDiv_bounds count 40 ltac:(lia)) as Hc.
  repeat split.
  - lia.
  - intros more Hmore.
    pose proof (ceilDiv_bounds more 40 ltac:(lia)). lia.
  - lia.
  - lia.
  - intros Hbig. lia.
Qed.

Lemma reachability_ceiling_witness :
  40 * (maxPage 10000 - 1) < 10000 <= 40 * maxPage 10000
  /\ maxPage 10000 = 250.
Proof.
  split.
  - apply (proj1 (proj2 (proj2 (reachability_ceiling 10000)))).
    split; [ reflexivity | discriminate ].
  - apply (proj2 (proj2 (proj2 (reachability_ceiling 10000)))). reflexivity.
Defined.

(** ** The random-offset sampler *)

Lemma GiantBombRandom_attempt_offsets (w : World) (apiKey : string) (k : nat)
  (s : Effects) :
  exists ext,
    calls (snd (GiantBombRandom.attemptBody apiKey k w s))
    = (calls s ++ ext)%list
    /\ offsetAttemptCalls w apiKey (List.length (calls s)) ext.
Proof.
  unfold GiantBombRandom.attemptBody, GiantBombRandom.tryBlock,
    GiantBombRandom.giantbombFetch.
  js_unfold. cbn [app].
  fold (gbProbe apiKey).
  js_cases; ok_facts;
    try (exists [gbProbe apiKey]; split; [ reflexivity | constructor ]);
    (eexists; split;
     [ repeat rewrite <- app_assoc; cbn [app]; reflexivity
     | apply window_fetched;
       [ assumption
       | apply Z.eqb_neq; assumption
       | first
           [ left; reflexivity
           | right; do 4 eexists; repeat split;
             [ rewrite length_app, Nat.add_1_r in *; eassumption
             | eassumption | eassumption ] ] ] ]).
Qed.

(** X19.  The calls of the random-offset sampler are a sequence of attempts,
    each a count probe alone or followed by the fetch of a one-item window at
    an offset drawn from the count just reported (below it, when it is
    positive) and then at most by the detail request for the [guid] of the
    window's first item. *)
Theorem offsets_are_in_range (w : World) (apiKey : string) :
  offsetSamplerCalls w apiKey
    (calls (snd (run (GiantBombRandom.getRandomGame apiKey) w)))
  /\ forall count r, 0 < count -> 0 <= floorMul r count < count.
Proof.
  split.
  - unfold run, GiantBombRandom.getRandomGame.
    apply (forAttempts_invariant w
             (fun s => offsetSamplerCalls w apiKey (calls s))
             (fun _ s => offsetSamplerCalls w apiKey (calls s))).
    + intros k s Hs.
      destruct (GiantBombRandom_attempt_offsets w apiKey k s)
        as (ext & Hcalls & Hext).
      assert (offsetSamplerCalls w apiKey
                (calls (snd (GiantBombRandom.attemptBody apiKey k w s))))
        as Hnext by (rewrite Hcalls; apply offset_more_calls; assumption).
      unfold iteration.
      destruct (GiantBombRandom.attemptBody apiKey k w s)
        as [ [ [ | v ] | e ] s' ]; exact Hnext.
    + intros s Hs. exact Hs.
    + apply offset_no_calls.
  - intros count r Hcount. split.
    + apply floorMul_nonneg. lia.
    + apply floorMul_lt. exact Hcount.
Qed.

(** X20.  The random-offset sampler never returns a falsy value, so the 404
    branch of its handler is never taken: whatever the request, the handler
    does not answer 404. *)
Theorem random_game_is_never_empty (w : World) (env : Env) (request : Inbound)
  (apiKey : string) :
  match fst (run (GiantBombRandom.getRandomGame apiKey) w) with
  | Normal v => truthy v = true
  | Throw _ => True
  end
  /\ onReply (fun reply => code reply <> 404)
       (fst (run (GiantBombRandom.handler env request) w)).
Proof.
  assert (forall key,
             match fst (run (GiantBombRandom.getRandomGame key) w) with
             | Normal v => truthy v = true
             | Throw _ => True
             end) as Htruthy.
  { intros key.
    pose proof (GiantBombRandom_getRandomGame_outcome w key) as H.
    destruct (fst (run (GiantBombRandom.getRandomGame key) w)) as [ v | e ];
      [ | exact I ].
    unfold GiantBombRandom.isValid in H.
    repeat (apply andb_prop in H as [ H _ ]). exact H. }
  split; [ apply Htruthy | ].
  unfold run, GiantBombRandom.handler.
  js_cases; cbn [onReply code]; try exact I; try discriminate.
  all: match goal with
       | H : GiantBombRandom.getRandomGame ?key _ noEffects = (Normal ?a, _),
         Hn : negb (truthy ?a) = true |- _ =>
           pose proof (Htruthy key) as Ht; unfold run in Ht;
           rewrite H in Ht; cbn [fst] in Ht; rewrite Ht in Hn;
           discriminate Hn
       end.
Qed.

(** ** More on the platform catalogue *)

Lemma callToString_throws_TypeError (v : JsVal) (e : JsError) :
  callToString v = Throw e -> forall m, e <> Error m.
Proof.
  unfold callToString, toString.
  destruct v; try destruct (hasOwn "toString" fields);
    try destruct (toStringOpt _); intros H; inversion H; discriminate.
Qed.

Lemma getProp_throws_TypeError (v : JsVal) (k : string) (e : JsError) :
  getProp v k = Throw e -> forall m, e <> Error m.
Proof.
  unfold getProp. destruct v; try destruct (lookup k fields);
    intros H; inversion H; discriminate.
Qed.

Lemma classify_throws (platforms : list JsVal) :
  (exists p, In p platforms /\ platformId p = None) ->
  forall mainPlatforms otherPlatforms,
  exists e,
    GiantBombCurated.classify platforms mainPlatforms otherPlatforms = Throw e
    /\ forall m, e <> Error m.
Proof.
  induction platforms as [ | q rest IH ]; intros (p & Hin & Hid) mainPlatforms
                                                otherPlatforms.
  - contradiction.
  - cbn [GiantBombCurated.classify].
    destruct (getProp q "id") as [ id | e ] eqn:Hget.
    + destruct (callToString id) as [ s | e ] eqn:Hcall.
      * assert (exists p0, In p0 rest /\ platformId p0 = None) as Hrest.
        { destruct Hin as [ <- | Hin ]; [ | eauto ].
          unfold platformId in Hid. rewrite Hget, Hcall in Hid. discriminate. }
        destruct (GiantBombCurated.includes GiantBombCurated.MAIN_PLATFORM_IDS s);
          [ apply IH; exact Hrest | ].
        destruct (truthy (field q "release_date")); apply IH; exact Hrest.
      * exists e. split; [ reflexivity | ].
        eapply callToString_throws_TypeError; eassumption.
    + exists e. split; [ reflexivity | ].
      eapply getProp_throws_TypeError; eassumption.
Qed.

(** X21.  One listed platform without a usable id fails the whole catalogue:
    [getCuratedFilters] throws a TypeError (not a transport error) after its
    one call, and returns no catalogue at all. *)
Theorem platform_without_id_fails_the_catalogue (w : World) (apiKey : string)
  (platforms : list JsVal) (p : JsVal) :
  ok (respond w 0 (platformsRequest apiKey)) = true ->
  results (listing (respond w 0 (platformsRequest apiKey))) = Some platforms ->
  In p platforms ->
  platformId p = None ->
  exists e,
    run (GiantBombCurated.getCuratedFilters apiKey) w
    = (Throw e, mkEffects [platformsRequest apiKey] 0)
    /\ forall m, e <> Error m.
Proof.
  intros Hok Hresults Hin Hid.
  destruct (classify_throws platforms (ex_intro _ p (conj Hin Hid)) [] [])
    as (e & Hclassify & He).
  exists e. split; [ | exact He ].
  unfold run, GiantBombCurated.getCuratedFilters,
    GiantBombCurated.giantBombFetch, GiantBomb.giantBombFetch.
  js_unfold. cbn [app noEffects calls draws List.length].
  fold (platformsRequest apiKey).
  rewrite Hok. cbn [negb]. rewrite Hresults, Hclassify. reflexivity.
Qed.

Lemma platform_without_id_fails_the_catalogue_witness :
  exists e,
    run (GiantBombCurated.getCuratedFilters "key")
      (listingOf [wii; nameless; playstation4])
    = (Throw e, mkEffects [platformsRequest "key"] 0)
    /\ forall m, e <> Error m.
Proof.
  apply (platform_without_id_fails_the_catalogue
           (listingOf [wii; nameless; playstation4]) "key"
           [wii; nameless; playstation4] nameless).
  - reflexivity.
  - reflexivity.
  - right. left. reflexivity.
  - reflexivity.
Defined.

Lemma listed_catalogue (w : World) (apiKey : string) (platforms : list JsVal) :
  listed w apiKey platforms ->
  exists byYear,
    run (GiantBombCurated.getCuratedFilters apiKey) w
    = (Normal (catalogueOf (filter isMain platforms) byYear),
       mkEffects [platformsRequest apiKey] 0)
    /\ forall k,
        bucket k byYear
        = filter (fun p => String.eqb (keyOf w p) k) (filter isOther platforms).
Proof.
  intros (Hok & Hresults & Hids).
  destruct (getCuratedFilters_spec w apiKey platforms Hok Hresults Hids)
    as (byYear & Hrun & _ & Hbuckets).
  exists byYear. split; [ exact Hrun | exact Hbuckets ].
Qed.

(** X22.  A platform outside the main list whose release date the runtime
    cannot read as a date (its year is [NaN]) is filed under the key "NaN". *)
Theorem unreadable_date_goes_under_NaN (w : World) (apiKey : string)
  (platforms : list JsVal) (p : JsVal) :
  listed w apiKey platforms ->
  In p platforms ->
  isMain p = false ->
  truthy (field p "release_date") = true ->
  fullYear w (field p "release_date") = None ->
  exists mainPlatforms byYear items,
    fst (run (GiantBombCurated.getCuratedFilters apiKey) w)
    = Normal (catalogueOf mainPlatforms byYear)
    /\ lookup "NaN" byYear = Some (JArr items)
    /\ In p items.
Proof.
  intros Hlisted Hp Hmain Hdate Hyear.
  destruct (listed_catalogue w apiKey platforms Hlisted)
    as (byYear & Hrun & Hbuckets).
  assert (In p (bucket "NaN" byYear)) as Hin.
  { rewrite Hbuckets, !filter_In. repeat split; [ exact Hp | | ].
    - unfold isOther. rewrite Hmain, Hdate. reflexivity.
    - unfold keyOf. rewrite Hyear. reflexivity. }
  destruct (bucket_lookup _ _ _ Hin) as (items & Hl & Hi).
  exists (filter isMain platforms), byYear, items.
  rewrite Hrun. auto.
Qed.

Lemma unreadable_date_goes_under_NaN_witness :
  exists mainPlatforms byYear items,
    fst (run (GiantBombCurated.getCuratedFilters "key")
           (listingOf [wii; misdated]))
    = Normal (catalogueOf mainPlatforms byYear)
    /\ lookup "NaN" byYear = Some (JArr items)
    /\ In misdated items.
Proof.
  apply (unreadable_date_goes_under_NaN (listingOf [wii; misdated]) "key"
           [wii; misdated] misdated).
  - repeat split. intros q [ <- | [ <- | [] ] ]; discriminate.
  - right. left. reflexivity.
  - reflexivity.
  - reflexivity.
  - reflexivity.
Defined.

(** X23.  A platform outside the main list without a release date is left
    out of the catalogue: it is neither in [mainPlatforms] nor in any year
    bucket. *)
Theorem undated_platforms_are_dropped (w : World) (apiKey : string)
  (platforms : list JsVal) (p : JsVal) :
  listed w apiKey platforms ->
  isMain p = false ->
  truthy (field p "release_date") = false ->
  exists mainPlatforms byYear,
    fst (run (GiantBombCurated.getCuratedFilters apiKey) w)
    = Normal (catalogueOf mainPlatforms byYear)
    /\ ~ In p mainPlatforms
    /\ forall k items, lookup k byYear = Some (JArr items) -> ~ In p items.
Proof.
  intros Hlisted Hmain Hdate.
  destruct (listed_catalogue w apiKey platforms Hlisted)
    as (byYear & Hrun & Hbuckets).
  exists (filter isMain platforms), byYear.
  rewrite Hrun. split; [ reflexivity | ]. split.
  - rewrite filter_In. intros [ _ H ]. congruence.
  - intros k items Hl Hi. apply lookup_bucket in Hl. subst items.
    rewrite Hbuckets, !filter_In in Hi. destruct Hi as [ [ _ Hother ] _ ].
    unfold isOther in Hother. rewrite Hmain, Hdate in Hother. discriminate.
Qed.

Lemma undated_platforms_are_dropped_witness :
  exists mainPlatforms byYear,
    fst (run (GiantBombCurated.getCuratedFilters "key") catalogue)
    = Normal (catalogueOf mainPlatforms byYear)
    /\ ~ In undated mainPlatforms
    /\ forall k items, lookup k byYear = Some (JArr items) -> ~ In undated items.
Proof.
  apply (undated_platforms_are_dropped catalogue "key"
           [playstation4; wii; undated] undated).
  - repeat split. intros q [ <- | [ <- | [ <- | [] ] ] ]; discriminate.
  - reflexivity.
  - reflexivity.
Defined.

Lemma groupByYear_nonempty (w : World) (otherPlatforms : list JsVal) :
  forall acc s acc',
    arraysOnly acc ->
    (forall k, lookup k acc <> Some (JArr [])) ->
    fst (GiantBombCurated.groupByYear otherPlatforms acc w s) = Normal acc' ->
    forall k, lookup k acc' <> Some (JArr []).
Proof.
  induction otherPlatforms as [ | p rest IH ]; intros acc s acc' Harr Hne Hrun.
  - cbn in Hrun. inversion Hrun. subst acc'. exact Hne.
  - cbn [GiantBombCurated.groupByYear] in Hrun. js_unfold.
    rewrite (pushYear_spec acc _ p Harr) in Hrun.
    fold (keyOf w p) in Hrun.
    apply (IH (setField (keyOf w p)
                 (JArr (bucket (keyOf w p) acc ++ [p])) acc) s acc');
      [ | | exact Hrun ].
    + intros k v Hl.
      destruct (String.eqb_spec k (keyOf w p)) as [ -> | Hk ].
      * rewrite lookup_setField_same in Hl. inversion Hl. eauto.
      * rewrite lookup_setField_other in Hl by exact Hk. eauto.
    + intros k.
      destruct (String.eqb_spec k (keyOf w p)) as [ -> | Hk ].
      * rewrite lookup_setField_same. intros H. inversion H as [ Happ ].
        destruct (bucket (keyOf w p) acc); discriminate.
      * rewrite lookup_setField_other by exact Hk. apply Hne.
Qed.

(** X24.  The catalogue keeps the order of the listing and has no empty
    bucket: [mainPlatforms] is the listing restricted to the main ids, and
    every year key holds a non-empty array, the other dated platforms of that
    year in listing order. *)
Theorem catalogue_keeps_listing_order (w : World) (apiKey : string)
  (platforms : list JsVal) :
  listed w apiKey platforms ->
  exists byYear,
    run (GiantBombCurated.getCuratedFilters apiKey) w
    = (Normal (catalogueOf (filter isMain platforms) byYear),
       mkEffects [platformsRequest apiKey] 0)
    /\ forall k v,
        lookup k byYear = Some v ->
        exists items,
          v = JArr items
          /\ items <> []
          /\ items = filter (fun p => String.eqb (keyOf w p) k)
                       (filter isOther platforms).
Proof.
  intros Hlisted. pose proof Hlisted as (Hok & Hresults & Hids).
  destruct (getCuratedFilters_spec w apiKey platforms Hok Hresults Hids)
    as (byYear & Hrun & Harr & Hbuckets).
  exists byYear. split; [ exact Hrun | ].
  intros k v Hl. destruct (Harr k v Hl) as (items & ->).
  exists items. split; [ reflexivity | ]. split.
  - intros ->. revert Hl.
    enough (forall k0, lookup k0 byYear <> Some (JArr [])) as H by apply H.
    apply (groupByYear_nonempty w (filter isOther platforms) []
             (mkEffects [platformsRequest apiKey] 0) byYear).
    + intros k0 v0 H0. discriminate H0.
    + intros k0 H0. discriminate H0.
    + revert Hrun.
      unfold run, GiantBombCurated.getCuratedFilters,
        GiantBombCurated.giantBombFetch, GiantBomb.giantBombFetch.
      js_unfold. cbn [app noEffects calls draws List.length].
      fold (platformsRequest apiKey).
      rewrite Hok. cbn [negb]. rewrite Hresults.
      rewrite (classify_spec platforms [] [] Hids). cbn [app fst snd].
      destruct (GiantBombCurated.groupByYear (filter isOther platforms) [] w
                  (mkEffects [platformsRequest apiKey] 0))
        as [ [ acc | e ] s' ]; cbn [fst]; intros H; inversion H.
      reflexivity.
  - rewrite <- Hbuckets. symmetry. apply lookup_bucket. exact Hl.
Qed.

Lemma catalogue_keeps_listing_order_witness :
  exists byYear,
    run (GiantBombCurated.getCuratedFilters "key") catalogue
    = (Normal (catalogueOf (filter isMain [playstation4; wii; undated]) byYear),
       mkEffects [platformsRequest "key"] 0)
    /\ forall k v,
        lookup k byYear = Some v ->
        exists items,
          v = JArr items
          /\ items <> []
          /\ items = filter (fun p => String.eqb (keyOf catalogue p) k)
                       (filter isOther [playstation4; wii; undated]).
Proof.
  apply (catalogue_keeps_listing_order catalogue "key"
           [playstation4; wii; undated]).
  repeat split. intros q [ <- | [ <- | [ <- | [] ] ] ]; discriminate.
Defined.

(** ** Filters and failures of the one-shot samplers *)

Lemma append_assoc (a b c : string) : ((a ++ b) ++ c = a ++ (b ++ c))%string.
Proof.
  induction a as [ | x a IH ]; cbn [String.append]; congruence.
Qed.

Lemma concat_nonempty (sep x : string) (xs : list string) :
  x <> "" -> String.concat sep (x :: xs) <> "".
Proof.
  intros Hx. cbn [String.concat]. destruct xs as [ | y ys ].
  - exact Hx.
  - destruct x; [ congruence | discriminate ].
Qed.

(** X25.  The [filter] parameter of the Giant Bomb searches leaves out the
    dimensions the request did not select and has no stray comma: an empty
    dimension changes nothing, a selected one contributes [name:ids], joined
    by a comma to what follows only when something follows, and with nothing
    selected the filter is empty. *)
Theorem filter_lists_selected_dimensions (name ids : string)
  (dimensions : list (string * string)) :
  GiantBomb.filterOf ((name, "") :: dimensions) = GiantBomb.filterOf dimensions
  /\ (ids <> "" ->
      GiantBomb.filterOf ((name, ids) :: dimensions)
      = if String.eqb (GiantBomb.filterOf dimensions) ""
        then name ++ ":" ++ ids
        else name ++ ":" ++ ids ++ "," ++ GiantBomb.filterOf dimensions)
  /\ ((forall d, In d dimensions -> snd d = "") ->
      GiantBomb.filterOf dimensions = "").
Proof.
  unfold GiantBomb.filterOf. split; [ reflexivity | ]. split.
  - intros Hids. cbn [filter snd fst map].
    apply String.eqb_neq in Hids. rewrite Hids. cbn [negb map fst snd].
    destruct (filter (fun d => negb (snd d =? "")%string) dimensions)
      as [ | d rest ] eqn:Hf.
    + reflexivity.
    + cbn [map]. 
      destruct (String.eqb_spec
                  (String.concat "," ((fst d ++ ":" ++ snd d) :: map
                     (fun d0 => fst d0 ++ ":" ++ snd d0) rest)) "")
        as [ Hempty | _ ].
      * exfalso. revert Hempty. apply concat_nonempty.
        destruct (fst d); discriminate.
      * cbn [String.concat]. rewrite !append_assoc. reflexivity.
  - intros Hall.
    replace (filter (fun d => negb (snd d =? "")%string) dimensions)
      with (@nil (string * string)); [ reflexivity | ].
    symmetry. induction dimensions as [ | d rest IH ]; [ reflexivity | ].
    cbn [filter]. rewrite (Hall d (or_introl eq_refl)). cbn.
    apply IH. intros d0 Hd0. apply Hall. right. exact Hd0.
Qed.

Lemma filter_lists_selected_dimensions_witness :
  GiantBomb.filterOf [("genres", "4,5"); ("concepts", ""); ("platforms", "94")]
  = "genres:4,5,platforms:94".
Proof.
  rewrite (proj1 (proj2 (filter_lists_selected_dimensions "genres" "4,5"
                           [("concepts", ""); ("platforms", "94")])))
    by discriminate.
  reflexivity.
Defined.

Ltac failed_call_is_last :=
  js_cases; cbn [noEffects calls draws app List.length] in *;
  intros i req Hn Hfail;
  repeat (destruct i as [ | i ]; cbn [nth_error] in Hn;
          [ first [ discriminate Hn
                  | inversion Hn; subst req; ok_facts;
                    first [ congruence | split; reflexivity ] ]
          | try discriminate Hn ]).

(** X26.  In a one-shot sampler a failed call is the last call: the sampler
    throws the error made from that response (on RAWG the status text, on
    Giant Bomb the error text or a default) and asks nothing more. *)
Theorem one_shot_failure_aborts (w : World) (apiKey apiHost : string)
  (genres : string) (dimensions : list (string * string)) :
  abortedWith rawgFailure w
    (run (Rawg.getSortedGame apiKey apiHost genres) w)
  /\ (forall platforms,
         abortedWith gbTextFailure w
           (run (GiantBomb.getSortedGame apiKey genres platforms) w))
  /\ abortedWith gbTextFailure w
       (run (GiantBombCurated.sample apiKey dimensions) w)
  /\ abortedWith gbTextFailure w
       (run (GiantBombCurated.getCuratedFilters apiKey) w).
Proof.
  unfold abortedWith, rawgFailure, gbTextFailure.
  split; [ | split; [ intros platforms | split ] ].
  - unfold run, Rawg.getSortedGame, Rawg.rawgFetch. failed_call_is_last.
  - unfold run, GiantBomb.getSortedGame, GiantBomb.giantBombFetch.
    failed_call_is_last.
  - unfold run, GiantBombCurated.sample, GiantBombCurated.giantBombFetch,
      GiantBomb.giantBombFetch.
    failed_call_is_last.
  - unfold run, GiantBombCurated.getCuratedFilters,
      GiantBombCurated.giantBombFetch, GiantBomb.giantBombFetch.
    intros i req. js_unfold. cbn [noEffects calls app List.length].
    destruct (ok (respond w 0 _)) eqn:Hok; cbn [negb]; js_unfold.
    +       match goal with
      | |- context [results ?l] => destruct (results l) as [ platforms | ]
      end; js_unfold;
        [ destruct (GiantBombCurated.classify platforms [] [])
            as [ sorted | e ]; js_unfold;
          [ match goal with
            | |- context [GiantBombCurated.groupByYear ?l ?acc ?w' ?s] =>
                pose proof (groupByYear_effects w' l acc s) as E;
                destruct (GiantBombCurated.groupByYear l acc w' s)
                  as [ [ byYear | e ] s' ]; cbn [snd] in E; subst s'
            end | ] | ];
        cbn [fst snd calls]; intros Hn Hfail;
        (destruct i as [ | i ]; cbn [nth_error] in Hn;
         [ inversion Hn; subst req; congruence
         | destruct i; discriminate ]).
    + cbn [fst snd calls]. intros Hn Hfail.
      destruct i as [ | i ]; cbn [nth_error] in Hn;
        [ inversion Hn; subst req; split; reflexivity
        | destruct i; discriminate ].
Qed.

Lemma one_shot_failure_aborts_witness :
  fst (run (Rawg.getSortedGame "key" "host" "4")
         (answering 2 unavailable (worldOf doom)))
  = Throw (Error "Erro ao comunicar com a API de jogos: Service Unavailable")
  /\ List.length
       (calls (snd (run (Rawg.getSortedGame "key" "host" "4")
                      (answering 2 unavailable (worldOf doom))))) = 3%nat.
Proof.
  apply (proj1 (one_shot_failure_aborts
                  (answering 2 unavailable (worldOf doom)) "key" "host" "4" [])
           2%nat (rawgGameRequest "key" "host" "3498"));
    reflexivity.
Defined.
